(** * fuzoku-radio: the school radio message board

    A shallow embedding of the two HTTP services of the repository,

    - [src/server/server.js]: the service on the embedded relational store
      (module [Sqlite] below), and
    - the second service file, on the document store through an object
      mapper with schemas (module [Mongo] below),

    and the properties of their REST endpoints.  A handler is a function
    from the request, the inputs the environment supplies (clock, random
    token, fresh identifier, outcome of each storage call) and the stored
    state to the response and the new state. *)

From Stdlib Require Import ZArith String Ascii List Bool DecimalString Lia.
From Stdlib Require Import DecimalPos.
From Stdlib Require Import Permutation Sorted.
Import ListNotations.
Open Scope string_scope.
Open Scope Z_scope.
Set Warnings "-register-all".

(** ** JavaScript values as a JSON body carries them *)

Module Js.

(** A field of [req.body].  [JUndefined] is an absent key.  Numbers are the
    integer-valued ones; the runtime holds and prints exactly the safe ones
    ([safe_integer] below), and the properties that depend on the text or
    the binding of a number are stated for those. *)
Inductive JsVal : Type :=
| JUndefined
| JNull
| JBool (b : bool)
| JNum (n : Z)
| JStr (s : string)
| JArr (items : list JsVal)
| JObj (fields : list (string * JsVal)).

(** ToBoolean: [undefined], [null], [false], [0] and [""] are falsy, every
    other value, arrays and objects included, is truthy. *)
Definition truthy (v : JsVal) : bool :=
  match v with
  | JUndefined | JNull => false
  | JBool b => b
  | JNum n => negb (n =? 0)
  | JStr s => negb (String.eqb s "")
  | JArr _ | JObj _ => true
  end.

(** [a || b] *)
Definition or_else (a b : JsVal) : JsVal := if truthy a then a else b.

(** [a && b] *)
Definition and_then (a b : JsVal) : JsVal := if truthy a then b else a.

(** [!a] *)
Definition falsy (a : JsVal) : bool := negb (truthy a).

Definition dec (n : Z) : string := NilZero.string_of_int (Z.to_int n).

Fixpoint join (sep : string) (l : list string) : string :=
  match l with
  | [] => ""
  | [s] => s
  | s :: rest => s ++ sep ++ join sep rest
  end.

(** ToString, as a template literal applies it.  A number is its decimal
    numeral, which is what the runtime prints of a safe integer (a larger
    one it rounds, and from 1e21 on prints with an exponent).  An array is
    its elements joined by commas, with [null] and [undefined] elements
    left empty.  An object is [[object Object]], which is what the runtime
    prints of an object of a JSON body unless it has a [toString] key of
    its own ([printable] below). *)
Fixpoint toString (v : JsVal) : string :=
  match v with
  | JUndefined => "undefined"
  | JNull => "null"
  | JBool true => "true"
  | JBool false => "false"
  | JNum n => dec n
  | JStr s => s
  | JArr items =>
      join "," (map (fun x => match x with
                              | JUndefined | JNull => ""
                              | _ => toString x
                              end) items)
  | JObj _ => "[object Object]"
  end.




(** The integers of 32 bits. *)
Definition int32 (n : Z) : bool := (-2147483648 <=? n) && (n <=? 2147483647).

End Js.
Import Js.

(** ** Requests and responses *)

(** What a handler reads of the request besides the body and the path
    parameter: [req.protocol], [req.get('host')], and the three places the
    client address is looked up in. *)
Record Request : Type := mkRequest {
  protocol : string;
  host : JsVal;
  x_forwarded_for : JsVal;
  connection_remoteAddress : JsVal;
  socket_remoteAddress : JsVal
}.

(** The outcome of one call to the storage layer: it completed, or it
    reported an error to the callback (threw, in the second service). *)
Inductive Outcome : Type := Done | Failed.

(** [res.status(n).json(b)]; [res.json(b)] is status 200.  An error body is
    [{ error: msg }]. *)
Inductive Payload (B : Type) : Type :=
| Json (b : B)
| ErrorJson (error : string).
Arguments Json {B} b.
Arguments ErrorJson {B} error.

Record Response (B : Type) : Type := mkResponse {
  status : Z;
  payload : Payload B
}.
Arguments mkResponse {B} status payload.
Arguments status {B} r.
Arguments payload {B} r.

Definition ok {B} (b : B) : Response B := mkResponse 200 (Json b).
Definition fail {B} (code : Z) (msg : string) : Response B :=
  mkResponse code (ErrorJson msg).

(** [{ url, token }] *)
Record TokenBody : Type := mkTokenBody {
  url : option string;
  token : option string
}.

(** [{ valid }] and [{ valid, message }] *)
Record VerifyBody : Type := mkVerifyBody {
  valid : bool;
  message : option string
}.

(** [{ success: true }] *)
Inductive SuccessBody : Type := Success.

(** [`${req.protocol}://${req.get('host')}/staff.html?token=${token}`] *)
Definition staff_url (req : Request) (tok : string) : string :=
  protocol req ++ "://" ++ toString (host req) ++ "/staff.html?token=" ++ tok.

(** ** Dates *)

Module Date.

(** A JavaScript [Date], kept as its UTC calendar fields.  The order of two
    dates is the order of their fields read from the year down, which is
    the order of their epoch milliseconds. *)
Record t : Type := mk {
  year : Z;
  month : Z;
  day : Z;
  hours : Z;
  minutes : Z;
  seconds : Z;
  milliseconds : Z
}.

Definition fields (d : t) : list Z :=
  [year d; month d; day d; hours d; minutes d; seconds d; milliseconds d].

Fixpoint lex (a b : list Z) : comparison :=
  match a, b with
  | [], [] => Eq
  | [], _ :: _ => Lt
  | _ :: _, [] => Gt
  | x :: a', y :: b' =>
      match x ?= y with
      | Eq => lex a' b'
      | c => c
      end
  end.

Definition compare (a b : t) : comparison := lex (fields a) (fields b).

(** [a <= b] on instants *)
Definition leb (a b : t) : bool :=
  match compare a b with Gt => false | _ => true end.

(** The calendar day of a date, and [a <= b] on days: the time of day does
    not count. *)
Definition calendar (d : t) : list Z := [year d; month d; day d].

Definition day_leb (a b : t) : bool :=
  match lex (calendar a) (calendar b) with Gt => false | _ => true end.

(** The fields are in the ranges of a four-digit year. *)
Definition wf (d : t) : Prop :=
  0 <= year d <= 9999 /\ 1 <= month d <= 12 /\ 1 <= day d <= 31 /\
  0 <= hours d <= 23 /\ 0 <= minutes d <= 59 /\ 0 <= seconds d <= 59 /\
  0 <= milliseconds d <= 999.

Definition digit (d : Z) : ascii := ascii_of_nat (48 + Z.to_nat d).

(** [n] in decimal on [width] digits, zero-padded. *)
Fixpoint pad (width : nat) (n : Z) : string :=
  match width with
  | O => ""
  | S w => pad w (n / 10) ++ String (digit (n mod 10)) ""
  end.

(** The [YYYY-MM-DD] part. *)
Definition isoDate (d : t) : string :=
  pad 4 (year d) ++ "-" ++ pad 2 (month d) ++ "-" ++ pad 2 (day d).

(** [d.toISOString()]: [YYYY-MM-DDTHH:mm:ss.sssZ] *)
Definition toISOString (d : t) : string :=
  isoDate d ++ "T" ++ pad 2 (hours d) ++ ":" ++ pad 2 (minutes d) ++ ":"
    ++ pad 2 (seconds d) ++ "." ++ pad 3 (milliseconds d) ++ "Z".

End Date.

(** [s.split(sep)] for a one-character separator *)
Fixpoint str_split (sep : ascii) (s : string) : list string :=
  match s with
  | EmptyString => [""]
  | String c rest =>
      if Ascii.eqb c sep then "" :: str_split sep rest
      else match str_split sep rest with
           | h :: t => String c h :: t
           | [] => [String c ""]
           end
  end.

(** [ORDER BY created_at DESC] / [.sort({ created_at: -1 })]: newest first,
    rows of equal date in the order the table has them. *)
Section OrderBy.
Context {A : Type} (created_at : A -> Date.t).

Fixpoint insert_desc (x : A) (l : list A) : list A :=
  match l with
  | [] => [x]
  | y :: rest =>
      if Date.leb (created_at y) (created_at x) then x :: l
      else y :: insert_desc x rest
  end.

Definition order_desc (l : list A) : list A := fold_right insert_desc [] l.

End OrderBy.

(** The fields a handler destructures from [req.body]. *)
Module ThemeForm.
Record t : Type := mk {
  title : JsVal;
  description : JsVal;
  start_date : JsVal;
  end_date : JsVal
}.
End ThemeForm.

Module MessageForm.
Record t : Type := mk {
  sender_name : JsVal;
  radio_name : JsVal;
  school_year : JsVal;
  school_class : JsVal;
  theme_id : JsVal;
  content : JsVal;
  share_name : JsVal;
  share_class : JsVal;
  share_theme : JsVal
}.
End MessageForm.

(** [{ success: true, id, message }] *)
Record SubmitBody (I : Type) : Type := mkSubmitBody {
  submitted_id : I;
  submitted_message : string
}.
Arguments mkSubmitBody {I} submitted_id submitted_message.
Arguments submitted_id {I} s.
Arguments submitted_message {I} s.

(** The client address: [req.headers['x-forwarded-for'] ||
    req.connection.remoteAddress || req.socket.remoteAddress] *)
Definition client_ip (req : Request) : JsVal :=
  or_else (x_forwarded_for req)
    (or_else (connection_remoteAddress req) (socket_remoteAddress req)).

(** [(school_year && school_class) ? `${school_year}年${school_class}組` : null] *)
Definition fullClass (school_year school_class : JsVal) : JsVal :=
  if truthy (and_then school_year school_class)
  then JStr (toString school_year ++ "年" ++ toString school_class ++ "組")
  else JNull.

(** ** The service on the relational store ([src/server/server.js]) *)

Module Sqlite.

(** A value in a column: the storage classes the handlers can produce. *)
Inductive SqlVal : Type :=
| SNull
| SInt (n : Z)
| SText (s : string).

(** What the engine and its driver do and the service file does not say:
    which texts the engine reads as an integer when a column of INTEGER or
    NUMERIC affinity meets them, and the text the driver binds for an array
    or an object. *)
Class Engine : Type := {
  numeric_of_text : string -> option Z;
  render : JsVal -> string
}.

(** A JavaScript value bound to a [?] of a statement.  A number is bound as
    an integer, which is what the driver does with the numbers of 32 bits
    ([int32]); any other number it binds as a float. *)
Definition bind {engine : Engine} (v : JsVal) : SqlVal :=
  match v with
  | JUndefined | JNull => SNull
  | JBool b => SInt (if b then 1 else 0)
  | JNum n => SInt n
  | JStr s => SText s
  | JArr _ | JObj _ => SText (render v)
  end.

(** Column affinity: a TEXT column keeps numbers as their text; an INTEGER,
    DATE or DATETIME column turns a text that reads as a number into it. *)
Definition text_affinity (x : SqlVal) : SqlVal :=
  match x with
  | SInt n => SText (dec n)
  | _ => x
  end.

Definition numeric_affinity {engine : Engine} (x : SqlVal) : SqlVal :=
  match x with
  | SText s => match numeric_of_text s with
               | Some n => SInt n
               | None => x
               end
  | _ => x
  end.

Definition is_null (x : SqlVal) : bool :=
  match x with SNull => true | _ => false end.

(** Comparison of two values; [None] when one is NULL.  An integer sorts
    before every text, two texts compare byte by byte. *)
Definition sql_compare (a b : SqlVal) : option comparison :=
  match a, b with
  | SNull, _ | _, SNull => None
  | SInt x, SInt y => Some (x ?= y)
  | SInt _, SText _ => Some Lt
  | SText _, SInt _ => Some Gt
  | SText x, SText y => Some (String.compare x y)
  end.

(** [a = b], [a <= b], [a >= b] as a WHERE clause reads them: a comparison
    with NULL does not select the row. *)
Definition sql_eq (a b : SqlVal) : bool :=
  match sql_compare a b with Some Eq => true | _ => false end.
Definition sql_le (a b : SqlVal) : bool :=
  match sql_compare a b with Some Lt | Some Eq => true | _ => false end.
Definition sql_ge (a b : SqlVal) : bool :=
  match sql_compare a b with Some Gt | Some Eq => true | _ => false end.

(** *** Tables *)

Module Theme.
Record t : Type := mk {
  id : Z;
  title : SqlVal;
  description : SqlVal;
  start_date : SqlVal;
  end_date : SqlVal;
  created_at : Date.t;
  is_active : Z
}.
End Theme.

Module Message.
Record t : Type := mk {
  id : Z;
  sender_name : SqlVal;
  radio_name : SqlVal;
  school_class : SqlVal;
  theme_id : SqlVal;
  content : SqlVal;
  share_name : Z;
  share_class : Z;
  share_theme : Z;
  ip_address : SqlVal;
  created_at : Date.t;
  is_read : Z
}.
End Message.

Module AccessToken.
Record t : Type := mk {
  id : Z;
  token : string;
  created_at : Date.t;
  is_active : Z
}.
End AccessToken.

(** The database: the three tables in rowid order and, for the two
    AUTOINCREMENT tables, the largest rowid ever handed out. *)
Record Db : Type := mkDb {
  themes : list Theme.t;
  themes_seq : Z;
  messages : list Message.t;
  messages_seq : Z;
  access_token : list AccessToken.t
}.

Definition empty : Db := mkDb [] 0 [] 0 [].

Definition max_id (ids : list Z) : Z := fold_right Z.max 0 ids.

(** The rowid of the next row. *)
Definition next_autoincrement (seq : Z) (ids : list Z) : Z :=
  Z.max seq (max_id ids) + 1.
Definition next_rowid (ids : list Z) : Z := max_id ids + 1.

Definition with_access_token (db : Db) (rows : list AccessToken.t) : Db :=
  mkDb (themes db) (themes_seq db) (messages db) (messages_seq db) rows.
Definition with_themes (db : Db) (rows : list Theme.t) (seq : Z) : Db :=
  mkDb rows seq (messages db) (messages_seq db) (access_token db).
Definition with_messages (db : Db) (rows : list Message.t) (seq : Z) : Db :=
  mkDb (themes db) (themes_seq db) rows seq (access_token db).

(** *** GET /api/teacher/get-current-token *)

(** [SELECT * FROM access_token WHERE is_active = 1 LIMIT 1] *)
Definition select_active_token (db : Db) : option AccessToken.t :=
  find (fun r => AccessToken.is_active r =? 1) (access_token db).

Definition get_current_token (req : Request) (io : Outcome) (db : Db)
  : Response TokenBody * Db :=
  match io with
  | Failed => (fail 500 "トークン取得に失敗しました", db)
  | Done =>
      match select_active_token db with
      | Some row =>
          let url := staff_url req (AccessToken.token row) in
          (ok (mkTokenBody (Some url) (Some (AccessToken.token row))), db)
      | None => (ok (mkTokenBody None None), db)
      end
  end.

(** *** POST /api/teacher/generate-url *)

(** [INSERT INTO access_token (token, is_active) VALUES (?, ?)]; the token
    column is UNIQUE. *)
Definition insert_access_token (now : Date.t) (tok : string) (active : Z)
    (rows : list AccessToken.t) : option (list AccessToken.t) :=
  if existsb (fun r => String.eqb (AccessToken.token r) tok) rows then None
  else Some (rows ++ [AccessToken.mk (next_rowid (map AccessToken.id rows))
                        tok now active])%list.

(** [uuid] is the result of [uuidv4()], [io_delete] and [io_insert] the
    outcomes of the two statements. *)
Definition generate_url (req : Request) (uuid : string) (now : Date.t)
    (io_delete io_insert : Outcome) (db : Db) : Response TokenBody * Db :=
  let token := uuid in
  match io_delete with
  | Failed => (fail 500 "URL生成に失敗しました", db)
  | Done =>
      let db1 := with_access_token db [] in
      match io_insert, insert_access_token now token 1 (access_token db1) with
      | Done, Some rows =>
          let url := staff_url req token in
          (ok (mkTokenBody (Some url) (Some token)), with_access_token db1 rows)
      | _, _ => (fail 500 "URL生成に失敗しました", db1)
      end
  end.

(** *** GET /api/verify-token/:token *)

(** [SELECT * FROM access_token WHERE token = ? AND is_active = 1] *)
Definition select_token (tok : string) (db : Db) : option AccessToken.t :=
  find (fun r => String.eqb (AccessToken.token r) tok
                 && (AccessToken.is_active r =? 1))
       (access_token db).

Definition verify_token (tok : string) (io : Outcome) (db : Db)
  : Response VerifyBody * Db :=
  match io with
  | Failed => (fail 500 "トークン検証エラー", db)
  | Done =>
      match select_token tok db with
      | None =>
          (mkResponse 401
             (Json (mkVerifyBody false (Some "無効なトークンです"))), db)
      | Some _ => (ok (mkVerifyBody true None), db)
      end
  end.

(** *** GET /api/staff/themes *)

(** [SELECT * FROM themes WHERE is_active = 1 ORDER BY created_at DESC] *)
Definition staff_themes_get (io : Outcome) (db : Db)
  : Response (list Theme.t) * Db :=
  match io with
  | Failed => (fail 500 "テーマ取得に失敗しました", db)
  | Done =>
      let rows := filter (fun t => Theme.is_active t =? 1) (themes db) in
      (ok (order_desc Theme.created_at rows), db)
  end.

(** *** POST /api/staff/themes *)

(** [{ id, title, description, start_date, end_date }], the last four as
    the request had them. *)
Record ThemeBody : Type := mkThemeBody {
  body_id : Z;
  body_title : JsVal;
  body_description : JsVal;
  body_start_date : JsVal;
  body_end_date : JsVal
}.

(** [INSERT INTO themes (title, description, start_date, end_date)
    VALUES (?, ?, ?, ?)]; title is NOT NULL, created_at and is_active take
    their defaults. *)
Definition insert_theme {engine : Engine} (now : Date.t)
    (title description start_date end_date : JsVal) (db : Db)
  : option (Z * Db) :=
  let lastID := next_autoincrement (themes_seq db) (map Theme.id (themes db)) in
  let row := Theme.mk lastID
               (text_affinity (bind title))
               (text_affinity (bind description))
               (numeric_affinity (bind start_date))
               (numeric_affinity (bind end_date))
               now 1 in
  if is_null (Theme.title row) then None
  else Some (lastID, with_themes db (themes db ++ [row])%list lastID).

Definition staff_themes_post {engine : Engine} (body : ThemeForm.t)
    (now : Date.t) (io : Outcome) (db : Db) : Response ThemeBody * Db :=
  let title := ThemeForm.title body in
  let description := ThemeForm.description body in
  let start_date := ThemeForm.start_date body in
  let end_date := ThemeForm.end_date body in
  if falsy title then (fail 400 "テーマのタイトルは必須です", db)
  else
    match io, insert_theme now title description
                (or_else start_date JNull) (or_else end_date JNull) db with
    | Done, Some (lastID, db') =>
        (ok (mkThemeBody lastID title description start_date end_date), db')
    | _, _ => (fail 500 "テーマ作成に失敗しました", db)
    end.

(** *** DELETE /api/staff/themes/:id *)

(** [WHERE id = ?] for a path parameter: the parameter is a text, the
    column an integer, so the engine reads the text as a number where it
    can and compares. *)
Definition where_id {engine : Engine} (param : string) (rowid : Z) : bool :=
  sql_eq (SInt rowid) (numeric_affinity (SText param)).

Definition deactivate (t : Theme.t) : Theme.t :=
  Theme.mk (Theme.id t) (Theme.title t) (Theme.description t)
    (Theme.start_date t) (Theme.end_date t) (Theme.created_at t) 0.

(** [UPDATE themes SET is_active = 0 WHERE id = ?] *)
Definition staff_themes_delete {engine : Engine} (id : string) (io : Outcome)
    (db : Db) : Response SuccessBody * Db :=
  match io with
  | Failed => (fail 500 "テーマ削除に失敗しました", db)
  | Done =>
      let rows := map (fun t => if where_id id (Theme.id t) then deactivate t
                                else t) (themes db) in
      (ok Success, with_themes db rows (themes_seq db))
  end.

(** *** PUT /api/staff/messages/:id/read *)

Definition mark_read (m : Message.t) : Message.t :=
  Message.mk (Message.id m) (Message.sender_name m) (Message.radio_name m)
    (Message.school_class m) (Message.theme_id m) (Message.content m)
    (Message.share_name m) (Message.share_class m) (Message.share_theme m)
    (Message.ip_address m) (Message.created_at m) 1.

(** [UPDATE messages SET is_read = 1 WHERE id = ?] *)
Definition staff_messages_read {engine : Engine} (id : string) (io : Outcome)
    (db : Db) : Response SuccessBody * Db :=
  match io with
  | Failed => (fail 500 "既読化に失敗しました", db)
  | Done =>
      let rows := map (fun m => if where_id id (Message.id m) then mark_read m
                                else m) (messages db) in
      (ok Success, with_messages db rows (messages_seq db))
  end.

(** *** GET /api/student/themes *)

(** [is_active = 1 AND (start_date IS NULL OR start_date <= ?)
    AND (end_date IS NULL OR end_date >= ?)], both [?] bound to [today].
    The date columns have NUMERIC affinity, which the comparison applies to
    the parameter too. *)
Definition open_on {engine : Engine} (today : string) (t : Theme.t) : bool :=
  let p := numeric_affinity (SText today) in
  (Theme.is_active t =? 1)
  && (is_null (Theme.start_date t) || sql_le (Theme.start_date t) p)
  && (is_null (Theme.end_date t) || sql_ge (Theme.end_date t) p).

(** [now] is [new Date()]. *)
Definition student_themes_get {engine : Engine} (now : Date.t) (io : Outcome)
    (db : Db) : Response (list Theme.t) * Db :=
  let today := hd "" (str_split "T" (Date.toISOString now)) in
  match io with
  | Failed => (fail 500 "テーマ取得に失敗しました", db)
  | Done =>
      (ok (order_desc Theme.created_at (filter (open_on today) (themes db))),
       db)
  end.

(** *** POST /api/student/messages *)

(** [INSERT INTO messages (sender_name, radio_name, school_class, theme_id,
    content, share_name, share_class, share_theme, ip_address) VALUES ...];
    radio_name and content are NOT NULL.  The service never switches the
    engine's foreign-key enforcement on, so theme_id is stored unchecked. *)
Definition insert_message {engine : Engine} (now : Date.t)
    (sender_name radio_name school_class theme_id content : JsVal)
    (share_name share_class share_theme : Z) (ip : JsVal) (db : Db)
  : option (Z * Db) :=
  let lastID :=
    next_autoincrement (messages_seq db) (map Message.id (messages db)) in
  let row := Message.mk lastID
               (text_affinity (bind sender_name))
               (text_affinity (bind radio_name))
               (text_affinity (bind school_class))
               (numeric_affinity (bind theme_id))
               (text_affinity (bind content))
               share_name share_class share_theme
               (text_affinity (bind ip))
               now 0 in
  if is_null (Message.radio_name row) || is_null (Message.content row)
  then None
  else Some (lastID, with_messages db (messages db ++ [row])%list lastID).

Definition student_messages_post {engine : Engine} (req : Request)
    (body : MessageForm.t) (now : Date.t) (io : Outcome) (db : Db)
  : Response (SubmitBody Z) * Db :=
  let sender_name := MessageForm.sender_name body in
  let radio_name := MessageForm.radio_name body in
  let school_year := MessageForm.school_year body in
  let school_class := MessageForm.school_class body in
  let theme_id := MessageForm.theme_id body in
  let content := MessageForm.content body in
  let share_name := MessageForm.share_name body in
  let share_class := MessageForm.share_class body in
  let share_theme := MessageForm.share_theme body in
  if falsy radio_name || falsy content
  then (fail 400 "ラジオネームとお便り内容は必須です", db)
  else
    let ip := client_ip req in
    let fullClass := fullClass school_year school_class in
    match io, insert_message now (or_else sender_name JNull) radio_name
                fullClass theme_id content
                (if truthy share_name then 1 else 0)
                (if truthy share_class then 1 else 0)
                (if truthy share_theme then 1 else 0) ip db with
    | Done, Some (lastID, db') =>
        (ok (mkSubmitBody lastID "お便りを送信しました"), db')
    | _, _ => (fail 500 "お便り送信に失敗しました", db)
    end.

(** *** GET /api/staff/messages *)

(** A row of the join: [m.*] and [t.title as theme_title]. *)
Module MessageRow.
Record t : Type := mk {
  message : Message.t;
  theme_title : SqlVal
}.
End MessageRow.

(** [messages m LEFT JOIN themes t ON m.theme_id = t.id], for one message:
    a row for each theme whose id the stored theme_id equals, or one row
    with a NULL title when there is none.  Both columns are integer
    columns, so the stored values are compared as they are. *)
Definition left_join_themes (themes : list Theme.t) (m : Message.t)
  : list MessageRow.t :=
  match filter (fun t => sql_eq (Message.theme_id m) (SInt (Theme.id t)))
               themes with
  | [] => [MessageRow.mk m SNull]
  | matched => map (fun t => MessageRow.mk m (Theme.title t)) matched
  end.

(** [SELECT m.*, t.title as theme_title FROM messages m LEFT JOIN themes t
    ON m.theme_id = t.id ORDER BY m.created_at DESC] *)
Definition staff_messages_get (io : Outcome) (db : Db)
  : Response (list MessageRow.t) * Db :=
  match io with
  | Failed => (fail 500 "お便り取得に失敗しました", db)
  | Done =>
      let rows := flat_map (left_join_themes (themes db)) (messages db) in
      (ok (order_desc (fun r => Message.created_at (MessageRow.message r))
             rows), db)
  end.

(** *** GET /api/teacher/logs *)

(** [m.id, m.sender_name, m.radio_name, m.school_class, m.content,
    m.ip_address, m.created_at, t.title as theme_title] *)
Module LogRow.
Record t : Type := mk {
  id : Z;
  sender_name : SqlVal;
  radio_name : SqlVal;
  school_class : SqlVal;
  content : SqlVal;
  ip_address : SqlVal;
  created_at : Date.t;
  theme_title : SqlVal
}.
End LogRow.

Definition select_log (r : MessageRow.t) : LogRow.t :=
  let m := MessageRow.message r in
  LogRow.mk (Message.id m) (Message.sender_name m) (Message.radio_name m)
    (Message.school_class m) (Message.content m) (Message.ip_address m)
    (Message.created_at m) (MessageRow.theme_title r).

Definition teacher_logs (io : Outcome) (db : Db)
  : Response (list LogRow.t) * Db :=
  match io with
  | Failed => (fail 500 "ログ取得に失敗しました", db)
  | Done =>
      let rows := flat_map (left_join_themes (themes db)) (messages db) in
      (ok (order_desc LogRow.created_at (map select_log rows)), db)
  end.

(** *** The routes *)

(** A request to one of the API routes, with what the environment supplies
    while it is handled. *)
Inductive Call : Type :=
| GetCurrentToken (req : Request) (io : Outcome)
| GenerateUrl (req : Request) (uuid : string) (now : Date.t)
    (io_delete io_insert : Outcome)
| VerifyToken (tok : string) (io : Outcome)
| StaffThemesGet (io : Outcome)
| StaffThemesPost (body : ThemeForm.t) (now : Date.t) (io : Outcome)
| StaffThemesDelete (id : string) (io : Outcome)
| StaffMessagesGet (io : Outcome)
| StaffMessagesRead (id : string) (io : Outcome)
| StudentThemesGet (now : Date.t) (io : Outcome)
| StudentMessagesPost (req : Request) (body : MessageForm.t) (now : Date.t)
    (io : Outcome)
| TeacherLogs (io : Outcome).

Definition answered {B : Type} (out : Response B * Db) : Z * Db :=
  (status (fst out), snd out).

(** The status a call is answered with and the database it leaves. *)
Definition route {engine : Engine} (c : Call) (db : Db) : Z * Db :=
  match c with
  | GetCurrentToken req io => answered (get_current_token req io db)
  | GenerateUrl req uuid now io1 io2 =>
      answered (generate_url req uuid now io1 io2 db)
  | VerifyToken tok io => answered (verify_token tok io db)
  | StaffThemesGet io => answered (staff_themes_get io db)
  | StaffThemesPost body now io => answered (staff_themes_post body now io db)
  | StaffThemesDelete id io => answered (staff_themes_delete id io db)
  | StaffMessagesGet io => answered (staff_messages_get io db)
  | StaffMessagesRead id io => answered (staff_messages_read id io db)
  | StudentThemesGet now io => answered (student_themes_get now io db)
  | StudentMessagesPost req body now io =>
      answered (student_messages_post req body now io db)
  | TeacherLogs io => answered (teacher_logs io db)
  end.

(** The database after a sequence of calls, one after the other. *)
Definition run {engine : Engine} (calls : list Call) (db : Db) : Db :=
  fold_left (fun db c => snd (route c db)) calls db.

End Sqlite.

(** ** The service on the document store (the second service file) *)

Module Mongo.

(** An ObjectId is twelve bytes, kept as the number they spell. *)
Definition ObjectId : Type := N.

(** What the object mapper does and the service file does not say: the
    ObjectId a value is cast to for an [ObjectId] path, if any; whether
    [ObjectId.isValid] accepts a value that is not a string; the string a
    value that is neither a string nor null is cast to for a [String] path;
    the date a value is cast to for a [Date] path.  [None] is the mapper
    refusing the value. *)
Class Mapper : Type := {
  objectId_of : JsVal -> option ObjectId;
  isValid_other : JsVal -> bool;
  string_of_other : JsVal -> option string;
  date_of : JsVal -> option Date.t
}.

(** [mongoose.Types.ObjectId.isValid(v)].  A string is valid when it spells
    an ObjectId, the one the cast makes of it.  On the other values the
    check and the cast are two functions of the library, and need not
    agree: the check accepts every number, the cast of a path refuses it. *)
Definition isValid {mapper : Mapper} (v : JsVal) : bool :=
  match v with
  | JStr _ => match objectId_of v with Some _ => true | None => false end
  | _ => isValid_other v
  end.

(** Casting a value to the type of its schema path.  [null] and an absent
    value are kept as no value; the outer [None] is a cast error. *)
Definition cast_String {mapper : Mapper} (v : JsVal) : option (option string) :=
  match v with
  | JUndefined | JNull => Some None
  | JStr s => Some (Some s)
  | _ => option_map Some (string_of_other v)
  end.

Definition cast_Date {mapper : Mapper} (v : JsVal) : option (option Date.t) :=
  match v with
  | JUndefined | JNull => Some None
  | _ => option_map Some (date_of v)
  end.

Definition cast_ObjectId {mapper : Mapper} (v : JsVal)
  : option (option ObjectId) :=
  match v with
  | JUndefined | JNull => Some None
  | _ => option_map Some (objectId_of v)
  end.

(** [required: true] on a [String] path: a value, and not the empty one. *)
Definition required (s : option string) : option string :=
  match s with
  | Some x => if String.eqb x "" then None else Some x
  | None => None
  end.

(** *** Collections *)

Module Theme.
Record t : Type := mk {
  _id : ObjectId;
  title : string;
  description : option string;
  start_date : option Date.t;
  end_date : option Date.t;
  created_at : Date.t;
  is_active : bool
}.
End Theme.

Module Message.
Record t : Type := mk {
  _id : ObjectId;
  sender_name : option string;
  radio_name : string;
  school_class : option string;
  theme_id : option ObjectId;
  content : string;
  share_name : bool;
  share_class : bool;
  share_theme : bool;
  ip_address : option string;
  created_at : Date.t;
  is_read : bool
}.
End Message.

Module AccessToken.
Record t : Type := mk {
  _id : ObjectId;
  token : string;
  created_at : Date.t;
  is_active : bool
}.
End AccessToken.

(** The three collections, each in insertion order. *)
Record Db : Type := mkDb {
  themes : list Theme.t;
  messages : list Message.t;
  accesstokens : list AccessToken.t
}.

Definition empty : Db := mkDb [] [] [].

Definition with_accesstokens (db : Db) (docs : list AccessToken.t) : Db :=
  mkDb (themes db) (messages db) docs.
Definition with_themes (db : Db) (docs : list Theme.t) : Db :=
  mkDb docs (messages db) (accesstokens db).
Definition with_messages (db : Db) (docs : list Message.t) : Db :=
  mkDb (themes db) docs (accesstokens db).

(** [const toClient = (docs) => docs.map((doc) => ({ ...doc, id: doc._id }))] *)
Definition toClient {D : Type} (_id : D -> ObjectId) (docs : list D)
  : list (D * ObjectId) :=
  map (fun doc => (doc, _id doc)) docs.

(** *** GET /api/teacher/get-current-token *)

(** [AccessToken.findOne({ is_active: true }).sort({ created_at: -1 })] *)
Definition find_active_token (db : Db) : option AccessToken.t :=
  hd_error (order_desc AccessToken.created_at
              (filter AccessToken.is_active (accesstokens db))).

Definition get_current_token (req : Request) (io : Outcome) (db : Db)
  : Response TokenBody * Db :=
  match io with
  | Failed => (fail 500 "トークン取得に失敗しました", db)
  | Done =>
      match find_active_token db with
      | Some row =>
          let url := staff_url req (AccessToken.token row) in
          (ok (mkTokenBody (Some url) (Some (AccessToken.token row))), db)
      | None => (ok (mkTokenBody None None), db)
      end
  end.

(** *** POST /api/teacher/generate-url *)

(** [AccessToken.create({ token, is_active })]: the token path is required
    and has a unique index, as [_id] has. *)
Definition create_token (fresh : ObjectId) (now : Date.t) (tok : string)
    (active : bool) (docs : list AccessToken.t)
  : option (list AccessToken.t) :=
  match required (Some tok) with
  | None => None
  | Some tok' =>
      if existsb (fun r => String.eqb (AccessToken.token r) tok'
                           || (AccessToken._id r =? fresh)%N) docs
      then None
      else Some (docs ++ [AccessToken.mk fresh tok' now active])%list
  end.

(** [uuid] is the result of [uuidv4()], [fresh] the [_id] the new document
    gets, [io_delete] and [io_create] the outcomes of the two calls. *)
Definition generate_url (req : Request) (uuid : string) (fresh : ObjectId)
    (now : Date.t) (io_delete io_create : Outcome) (db : Db)
  : Response TokenBody * Db :=
  let token := uuid in
  match io_delete with
  | Failed => (fail 500 "URL生成に失敗しました", db)
  | Done =>
      let db1 := with_accesstokens db [] in
      match io_create, create_token fresh now token true (accesstokens db1) with
      | Done, Some docs =>
          let url := staff_url req token in
          (ok (mkTokenBody (Some url) (Some token)), with_accesstokens db1 docs)
      | _, _ => (fail 500 "URL生成に失敗しました", db1)
      end
  end.

(** *** GET /api/verify-token/:token *)

(** [AccessToken.findOne({ token, is_active: true })] *)
Definition find_token (tok : string) (db : Db) : option AccessToken.t :=
  find (fun r => String.eqb (AccessToken.token r) tok
                 && AccessToken.is_active r)
       (accesstokens db).

Definition verify_token (tok : string) (io : Outcome) (db : Db)
  : Response VerifyBody * Db :=
  match io with
  | Failed => (fail 500 "トークン検証エラー", db)
  | Done =>
      match find_token tok db with
      | None =>
          (mkResponse 401
             (Json (mkVerifyBody false (Some "無効なトークンです"))), db)
      | Some _ => (ok (mkVerifyBody true None), db)
      end
  end.

(** *** GET /api/staff/themes *)

(** [Theme.find({ is_active: true }).sort({ created_at: -1 })] *)
Definition staff_themes_get (io : Outcome) (db : Db)
  : Response (list (Theme.t * ObjectId)) * Db :=
  match io with
  | Failed => (fail 500 "テーマ取得に失敗しました", db)
  | Done =>
      let themes := order_desc Theme.created_at
                      (filter Theme.is_active (themes db)) in
      (ok (toClient Theme._id themes), db)
  end.

(** *** POST /api/staff/themes *)

(** [{ id, title, description, start_date, end_date }], read back from the
    created document. *)
Record ThemeBody : Type := mkThemeBody {
  body_id : ObjectId;
  body_title : string;
  body_description : option string;
  body_start_date : option Date.t;
  body_end_date : option Date.t
}.

(** [Theme.create({ title, description, start_date, end_date })]: the paths
    are cast, the title is required, created_at and is_active take their
    defaults. *)
Definition create_theme {mapper : Mapper} (fresh : ObjectId) (now : Date.t)
    (title description start_date end_date : JsVal) (docs : list Theme.t)
  : option (Theme.t * list Theme.t) :=
  match cast_String title, cast_String description,
        cast_Date start_date, cast_Date end_date with
  | Some title', Some description', Some start', Some end' =>
      match required title' with
      | Some title'' =>
          if existsb (fun t => (Theme._id t =? fresh)%N) docs then None
          else
            let theme :=
              Theme.mk fresh title'' description' start' end' now true in
            Some (theme, (docs ++ [theme])%list)
      | None => None
      end
  | _, _, _, _ => None
  end.

Definition staff_themes_post {mapper : Mapper} (body : ThemeForm.t)
    (fresh : ObjectId) (now : Date.t) (io : Outcome) (db : Db)
  : Response ThemeBody * Db :=
  let title := ThemeForm.title body in
  let description := ThemeForm.description body in
  let start_date := ThemeForm.start_date body in
  let end_date := ThemeForm.end_date body in
  if falsy title then (fail 400 "テーマのタイトルは必須です", db)
  else
    match io, create_theme fresh now title description
                (or_else start_date JNull) (or_else end_date JNull)
                (themes db) with
    | Done, Some (theme, docs) =>
        (ok (mkThemeBody (Theme._id theme) (Theme.title theme)
               (Theme.description theme) (Theme.start_date theme)
               (Theme.end_date theme)),
         with_themes db docs)
    | _, _ => (fail 500 "テーマ作成に失敗しました", db)
    end.

(** *** DELETE /api/staff/themes/:id *)

(** [Model.findByIdAndUpdate(id, update)], once [id] is cast to an
    ObjectId: the first document whose [_id] is [id] is updated; the result
    is that document, or null. *)
Fixpoint findByIdAndUpdate {D : Type} (_id : D -> ObjectId) (id : ObjectId)
    (update : D -> D) (docs : list D) : option D * list D :=
  match docs with
  | [] => (None, [])
  | doc :: rest =>
      if (_id doc =? id)%N then (Some (update doc), update doc :: rest)
      else let (result, rest') := findByIdAndUpdate _id id update rest in
           (result, doc :: rest')
  end.

Definition deactivate (t : Theme.t) : Theme.t :=
  Theme.mk (Theme._id t) (Theme.title t) (Theme.description t)
    (Theme.start_date t) (Theme.end_date t) (Theme.created_at t) false.

Definition staff_themes_delete {mapper : Mapper} (id : string) (io : Outcome)
    (db : Db) : Response SuccessBody * Db :=
  if negb (isValid (JStr id)) then (fail 400 "無効なIDです", db)
  else
    match io, objectId_of (JStr id) with
    | Done, Some oid =>
        let (result, docs) :=
          findByIdAndUpdate Theme._id oid deactivate (themes db) in
        match result with
        | None => (fail 404 "テーマが見つかりません", with_themes db docs)
        | Some _ => (ok Success, with_themes db docs)
        end
    | _, _ => (fail 500 "テーマ削除に失敗しました", db)
    end.

(** *** PUT /api/staff/messages/:id/read *)

Definition mark_read (m : Message.t) : Message.t :=
  Message.mk (Message._id m) (Message.sender_name m) (Message.radio_name m)
    (Message.school_class m) (Message.theme_id m) (Message.content m)
    (Message.share_name m) (Message.share_class m) (Message.share_theme m)
    (Message.ip_address m) (Message.created_at m) true.

Definition staff_messages_read {mapper : Mapper} (id : string) (io : Outcome)
    (db : Db) : Response SuccessBody * Db :=
  if negb (isValid (JStr id)) then (fail 400 "無効なIDです", db)
  else
    match io, objectId_of (JStr id) with
    | Done, Some oid =>
        let (_, docs) :=
          findByIdAndUpdate Message._id oid mark_read (messages db) in
        (ok Success, with_messages db docs)
    | _, _ => (fail 500 "既読化に失敗しました", db)
    end.

(** *** GET /api/student/themes *)

(** [{ $or: [{ start_date: null }, { start_date: { $lte: today } }] }] and
    [{ $or: [{ end_date: null }, { end_date: { $gte: today } }] }] *)
Definition open_at (today : Date.t) (t : Theme.t) : bool :=
  Theme.is_active t
  && match Theme.start_date t with
     | None => true
     | Some d => Date.leb d today
     end
  && match Theme.end_date t with
     | None => true
     | Some d => Date.leb today d
     end.

(** [now] is [new Date()]. *)
Definition student_themes_get (now : Date.t) (io : Outcome) (db : Db)
  : Response (list (Theme.t * ObjectId)) * Db :=
  let today := now in
  match io with
  | Failed => (fail 500 "テーマ取得に失敗しました", db)
  | Done =>
      let themes := order_desc Theme.created_at
                      (filter (open_at today) (themes db)) in
      (ok (toClient Theme._id themes), db)
  end.

(** *** POST /api/student/messages *)

(** [Message.create({ ... })]: the paths are cast, radio_name and content
    are required, created_at and is_read take their defaults. *)
Definition create_message {mapper : Mapper} (fresh : ObjectId) (now : Date.t)
    (sender_name radio_name school_class theme_id content : JsVal)
    (share_name share_class share_theme : bool) (ip_address : JsVal)
    (docs : list Message.t) : option (Message.t * list Message.t) :=
  match cast_String sender_name, cast_String radio_name,
        cast_String school_class, cast_ObjectId theme_id,
        cast_String content, cast_String ip_address with
  | Some sender', Some radio', Some class', Some theme', Some content',
    Some ip' =>
      match required radio', required content' with
      | Some radio'', Some content'' =>
          if existsb (fun m => (Message._id m =? fresh)%N) docs then None
          else
            let message :=
              Message.mk fresh sender' radio'' class' theme' content''
                share_name share_class share_theme ip' now false in
            Some (message, (docs ++ [message])%list)
      | _, _ => None
      end
  | _, _, _, _, _, _ => None
  end.

Definition student_messages_post {mapper : Mapper} (req : Request)
    (body : MessageForm.t) (fresh : ObjectId) (now : Date.t) (io : Outcome)
    (db : Db) : Response (SubmitBody ObjectId) * Db :=
  let sender_name := MessageForm.sender_name body in
  let radio_name := MessageForm.radio_name body in
  let school_year := MessageForm.school_year body in
  let school_class := MessageForm.school_class body in
  let theme_id := MessageForm.theme_id body in
  let content := MessageForm.content body in
  let share_name := MessageForm.share_name body in
  let share_class := MessageForm.share_class body in
  let share_theme := MessageForm.share_theme body in
  if falsy radio_name || falsy content
  then (fail 400 "ラジオネームとお便り内容は必須です", db)
  else if truthy theme_id && negb (isValid theme_id)
  then (fail 400 "テーマIDが不正です", db)
  else
    let themeObjectId := if truthy theme_id then theme_id else JNull in
    let ip := client_ip req in
    let fullClass := fullClass school_year school_class in
    match io, create_message fresh now (or_else sender_name JNull) radio_name
                fullClass themeObjectId content
                (negb (negb (truthy share_name)))
                (negb (negb (truthy share_class)))
                (negb (negb (truthy share_theme))) ip (messages db) with
    | Done, Some (message, docs) =>
        (ok (mkSubmitBody (Message._id message) "お便りを送信しました"),
         with_messages db docs)
    | _, _ => (fail 500 "お便り送信に失敗しました", db)
    end.

(** *** GET /api/staff/messages *)

(** [.populate('theme_id', 'title')]: the [_id] and title of the theme the
    message refers to, or null when it refers to none or to none that is
    stored. *)
Definition populate (themes : list Theme.t) (m : Message.t)
  : option (ObjectId * string) :=
  match Message.theme_id m with
  | None => None
  | Some oid =>
      option_map (fun t => (Theme._id t, Theme.title t))
        (find (fun t => (Theme._id t =? oid)%N) themes)
  end.

Definition set_theme_id (m : Message.t) (theme_id : option ObjectId)
  : Message.t :=
  Message.mk (Message._id m) (Message.sender_name m) (Message.radio_name m)
    (Message.school_class m) theme_id (Message.content m)
    (Message.share_name m) (Message.share_class m) (Message.share_theme m)
    (Message.ip_address m) (Message.created_at m) (Message.is_read m).

(** [{ ...m, id: m._id, theme_title: m.theme_id ? m.theme_id.title : null,
    theme_id: m.theme_id ? m.theme_id._id : null }], for [m] populated. *)
Module MessageView.
Record t : Type := mk {
  doc : Message.t;
  id : ObjectId;
  theme_title : option string
}.
End MessageView.

Definition format_message (themes : list Theme.t) (m : Message.t)
  : MessageView.t :=
  let theme := populate themes m in
  MessageView.mk (set_theme_id m (option_map fst theme)) (Message._id m)
    (option_map snd theme).

(** [Message.find().populate('theme_id', 'title').sort({ created_at: -1 })] *)
Definition staff_messages_get (io : Outcome) (db : Db)
  : Response (list MessageView.t) * Db :=
  match io with
  | Failed => (fail 500 "お便り取得に失敗しました", db)
  | Done =>
      let messages := order_desc Message.created_at (messages db) in
      (ok (map (format_message (themes db)) messages), db)
  end.

(** *** GET /api/teacher/logs *)

Module LogRow.
Record t : Type := mk {
  id : ObjectId;
  sender_name : option string;
  radio_name : string;
  school_class : option string;
  content : string;
  ip_address : option string;
  created_at : Date.t;
  theme_title : option string
}.
End LogRow.

Definition format_log (themes : list Theme.t) (m : Message.t) : LogRow.t :=
  let theme := populate themes m in
  LogRow.mk (Message._id m) (Message.sender_name m) (Message.radio_name m)
    (Message.school_class m) (Message.content m) (Message.ip_address m)
    (Message.created_at m) (option_map snd theme).

Definition teacher_logs (io : Outcome) (db : Db)
  : Response (list LogRow.t) * Db :=
  match io with
  | Failed => (fail 500 "ログ取得に失敗しました", db)
  | Done =>
      let messages := order_desc Message.created_at (messages db) in
      (ok (map (format_log (themes db)) messages), db)
  end.

(** *** The routes *)

(** A request to one of the API routes, with what the environment supplies
    while it is handled. *)
Inductive Call : Type :=
| GetCurrentToken (req : Request) (io : Outcome)
| GenerateUrl (req : Request) (uuid : string) (fresh : ObjectId)
    (now : Date.t) (io_delete io_create : Outcome)
| VerifyToken (tok : string) (io : Outcome)
| StaffThemesGet (io : Outcome)
| StaffThemesPost (body : ThemeForm.t) (fresh : ObjectId) (now : Date.t)
    (io : Outcome)
| StaffThemesDelete (id : string) (io : Outcome)
| StaffMessagesGet (io : Outcome)
| StaffMessagesRead (id : string) (io : Outcome)
| StudentThemesGet (now : Date.t) (io : Outcome)
| StudentMessagesPost (req : Request) (body : MessageForm.t)
    (fresh : ObjectId) (now : Date.t) (io : Outcome)
| TeacherLogs (io : Outcome).

Definition answered {B : Type} (out : Response B * Db) : Z * Db :=
  (status (fst out), snd out).

(** The status a call is answered with and the database it leaves. *)
Definition route {mapper : Mapper} (c : Call) (db : Db) : Z * Db :=
  match c with
  | GetCurrentToken req io => answered (get_current_token req io db)
  | GenerateUrl req uuid fresh now io1 io2 =>
      answered (generate_url req uuid fresh now io1 io2 db)
  | VerifyToken tok io => answered (verify_token tok io db)
  | StaffThemesGet io => answered (staff_themes_get io db)
  | StaffThemesPost body fresh now io =>
      answered (staff_themes_post body fresh now io db)
  | StaffThemesDelete id io => answered (staff_themes_delete id io db)
  | StaffMessagesGet io => answered (staff_messages_get io db)
  | StaffMessagesRead id io => answered (staff_messages_read id io db)
  | StudentThemesGet now io => answered (student_themes_get now io db)
  | StudentMessagesPost req body fresh now io =>
      answered (student_messages_post req body fresh now io db)
  | TeacherLogs io => answered (teacher_logs io db)
  end.

(** The database after a sequence of calls, one after the other. *)
Definition run {mapper : Mapper} (calls : list Call) (db : Db) : Db :=
  fold_left (fun db c => snd (route c db)) calls db.

End Mongo.

(** ** An engine and a mapper to run the handlers on

    One reading of the two libraries, to evaluate the handlers on concrete
    requests: the engine reads a text of decimal digits as that integer and
    binds an array or object as its [toString]; the mapper takes a string
    of 24 hexadecimal digits for an ObjectId and nothing else, while its
    validity check also accepts every number; it casts numbers and booleans
    to their text, and a [YYYY-MM-DD] string to that day at midnight. *)

Module Sample.

Definition digit_value (c : ascii) : option Z :=
  let n := Z.of_nat (nat_of_ascii c) in
  if (48 <=? n) && (n <=? 57) then Some (n - 48) else None.

Definition hex_value (c : ascii) : option Z :=
  let n := Z.of_nat (nat_of_ascii c) in
  if (48 <=? n) && (n <=? 57) then Some (n - 48)
  else if (97 <=? n) && (n <=? 102) then Some (n - 87)
  else if (65 <=? n) && (n <=? 70) then Some (n - 55)
  else None.

(** The number a string spells in the given base, read from the left. *)
Fixpoint number (value : ascii -> option Z) (base : Z) (acc : Z) (s : string)
  : option Z :=
  match s with
  | EmptyString => Some acc
  | String c rest =>
      match value c with
      | Some d => number value base (base * acc + d) rest
      | None => None
      end
  end.

Definition decimal (s : string) : option Z :=
  match s with
  | EmptyString => None
  | _ => number digit_value 10 0 s
  end.

#[export] Instance engine : Sqlite.Engine := {|
  Sqlite.numeric_of_text := decimal;
  Sqlite.render := toString
|}.

Definition parse_day (s : string) : option Date.t :=
  if (String.length s =? 10)%nat
     && String.eqb (substring 4 1 s) "-" && String.eqb (substring 7 1 s) "-"
  then
    match decimal (substring 0 4 s), decimal (substring 5 2 s),
          decimal (substring 8 2 s) with
    | Some y, Some m, Some d => Some (Date.mk y m d 0 0 0 0)
    | _, _, _ => None
    end
  else None.

#[export] Instance mapper : Mongo.Mapper := {|
  Mongo.objectId_of v :=
    match v with
    | JStr s => if (String.length s =? 24)%nat
                then option_map Z.to_N (number hex_value 16 0 s)
                else None
    | _ => None
    end;
  Mongo.isValid_other v :=
    match v with
    | JNum _ => true
    | _ => false
    end;
  Mongo.string_of_other v :=
    match v with
    | JNum n => Some (dec n)
    | JBool true => Some "true"
    | JBool false => Some "false"
    | _ => None
    end;
  Mongo.date_of v :=
    match v with
    | JStr s => parse_day s
    | _ => None
    end
|}.

(** A request over http to the school's host, from a local address. *)
Definition request : Request :=
  mkRequest "http" (JStr "radio.example") JUndefined (JStr "10.0.0.7")
    (JStr "10.0.0.7").

Definition noon (y m d : Z) : Date.t := Date.mk y m d 12 0 0 0.
Definition midnight (y m d : Z) : Date.t := Date.mk y m d 0 0 0 0.

(** A theme open until 10 May 2024, created on 1 May in each service. *)
Definition festival : ThemeForm.t :=
  ThemeForm.mk (JStr "文化祭") JUndefined JUndefined (JStr "2024-05-10").

Definition festival_id : Mongo.ObjectId := 1%N.

Definition sqlite_themes : Sqlite.Db :=
  snd (Sqlite.staff_themes_post festival (noon 2024 5 1) Done Sqlite.empty).

Definition mongo_themes : Mongo.Db :=
  snd (Mongo.staff_themes_post festival festival_id (noon 2024 5 1) Done
         Mongo.empty).

(** A letter with no sender name, year 2 class B, to be shared by name. *)
Definition letter (theme_id : JsVal) : MessageForm.t :=
  MessageForm.mk (JStr "") (JStr "Taro") (JStr "2") (JStr "B") theme_id
    (JStr "hello") (JStr "false") JUndefined (JNum 0).

Definition letter_id : Mongo.ObjectId := 2%N.

(** The stores after the theme and one letter on no theme. *)
Definition sqlite_db : Sqlite.Db :=
  snd (Sqlite.student_messages_post request (letter JUndefined)
         (noon 2024 5 2) Done sqlite_themes).

Definition mongo_db : Mongo.Db :=
  snd (Mongo.student_messages_post request (letter JUndefined) letter_id
         (noon 2024 5 2) Done mongo_themes).

(** The stores with a token issued earlier. *)
Definition sqlite_old_token : Sqlite.Db :=
  snd (Sqlite.generate_url request "old-token" (noon 2024 5 1) Done Done
         sqlite_db).

Definition mongo_old_token : Mongo.Db :=
  snd (Mongo.generate_url request "old-token" 3%N (noon 2024 5 1) Done Done
         mongo_db).

End Sample.

(** ** The vocabulary of the properties *)

(** The answer to a token that is not the active one. *)
Definition unauthorized : Response VerifyBody :=
  mkResponse 401 (Json (mkVerifyBody false (Some "無効なトークンです"))).

(** What an UPDATE ... WHERE id = ? does to a table: each row is the old
    row, changed when the parameter reads as its rowid. *)
Definition updated_where {engine : Sqlite.Engine} {R : Type} (rowid : R -> Z)
    (change : R -> R) (param : string) (before after : list R) : Prop :=
  Forall2 (fun old new =>
             (Sqlite.numeric_of_text param = Some (rowid old)
              /\ new = change old)
             \/ (Sqlite.numeric_of_text param <> Some (rowid old)
                 /\ new = old))
          before after.

(** The token tables of the two services hold the same tokens, row by row,
    with the same activity. *)
Definition same_tokens (s : list Sqlite.AccessToken.t)
    (m : list Mongo.AccessToken.t) : Prop :=
  Forall2 (fun a b =>
             Sqlite.AccessToken.token a = Mongo.AccessToken.token b
             /\ (Sqlite.AccessToken.is_active a =? 1)
                = Mongo.AccessToken.is_active b)
          s m.

(** [x] comes no later than [y] in a listing newest first. *)
Definition newer_first {A : Type} (created_at : A -> Date.t) (x y : A)
  : Prop :=
  Date.leb (created_at y) (created_at x) = true.

(** [c] does not occur in [s]. *)
Fixpoint free_of (c : ascii) (s : string) : bool :=
  match s with
  | EmptyString => true
  | String x rest => negb (Ascii.eqb x c) && free_of c rest
  end.

(** A date column that holds null or the [YYYY-MM-DD] text of a day. *)
Definition holds_day (x : Sqlite.SqlVal) (d : option Date.t) : Prop :=
  match d with
  | None => x = Sqlite.SNull
  | Some d => Date.wf d /\ x = Sqlite.SText (Date.isoDate d)
  end.

(** A table after some calls: the rows it had, each as it was or aged by
    [step], followed by the rows added since. *)
Definition evolves {R : Type} (step : R -> R -> Prop) (before after : list R)
  : Prop :=
  exists kept added,
    after = (kept ++ added)%list /\ Forall2 step before kept.

(** A theme is as it was or has been deactivated; a message is as it was
    or has been marked read. *)
Definition sqlite_theme_ages (old new : Sqlite.Theme.t) : Prop :=
  new = old \/ new = Sqlite.deactivate old.
Definition sqlite_message_ages (old new : Sqlite.Message.t) : Prop :=
  new = old \/ new = Sqlite.mark_read old.
Definition mongo_theme_ages (old new : Mongo.Theme.t) : Prop :=
  new = old \/ new = Mongo.deactivate old.
Definition mongo_message_ages (old new : Mongo.Message.t) : Prop :=
  new = old \/ new = Mongo.mark_read old.

(** At most one token row, every token row active, and no identifier used
    twice in a table. *)
Definition sqlite_consistent (db : Sqlite.Db) : Prop :=
  (length (Sqlite.access_token db) <= 1)%nat
  /\ Forall (fun r => Sqlite.AccessToken.is_active r = 1)
       (Sqlite.access_token db)
  /\ NoDup (map Sqlite.Theme.id (Sqlite.themes db))
  /\ NoDup (map Sqlite.Message.id (Sqlite.messages db)).

Definition mongo_consistent (db : Mongo.Db) : Prop :=
  (length (Mongo.accesstokens db) <= 1)%nat
  /\ Forall (fun r => Mongo.AccessToken.is_active r = true)
       (Mongo.accesstokens db)
  /\ NoDup (map Mongo.Theme._id (Mongo.themes db))
  /\ NoDup (map Mongo.Message._id (Mongo.messages db)).

(** The fields of a listed message that the teacher log keeps. *)
Definition mongo_select_log (v : Mongo.MessageView.t) : Mongo.LogRow.t :=
  let m := Mongo.MessageView.doc v in
  Mongo.LogRow.mk (Mongo.MessageView.id v) (Mongo.Message.sender_name m)
    (Mongo.Message.radio_name m) (Mongo.Message.school_class m)
    (Mongo.Message.content m) (Mongo.Message.ip_address m)
    (Mongo.Message.created_at m) (Mongo.MessageView.theme_title v).

(** [x] is one of the rows a listing is answered with. *)
Definition listed {B : Type} (r : Response (list B)) (x : B) : Prop :=
  exists l, payload r = Json l /\ In x l.

(** The falsy values of a JSON body, as the language lists them: an absent
    key, null, false, 0 and the empty string.  Every other value is truthy:
    true, a number that is not 0, a string that is not empty (the string
    false too), every array and every object. *)
Inductive Falsy : JsVal -> Prop :=
| Falsy_undefined : Falsy JUndefined
| Falsy_null : Falsy JNull
| Falsy_false : Falsy (JBool false)
| Falsy_zero : Falsy (JNum 0)
| Falsy_empty : Falsy (JStr "").


(** A stored flag is the truthiness of a body value: [no] for a falsy
    value, [yes] for every other. *)
Definition truthiness {F : Type} (no yes : F) (v : JsVal) (flag : F) : Prop :=
  (Falsy v -> flag = no) /\ (~ Falsy v -> flag = yes).

(** [s] is the decimal numeral of [n]: its digits without leading zeros,
    after a minus sign when [n] is negative. *)
Definition numeral (n : Z) (s : string) : Prop :=
  NilZero.int_of_string s = Some (Z.to_int n).


(** ** Properties *)

(** *** The access token *)

Lemma sqlite_insert_first_token (now : Date.t) (tok : string) (active : Z) :
  Sqlite.insert_access_token now tok active []
  = Some [Sqlite.AccessToken.mk 1 tok now active].
Proof. reflexivity. Qed.

Lemma required_nonempty (s : string) :
  s <> "" -> Mongo.required (Some s) = Some s.
Proof.
  intros Hs. unfold Mongo.required.
  destruct (String.eqb_spec s ""); [contradiction | reflexivity].
Qed.

Lemma required_some (o : option string) (s : string) :
  Mongo.required o = Some s -> o = Some s /\ s <> "".
Proof.
  destruct o as [x|]; simpl; [|discriminate].
  destruct (String.eqb_spec x ""); [discriminate|].
  intros H; injection H as <-. split; [reflexivity | assumption].
Qed.

Lemma mongo_create_first_token fresh now tok active docs :
  Mongo.create_token fresh now tok active [] = Some docs ->
  docs = [Mongo.AccessToken.mk fresh tok now active].
Proof.
  unfold Mongo.create_token.
  destruct (Mongo.required (Some tok)) as [tok'|] eqn:E; [|discriminate].
  apply required_some in E. destruct E as [E _]. injection E as <-.
  simpl. intros H; injection H as <-. reflexivity.
Qed.

(** C1.  In both services a successful POST /api/teacher/generate-url
    answers with the generated token and leaves the token table with
    exactly one row, active and holding that token, whatever the table held
    before; GET /api/teacher/get-current-token then answers with the same
    token.  With both storage calls completing, the request does succeed
    (in the second service for a non-empty token, which the schema
    requires). *)
Theorem generate_url_rotates_token (req : Request) (uuid : string)
    (now : Date.t) :
  (forall io1 io2 db,
     let out := Sqlite.generate_url req uuid now io1 io2 db in
     status (fst out) = 200 ->
     fst out = ok (mkTokenBody (Some (staff_url req uuid)) (Some uuid))
     /\ Sqlite.access_token (snd out) = [Sqlite.AccessToken.mk 1 uuid now 1]
     /\ forall req',
          fst (Sqlite.get_current_token req' Done (snd out))
          = ok (mkTokenBody (Some (staff_url req' uuid)) (Some uuid)))
  /\ (forall db,
        status (fst (Sqlite.generate_url req uuid now Done Done db)) = 200)
  /\ (forall fresh io1 io2 db,
        let out := Mongo.generate_url req uuid fresh now io1 io2 db in
        status (fst out) = 200 ->
        fst out = ok (mkTokenBody (Some (staff_url req uuid)) (Some uuid))
        /\ Mongo.accesstokens (snd out)
           = [Mongo.AccessToken.mk fresh uuid now true]
        /\ forall req',
             fst (Mongo.get_current_token req' Done (snd out))
             = ok (mkTokenBody (Some (staff_url req' uuid)) (Some uuid)))
  /\ (forall fresh db,
        uuid <> "" ->
        status (fst (Mongo.generate_url req uuid fresh now Done Done db))
        = 200).
Proof.
  split; [|split; [|split]].
  - intros io1 io2 db out. subst out. unfold Sqlite.generate_url.
    destruct io1, io2; simpl; intros H; try discriminate H.
    repeat split; reflexivity.
  - reflexivity.
  - intros fresh io1 io2 db out. subst out. unfold Mongo.generate_url.
    destruct io1; [|discriminate].
    destruct io2; [|discriminate]. simpl Mongo.accesstokens.
    destruct (Mongo.create_token fresh now uuid true []) as [docs|] eqn:E;
      [|discriminate].
    intros _. apply mongo_create_first_token in E. subst docs.
    repeat split; reflexivity.
  - intros fresh db Hne. unfold Mongo.generate_url, Mongo.create_token.
    rewrite (required_nonempty uuid Hne). reflexivity.
Qed.

Lemma find_none_iff {A : Type} (f : A -> bool) (l : list A) :
  find f l = None <-> ~ exists x, In x l /\ f x = true.
Proof.
  split.
  - intros Hnone [x [Hin Hfx]].
    rewrite (find_none f l Hnone x Hin) in Hfx. discriminate.
  - intros Hno. destruct (find f l) as [x|] eqn:E; [|reflexivity].
    exfalso. apply Hno. exists x. apply (find_some f l E).
Qed.

Lemma find_some_iff {A : Type} (f : A -> bool) (l : list A) :
  (exists y, find f l = Some y) <-> exists x, In x l /\ f x = true.
Proof.
  split.
  - intros [y E]. exists y. apply (find_some f l E).
  - intros Hex. destruct (find f l) as [y|] eqn:E; [exists y; reflexivity|].
    exfalso. apply (proj1 (find_none_iff f l) E Hex).
Qed.

(** C2.  In both services GET /api/verify-token/:token answers
    [{ valid: true }] exactly when the token table has a row with that
    token and is_active set, answers 401 with [{ valid: false }] exactly
    when it has none, and answers 500 exactly when the storage call
    failed; the table is never changed. *)
Theorem verify_token_iff_active_row (tok : string) :
  (forall db,
     let hit := exists row, In row (Sqlite.access_token db)
                  /\ Sqlite.AccessToken.token row = tok
                  /\ Sqlite.AccessToken.is_active row = 1 in
     (fst (Sqlite.verify_token tok Done db) = ok (mkVerifyBody true None)
      <-> hit)
     /\ (fst (Sqlite.verify_token tok Done db) = unauthorized <-> ~ hit)
     /\ (forall io, status (fst (Sqlite.verify_token tok io db)) = 500
                    <-> io = Failed)
     /\ (forall io, snd (Sqlite.verify_token tok io db) = db))
  /\ (forall db,
        let hit := exists row, In row (Mongo.accesstokens db)
                     /\ Mongo.AccessToken.token row = tok
                     /\ Mongo.AccessToken.is_active row = true in
        (fst (Mongo.verify_token tok Done db) = ok (mkVerifyBody true None)
         <-> hit)
        /\ (fst (Mongo.verify_token tok Done db) = unauthorized <-> ~ hit)
        /\ (forall io, status (fst (Mongo.verify_token tok io db)) = 500
                       <-> io = Failed)
        /\ (forall io, snd (Mongo.verify_token tok io db) = db)).
Proof.
  split; intros db hit.
  - assert (Hhit : hit <-> exists y, Sqlite.select_token tok db = Some y).
    { subst hit. unfold Sqlite.select_token. rewrite find_some_iff.
      split; intros [row [Hin H]]; exists row; split; auto.
      - destruct H as [-> ->]. rewrite String.eqb_refl. reflexivity.
      - apply andb_true_iff in H. destruct H as [H1 H2].
        apply String.eqb_eq in H1. apply Z.eqb_eq in H2. auto. }
    clearbody hit. unfold Sqlite.verify_token, unauthorized.
    destruct (Sqlite.select_token tok db) as [y|]; simpl.
    + repeat split; try tauto; try discriminate; eauto.
      * intros _. apply Hhit. eauto.
      * intros Hno. exfalso. apply Hno, Hhit. eauto.
      * destruct io; [discriminate | reflexivity].
      * intros ->. reflexivity.
      * destruct io; reflexivity.
    + assert (Hno : ~ hit) by (intros Hh; apply Hhit in Hh; destruct Hh; discriminate).
      repeat split; try tauto; try discriminate.
      * destruct io; [discriminate | reflexivity].
      * intros ->. reflexivity.
      * destruct io; reflexivity.
  - assert (Hhit : hit <-> exists y, Mongo.find_token tok db = Some y).
    { subst hit. unfold Mongo.find_token. rewrite find_some_iff.
      split; intros [row [Hin H]]; exists row; split; auto.
      - destruct H as [-> ->]. rewrite String.eqb_refl. reflexivity.
      - apply andb_true_iff in H. destruct H as [H1 H2].
        apply String.eqb_eq in H1. auto. }
    clearbody hit. unfold Mongo.verify_token, unauthorized.
    destruct (Mongo.find_token tok db) as [y|]; simpl.
    + repeat split; try tauto; try discriminate; eauto.
      * intros _. apply Hhit. eauto.
      * intros Hno. exfalso. apply Hno, Hhit. eauto.
      * destruct io; [discriminate | reflexivity].
      * intros ->. reflexivity.
      * destruct io; reflexivity.
    + assert (Hno : ~ hit) by (intros Hh; apply Hhit in Hh; destruct Hh; discriminate).
      repeat split; try tauto; try discriminate.
      * destruct io; [discriminate | reflexivity].
      * intros ->. reflexivity.
      * destruct io; reflexivity.
Qed.

(** *** Updates by identifier *)

Lemma where_id_iff {engine : Sqlite.Engine} (param : string) (rowid : Z) :
  Sqlite.where_id param rowid = true
  <-> Sqlite.numeric_of_text param = Some rowid.
Proof.
  unfold Sqlite.where_id, Sqlite.numeric_affinity, Sqlite.sql_eq.
  destruct (Sqlite.numeric_of_text param) as [n|]; simpl.
  - destruct (Z.compare_spec rowid n) as [Hc|Hc|Hc]; split; intros H;
      try discriminate; try reflexivity; try congruence.
    + injection H as <-. lia.
    + injection H as <-. lia.
  - split; discriminate.
Qed.

Lemma map_updated_where {engine : Sqlite.Engine} {R : Type} (rowid : R -> Z)
    (change : R -> R) (param : string) (rows : list R) :
  updated_where rowid change param rows
    (map (fun r => if Sqlite.where_id param (rowid r) then change r else r)
         rows).
Proof.
  induction rows as [|r rows IH]; simpl; constructor; [|exact IH].
  destruct (Sqlite.where_id param (rowid r)) eqn:E.
  - left. split; [apply where_id_iff; exact E | reflexivity].
  - right. split; [|reflexivity].
    intros H. apply where_id_iff in H. congruence.
Qed.

Lemma map_unmatched {engine : Sqlite.Engine} {R : Type} (rowid : R -> Z)
    (change : R -> R) (param : string) (rows : list R) :
  (forall r, In r rows -> Sqlite.numeric_of_text param <> Some (rowid r)) ->
  map (fun r => if Sqlite.where_id param (rowid r) then change r else r) rows
  = rows.
Proof.
  induction rows as [|r rows IH]; simpl; intros Hno; [reflexivity|].
  rewrite IH by auto. destruct (Sqlite.where_id param (rowid r)) eqn:E.
  - apply where_id_iff in E. exfalso. apply (Hno r); auto.
  - reflexivity.
Qed.

Lemma map_update_twice {engine : Sqlite.Engine} {R : Type} (rowid : R -> Z)
    (change : R -> R) (param : string) (rows : list R) :
  (forall r, rowid (change r) = rowid r) ->
  (forall r, change (change r) = change r) ->
  let step := map (fun r => if Sqlite.where_id param (rowid r) then change r
                            else r) in
  step (step rows) = step rows.
Proof.
  intros Hid Hidem step. subst step. rewrite map_map. apply map_ext.
  intros r. destruct (Sqlite.where_id param (rowid r)) eqn:E.
  - rewrite Hid, E. apply Hidem.
  - rewrite E. reflexivity.
Qed.

(** What [findByIdAndUpdate] does to a collection. *)
Lemma findByIdAndUpdate_found {D : Type} (_id : D -> Mongo.ObjectId)
    (id : Mongo.ObjectId) (update : D -> D) (l1 : list D) (d : D)
    (l2 : list D) :
  (forall x, In x l1 -> _id x <> id) -> _id d = id ->
  Mongo.findByIdAndUpdate _id id update (l1 ++ d :: l2)
  = (Some (update d), (l1 ++ update d :: l2)%list).
Proof.
  intros Hl1 Hd. induction l1 as [|x l1 IH]; simpl.
  - rewrite (proj2 (N.eqb_eq _ _) Hd). reflexivity.
  - destruct (N.eqb_spec (_id x) id) as [E|E].
    + exfalso. apply (Hl1 x); simpl; auto.
    + rewrite IH by (intros y Hy; apply Hl1; simpl; auto). reflexivity.
Qed.

Lemma findByIdAndUpdate_missing {D : Type} (_id : D -> Mongo.ObjectId)
    (id : Mongo.ObjectId) (update : D -> D) (docs : list D) :
  (forall x, In x docs -> _id x <> id) ->
  Mongo.findByIdAndUpdate _id id update docs = (None, docs).
Proof.
  intros Hno. induction docs as [|x docs IH]; simpl; [reflexivity|].
  destruct (N.eqb_spec (_id x) id) as [E|E].
  - exfalso. apply (Hno x); simpl; auto.
  - rewrite IH by (intros y Hy; apply Hno; simpl; auto). reflexivity.
Qed.

Lemma findByIdAndUpdate_cases {D : Type} (_id : D -> Mongo.ObjectId)
    (id : Mongo.ObjectId) (docs : list D) :
  (forall x, In x docs -> _id x <> id)
  \/ exists l1 d l2, docs = (l1 ++ d :: l2)%list /\ _id d = id
                     /\ forall x, In x l1 -> _id x <> id.
Proof.
  induction docs as [|x docs IH].
  - left. intros x [].
  - destruct (N.eqb_spec (_id x) id) as [E|E].
    + right. exists [], x, docs. repeat split; auto.
    + destruct IH as [IH | [l1 [d [l2 [-> [Hd Hl1]]]]]].
      * left. intros y [<- | Hy]; auto.
      * right. exists (x :: l1), d, l2. repeat split; auto.
        intros y [<- | Hy]; auto.
Qed.

Lemma findByIdAndUpdate_twice {D : Type} (_id : D -> Mongo.ObjectId)
    (id : Mongo.ObjectId) (update : D -> D) (docs : list D) :
  (forall d, _id (update d) = _id d) ->
  (forall d, update (update d) = update d) ->
  let docs1 := snd (Mongo.findByIdAndUpdate _id id update docs) in
  snd (Mongo.findByIdAndUpdate _id id update docs1) = docs1.
Proof.
  intros Hid Hidem docs1. subst docs1.
  destruct (findByIdAndUpdate_cases _id id docs)
    as [Hno | [l1 [d [l2 [-> [Hd Hl1]]]]]].
  - rewrite (findByIdAndUpdate_missing _ _ _ _ Hno). simpl.
    rewrite (findByIdAndUpdate_missing _ _ _ _ Hno). reflexivity.
  - rewrite (findByIdAndUpdate_found _ _ _ _ _ _ Hl1 Hd). simpl.
    rewrite (findByIdAndUpdate_found _id id update l1 (update d) l2 Hl1).
    + rewrite Hidem. reflexivity.
    + rewrite Hid. exact Hd.
Qed.

Lemma sqlite_with_themes_same (db : Sqlite.Db) :
  Sqlite.with_themes db (Sqlite.themes db) (Sqlite.themes_seq db) = db.
Proof. destruct db; reflexivity. Qed.

Lemma sqlite_with_messages_same (db : Sqlite.Db) :
  Sqlite.with_messages db (Sqlite.messages db) (Sqlite.messages_seq db) = db.
Proof. destruct db; reflexivity. Qed.

Lemma mongo_with_themes_same (db : Mongo.Db) :
  Mongo.with_themes db (Mongo.themes db) = db.
Proof. destruct db; reflexivity. Qed.

Lemma mongo_with_messages_same (db : Mongo.Db) :
  Mongo.with_messages db (Mongo.messages db) = db.
Proof. destruct db; reflexivity. Qed.

(** *** DELETE /api/staff/themes/:id *)

(** C4, as the two services have it.  The second service answers 400 when
    the id is no ObjectId, 404 when no theme has that id, and otherwise
    deactivates the theme of that id and answers success.  The first
    service has no check of the id: whenever the statement completes it
    answers success, having deactivated the row whose rowid the parameter
    reads as, if there is one.  In both, whatever the outcome, the themes
    keep their number and identifiers and the messages are untouched. *)
Theorem staff_themes_delete_by_service {engine : Sqlite.Engine}
    {mapper : Mongo.Mapper} (id : string) :
  (forall io db,
     Mongo.objectId_of (JStr id) = None ->
     Mongo.staff_themes_delete id io db = (fail 400 "無効なIDです", db))
  /\ (forall oid db,
        Mongo.objectId_of (JStr id) = Some oid ->
        (forall t, In t (Mongo.themes db) -> Mongo.Theme._id t <> oid) ->
        Mongo.staff_themes_delete id Done db
        = (fail 404 "テーマが見つかりません", db))
  /\ (forall oid db l1 t l2,
        Mongo.objectId_of (JStr id) = Some oid ->
        Mongo.themes db = (l1 ++ t :: l2)%list ->
        Mongo.Theme._id t = oid ->
        (forall x, In x l1 -> Mongo.Theme._id x <> oid) ->
        Mongo.staff_themes_delete id Done db
        = (ok Success,
           Mongo.with_themes db (l1 ++ Mongo.deactivate t :: l2)%list))
  /\ (forall io db,
        let out := Mongo.staff_themes_delete id io db in
        map Mongo.Theme._id (Mongo.themes (snd out))
        = map Mongo.Theme._id (Mongo.themes db)
        /\ Mongo.messages (snd out) = Mongo.messages db)
  /\ (forall db,
        let out := Sqlite.staff_themes_delete id Done db in
        fst out = ok Success
        /\ updated_where Sqlite.Theme.id Sqlite.deactivate id
             (Sqlite.themes db) (Sqlite.themes (snd out)))
  /\ (forall io db,
        let out := Sqlite.staff_themes_delete id io db in
        map Sqlite.Theme.id (Sqlite.themes (snd out))
        = map Sqlite.Theme.id (Sqlite.themes db)
        /\ Sqlite.messages (snd out) = Sqlite.messages db).
Proof.
  split; [|split; [|split; [|split; [|split]]]].
  - intros io db Hnone. unfold Mongo.staff_themes_delete, Mongo.isValid.
    rewrite Hnone. reflexivity.
  - intros oid db Hoid Hno. unfold Mongo.staff_themes_delete, Mongo.isValid.
    rewrite Hoid. simpl.
    rewrite (findByIdAndUpdate_missing _ _ _ _ Hno).
    rewrite mongo_with_themes_same. reflexivity.
  - intros oid db l1 t l2 Hoid Hsplit Ht Hl1.
    unfold Mongo.staff_themes_delete, Mongo.isValid.
    rewrite Hoid, Hsplit. simpl.
    rewrite (findByIdAndUpdate_found _ _ _ _ _ _ Hl1 Ht). reflexivity.
  - intros io db out. subst out.
    unfold Mongo.staff_themes_delete, Mongo.isValid.
    destruct (Mongo.objectId_of (JStr id)) as [oid|]; simpl; [|auto].
    destruct io; [|auto].
    destruct (findByIdAndUpdate_cases Mongo.Theme._id oid (Mongo.themes db))
      as [Hno | [l1 [d [l2 [Hsplit [Hd Hl1]]]]]].
    + rewrite (findByIdAndUpdate_missing _ _ _ _ Hno). simpl. auto.
    + rewrite Hsplit, (findByIdAndUpdate_found _ _ _ _ _ _ Hl1 Hd). simpl.
      split; [|reflexivity]. rewrite !map_app. reflexivity.
  - intros db out. subst out. simpl. split; [reflexivity|].
    apply map_updated_where.
  - intros io db out. subst out. destruct io; simpl; [|auto].
    split; [|reflexivity]. rewrite map_map. apply map_ext.
    intros t. destruct (Sqlite.where_id id (Sqlite.Theme.id t)); reflexivity.
Qed.

(** *** PUT /api/staff/messages/:id/read *)

(** C8, as the two services have it.  The second service answers 400 when
    the id is no ObjectId; for an ObjectId it answers success whether or
    not a message has that id, marks the message of that id read, leaves
    the collection as it is when there is none, and a repeated call changes
    nothing more.  The first service has no check of the id: it answers
    success for every id, marks the row whose rowid the parameter reads as,
    leaves the table as it is when no row matches, and a repeated call
    changes nothing more. *)
Theorem staff_messages_read_by_service {engine : Sqlite.Engine}
    {mapper : Mongo.Mapper} (id : string) :
  (forall io db,
     Mongo.objectId_of (JStr id) = None ->
     Mongo.staff_messages_read id io db = (fail 400 "無効なIDです", db))
  /\ (forall oid db,
        Mongo.objectId_of (JStr id) = Some oid ->
        let out := Mongo.staff_messages_read id Done db in
        fst out = ok Success
        /\ ((forall m, In m (Mongo.messages db) -> Mongo.Message._id m <> oid)
            -> snd out = db)
        /\ (forall l1 m l2,
              Mongo.messages db = (l1 ++ m :: l2)%list ->
              Mongo.Message._id m = oid ->
              (forall x, In x l1 -> Mongo.Message._id x <> oid) ->
              snd out
              = Mongo.with_messages db (l1 ++ Mongo.mark_read m :: l2)%list)
        /\ Mongo.staff_messages_read id Done (snd out)
           = (ok Success, snd out))
  /\ (forall db,
        let out := Sqlite.staff_messages_read id Done db in
        fst out = ok Success
        /\ updated_where Sqlite.Message.id Sqlite.mark_read id
             (Sqlite.messages db) (Sqlite.messages (snd out))
        /\ ((forall m, In m (Sqlite.messages db) ->
               Sqlite.numeric_of_text id <> Some (Sqlite.Message.id m))
            -> snd out = db)
        /\ Sqlite.staff_messages_read id Done (snd out)
           = (ok Success, snd out)).
Proof.
  split; [|split].
  - intros io db Hnone. unfold Mongo.staff_messages_read, Mongo.isValid.
    rewrite Hnone. reflexivity.
  - intros oid db Hoid out. subst out.
    unfold Mongo.staff_messages_read, Mongo.isValid. rewrite Hoid. simpl.
    pose proof (findByIdAndUpdate_twice Mongo.Message._id oid
                  Mongo.mark_read (Mongo.messages db)
                  (fun d => eq_refl) (fun d => eq_refl)) as Htwice.
    simpl in Htwice.
    destruct (Mongo.findByIdAndUpdate Mongo.Message._id oid Mongo.mark_read
                (Mongo.messages db)) as [result docs] eqn:E.
    simpl in *. split; [reflexivity|]. split; [|split].
    + intros Hno. rewrite (findByIdAndUpdate_missing _ _ _ _ Hno) in E.
      injection E as _ <-. apply mongo_with_messages_same.
    + intros l1 m l2 Hsplit Hm Hl1.
      rewrite Hsplit, (findByIdAndUpdate_found _ _ _ _ _ _ Hl1 Hm) in E.
      injection E as _ <-. reflexivity.
    + destruct (Mongo.findByIdAndUpdate Mongo.Message._id oid Mongo.mark_read
                  docs) as [result' docs'] eqn:E'.
      simpl in Htwice. subst docs'. destruct db; reflexivity.
  - intros db out. subst out. simpl. split; [reflexivity|]. split; [|split].
    + apply map_updated_where.
    + intros Hno. rewrite (map_unmatched _ _ _ _ Hno).
      apply sqlite_with_messages_same.
    + unfold Sqlite.staff_messages_read. simpl.
      rewrite (map_update_twice Sqlite.Message.id Sqlite.mark_read id
                 (Sqlite.messages db) (fun r => eq_refl) (fun r => eq_refl)).
      reflexivity.
Qed.

(** *** Truthiness and texts *)

Lemma truthy_Falsy (v : JsVal) : truthy v = false <-> Falsy v.
Proof.
  split.
  - destruct v as [| |[|]|n|s|l|o]; simpl; intros H; try discriminate H;
      try constructor.
    + destruct (Z.eqb_spec n 0) as [E|E]; [subst n; constructor|].
      discriminate H.
    + destruct (String.eqb_spec s "") as [E|E]; [subst s; constructor|].
      discriminate H.
  - intros []; reflexivity.
Qed.

Lemma truthy_not_Falsy (v : JsVal) : truthy v = true <-> ~ Falsy v.
Proof.
  rewrite <- truthy_Falsy. destruct (truthy v); split; intros H;
    congruence.
Qed.

Lemma numeral_dec (n : Z) : numeral n (dec n).
Proof.
  unfold numeral, dec. apply NilZero.isi; destruct n; simpl; try discriminate;
    intros H; injection H as H;
    exact (DecimalPos.Unsigned.to_uint_nonnil _ H).
Qed.




(** *** POST /api/student/messages *)


Lemma bind_truthy_not_null {engine : Sqlite.Engine} (v : JsVal) :
  truthy v = true ->
  Sqlite.is_null (Sqlite.text_affinity (Sqlite.bind v)) = false.
Proof. destruct v; simpl; intros H; try discriminate; reflexivity. Qed.

(** A submission that is answered 200 passed the presence checks, its
    statement completed, and the table has one more row, built from the
    body as the handler says. *)
Lemma sqlite_post_inv {engine : Sqlite.Engine} req body now io db :
  let out := Sqlite.student_messages_post req body now io db in
  status (fst out) = 200 ->
  truthy (MessageForm.radio_name body) = true
  /\ truthy (MessageForm.content body) = true
  /\ io = Done
  /\ exists lastID,
       fst out = ok (mkSubmitBody lastID "お便りを送信しました")
       /\ snd out
          = Sqlite.with_messages db
              (Sqlite.messages db ++
               [Sqlite.Message.mk lastID
                  (Sqlite.text_affinity
                     (Sqlite.bind (or_else (MessageForm.sender_name body)
                                     JNull)))
                  (Sqlite.text_affinity
                     (Sqlite.bind (MessageForm.radio_name body)))
                  (Sqlite.text_affinity
                     (Sqlite.bind (fullClass (MessageForm.school_year body)
                                     (MessageForm.school_class body))))
                  (Sqlite.numeric_affinity
                     (Sqlite.bind (MessageForm.theme_id body)))
                  (Sqlite.text_affinity
                     (Sqlite.bind (MessageForm.content body)))
                  (if truthy (MessageForm.share_name body) then 1 else 0)
                  (if truthy (MessageForm.share_class body) then 1 else 0)
                  (if truthy (MessageForm.share_theme body) then 1 else 0)
                  (Sqlite.text_affinity (Sqlite.bind (client_ip req)))
                  now 0])%list
              lastID.
Proof.
  intros out. subst out. unfold Sqlite.student_messages_post, falsy.
  destruct (truthy (MessageForm.radio_name body)) eqn:Er; simpl;
    [|discriminate].
  destruct (truthy (MessageForm.content body)) eqn:Ec; simpl;
    [|discriminate].
  destruct io; [|discriminate].
  unfold Sqlite.insert_message. simpl.
  rewrite (bind_truthy_not_null _ Er), (bind_truthy_not_null _ Ec). simpl.
  intros _. repeat split. eexists. split; reflexivity.
Qed.


(** The same for the second service: besides the presence checks, the
    theme_id passed its check, and the created document holds the cast
    values. *)
Lemma mongo_post_inv {mapper : Mongo.Mapper} req body fresh now io db :
  let out := Mongo.student_messages_post req body fresh now io db in
  status (fst out) = 200 ->
  truthy (MessageForm.radio_name body) = true
  /\ truthy (MessageForm.content body) = true
  /\ (truthy (MessageForm.theme_id body) = true ->
      Mongo.isValid (MessageForm.theme_id body) = true)
  /\ io = Done
  /\ exists m,
       fst out = ok (mkSubmitBody fresh "お便りを送信しました")
       /\ snd out = Mongo.with_messages db (Mongo.messages db ++ [m])%list
       /\ Mongo.Message._id m = fresh
       /\ Mongo.cast_String (or_else (MessageForm.sender_name body) JNull)
          = Some (Mongo.Message.sender_name m)
       /\ Mongo.cast_String (MessageForm.radio_name body)
          = Some (Some (Mongo.Message.radio_name m))
       /\ Mongo.cast_String (fullClass (MessageForm.school_year body)
                               (MessageForm.school_class body))
          = Some (Mongo.Message.school_class m)
       /\ Mongo.cast_ObjectId (if truthy (MessageForm.theme_id body)
                               then MessageForm.theme_id body else JNull)
          = Some (Mongo.Message.theme_id m)
       /\ Mongo.cast_String (MessageForm.content body)
          = Some (Some (Mongo.Message.content m))
       /\ Mongo.Message.share_name m = truthy (MessageForm.share_name body)
       /\ Mongo.Message.share_class m = truthy (MessageForm.share_class body)
       /\ Mongo.Message.share_theme m = truthy (MessageForm.share_theme body)
       /\ Mongo.cast_String (client_ip req)
          = Some (Mongo.Message.ip_address m)
       /\ Mongo.Message.created_at m = now
       /\ Mongo.Message.is_read m = false.
Proof.
  intros out. subst out. unfold Mongo.student_messages_post, falsy.
  destruct (truthy (MessageForm.radio_name body)) eqn:Er; simpl;
    [|discriminate].
  destruct (truthy (MessageForm.content body)) eqn:Ec; simpl;
    [|discriminate].
  destruct (truthy (MessageForm.theme_id body) &&
            negb (Mongo.isValid (MessageForm.theme_id body))) eqn:Et;
    [discriminate|].
  destruct io; [|discriminate].
  unfold Mongo.create_message.
  destruct (Mongo.cast_String (or_else _ _)) as [sender'|]; [|discriminate].
  destruct (Mongo.cast_String (MessageForm.radio_name body)) as [radio'|];
    [|discriminate].
  destruct (Mongo.cast_String (fullClass _ _)) as [class'|]; [|discriminate].
  destruct (Mongo.cast_ObjectId _) as [theme'|]; [|discriminate].
  destruct (Mongo.cast_String (MessageForm.content body)) as [content'|];
    [|discriminate].
  destruct (Mongo.cast_String (client_ip req)) as [ip'|]; [|discriminate].
  destruct (Mongo.required radio') as [radio''|] eqn:Rr; [|discriminate].
  destruct (Mongo.required content') as [content''|] eqn:Rc; [|discriminate].
  destruct (existsb _ _); [discriminate|].
  apply required_some in Rr, Rc. destruct Rr as [-> _], Rc as [-> _].
  simpl. intros _. rewrite !negb_involutive.
  split; [reflexivity|]. split; [reflexivity|]. split.
  { intros Ht. rewrite Ht in Et. simpl in Et.
    apply negb_false_iff in Et. exact Et. }
  split; [reflexivity|]. eexists. repeat split; reflexivity.
Qed.




Lemma truthiness_if {F : Type} (no yes : F) (v : JsVal) :
  truthiness no yes v (if truthy v then yes else no).
Proof.
  split; intros H; [apply truthy_Falsy in H | apply truthy_not_Falsy in H];
    rewrite H; reflexivity.
Qed.

Lemma truthiness_bool (v : JsVal) : truthiness false true v (truthy v).
Proof.
  split; intros H; [apply truthy_Falsy in H | apply truthy_not_Falsy in H];
    exact H.
Qed.




(** C9.  In both services each of the three share flags stored with a
    submitted message is the truthiness of the value the body has for it:
    0 (false) for an absent key, null, false, 0 and the empty string, and
    1 (true) for every other value, the string false, arrays and objects
    included. *)
Theorem stored_share_flags {engine : Sqlite.Engine} {mapper : Mongo.Mapper}
    (req : Request) (body : MessageForm.t) (now : Date.t) :
  (forall io db,
     let out := Sqlite.student_messages_post req body now io db in
     status (fst out) = 200 ->
     exists row,
       Sqlite.messages (snd out) = (Sqlite.messages db ++ [row])%list
       /\ truthiness 0 1 (MessageForm.share_name body)
            (Sqlite.Message.share_name row)
       /\ truthiness 0 1 (MessageForm.share_class body)
            (Sqlite.Message.share_class row)
       /\ truthiness 0 1 (MessageForm.share_theme body)
            (Sqlite.Message.share_theme row))
  /\ (forall fresh io db,
        let out := Mongo.student_messages_post req body fresh now io db in
        status (fst out) = 200 ->
        exists m,
          Mongo.messages (snd out) = (Mongo.messages db ++ [m])%list
          /\ truthiness false true (MessageForm.share_name body)
               (Mongo.Message.share_name m)
          /\ truthiness false true (MessageForm.share_class body)
               (Mongo.Message.share_class m)
          /\ truthiness false true (MessageForm.share_theme body)
               (Mongo.Message.share_theme m)).
Proof.
  split.
  - intros io db out Hok.
    destruct (sqlite_post_inv req body now io db Hok)
      as [_ [_ [_ [lastID [_ Hdb]]]]].
    subst out. rewrite Hdb. simpl. eexists. split; [reflexivity|].
    cbn [Sqlite.Message.share_name Sqlite.Message.share_class
         Sqlite.Message.share_theme].
    split; [|split]; apply truthiness_if.
  - intros fresh io db out Hok.
    destruct (mongo_post_inv req body fresh now io db Hok)
      as (_ & _ & _ & _ & m & _ & Hdb & _ & _ & _ & _ & _ & _ & Hn & Hc
          & Ht & _).
    subst out. rewrite Hdb. simpl. exists m. split; [reflexivity|].
    rewrite Hn, Hc, Ht. split; [|split]; apply truthiness_bool.
Qed.

(** *** POST /api/staff/themes and the optional fields *)

Lemma sqlite_theme_post_inv {engine : Sqlite.Engine} body now io db :
  let out := Sqlite.staff_themes_post body now io db in
  status (fst out) = 200 ->
  truthy (ThemeForm.title body) = true
  /\ io = Done
  /\ exists lastID,
       snd out
       = Sqlite.with_themes db
           (Sqlite.themes db ++
            [Sqlite.Theme.mk lastID
               (Sqlite.text_affinity (Sqlite.bind (ThemeForm.title body)))
               (Sqlite.text_affinity
                  (Sqlite.bind (ThemeForm.description body)))
               (Sqlite.numeric_affinity
                  (Sqlite.bind (or_else (ThemeForm.start_date body) JNull)))
               (Sqlite.numeric_affinity
                  (Sqlite.bind (or_else (ThemeForm.end_date body) JNull)))
               now 1])%list
           lastID.
Proof.
  intros out. subst out. unfold Sqlite.staff_themes_post, falsy.
  destruct (truthy (ThemeForm.title body)) eqn:Et; simpl; [|discriminate].
  destruct io; [|discriminate].
  unfold Sqlite.insert_theme. simpl.
  rewrite (bind_truthy_not_null _ Et). simpl.
  intros _. repeat split. eexists. reflexivity.
Qed.

Lemma mongo_theme_post_inv {mapper : Mongo.Mapper} body fresh now io db :
  let out := Mongo.staff_themes_post body fresh now io db in
  status (fst out) = 200 ->
  truthy (ThemeForm.title body) = true
  /\ io = Done
  /\ exists theme,
       snd out = Mongo.with_themes db (Mongo.themes db ++ [theme])%list
       /\ Mongo.Theme._id theme = fresh
       /\ Mongo.cast_String (ThemeForm.title body)
          = Some (Some (Mongo.Theme.title theme))
       /\ Mongo.cast_String (ThemeForm.description body)
          = Some (Mongo.Theme.description theme)
       /\ Mongo.cast_Date (or_else (ThemeForm.start_date body) JNull)
          = Some (Mongo.Theme.start_date theme)
       /\ Mongo.cast_Date (or_else (ThemeForm.end_date body) JNull)
          = Some (Mongo.Theme.end_date theme)
       /\ Mongo.Theme.created_at theme = now
       /\ Mongo.Theme.is_active theme = true.
Proof.
  intros out. subst out. unfold Mongo.staff_themes_post, falsy.
  destruct (truthy (ThemeForm.title body)) eqn:Et; simpl; [|discriminate].
  destruct io; [|discriminate].
  unfold Mongo.create_theme.
  destruct (Mongo.cast_String (ThemeForm.title body)) as [title'|];
    [|discriminate].
  destruct (Mongo.cast_String (ThemeForm.description body)) as [descr'|];
    [|discriminate].
  destruct (Mongo.cast_Date (or_else (ThemeForm.start_date body) JNull))
    as [start'|]; [|discriminate].
  destruct (Mongo.cast_Date (or_else (ThemeForm.end_date body) JNull))
    as [end'|]; [|discriminate].
  destruct (Mongo.required title') as [title''|] eqn:Rt; [|discriminate].
  destruct (existsb _ _); [discriminate|].
  apply required_some in Rt. destruct Rt as [-> _].
  simpl. intros _. repeat split. eexists. repeat split; reflexivity.
Qed.


(** A falsy value or-ed with null is bound as NULL, whatever the column;
    a scalar one is never stored as the empty text. *)
Lemma sqlite_or_null_falsy {engine : Sqlite.Engine} (v : JsVal) :
  truthy v = false ->
  Sqlite.text_affinity (Sqlite.bind (or_else v JNull)) = Sqlite.SNull
  /\ Sqlite.numeric_affinity (Sqlite.bind (or_else v JNull)) = Sqlite.SNull.
Proof. unfold or_else. intros ->. split; reflexivity. Qed.


Lemma mongo_or_null_falsy {mapper : Mongo.Mapper} (v : JsVal) :
  truthy v = false ->
  Mongo.cast_String (or_else v JNull) = Some None
  /\ Mongo.cast_Date (or_else v JNull) = Some None.
Proof. unfold or_else. intros ->. split; reflexivity. Qed.



(** *** The two services side by side *)

Lemma same_tokens_find (tok : string) s m :
  same_tokens s m ->
  match find (fun r => String.eqb (Sqlite.AccessToken.token r) tok
                       && (Sqlite.AccessToken.is_active r =? 1)) s,
        find (fun r => String.eqb (Mongo.AccessToken.token r) tok
                       && Mongo.AccessToken.is_active r) m with
  | Some _, Some _ | None, None => True
  | _, _ => False
  end.
Proof.
  induction 1 as [|a b s m [Htok Hact] _ IH]; simpl; [exact I|].
  rewrite Htok, Hact.
  destruct (String.eqb (Mongo.AccessToken.token b) tok
            && Mongo.AccessToken.is_active b); [exact I | exact IH].
Qed.

(** C3, as far as the two services agree.  From token tables that hold the
    same rows, at most one, and under the same storage outcomes, the three
    token endpoints give the same responses in both services, and
    generate-url leaves tables that again hold the same single row.  Both
    services answer 400 to the same theme creations. *)
Theorem token_endpoints_agree {engine : Sqlite.Engine}
    {mapper : Mongo.Mapper} (req : Request) (sdb : Sqlite.Db)
    (mdb : Mongo.Db) :
  same_tokens (Sqlite.access_token sdb) (Mongo.accesstokens mdb) ->
  (length (Sqlite.access_token sdb) <= 1)%nat ->
  (forall io,
     fst (Sqlite.get_current_token req io sdb)
     = fst (Mongo.get_current_token req io mdb))
  /\ (forall tok io,
        fst (Sqlite.verify_token tok io sdb)
        = fst (Mongo.verify_token tok io mdb))
  /\ (forall uuid fresh now now' io1 io2,
        uuid <> "" ->
        let s := Sqlite.generate_url req uuid now io1 io2 sdb in
        let m := Mongo.generate_url req uuid fresh now' io1 io2 mdb in
        fst s = fst m
        /\ same_tokens (Sqlite.access_token (snd s))
             (Mongo.accesstokens (snd m))
        /\ (length (Sqlite.access_token (snd s)) <= 1)%nat)
  /\ (forall body fresh now now' io io',
        status (fst (Sqlite.staff_themes_post body now io sdb)) = 400
        <-> status (fst (Mongo.staff_themes_post body fresh now' io' mdb))
            = 400).
Proof.
  intros Hsame Hone. split; [|split; [|split]].
  - intros io. unfold Sqlite.get_current_token, Mongo.get_current_token.
    destruct io; [|reflexivity].
    unfold Sqlite.select_active_token, Mongo.find_active_token.
    destruct Hsame as [|a b s m [Htok Hact] Hrest]; [reflexivity|].
    destruct Hrest; [|simpl in Hone; lia].
    simpl. rewrite Hact.
    destruct (Mongo.AccessToken.is_active b); simpl; [|reflexivity].
    rewrite Htok. reflexivity.
  - intros tok io. unfold Sqlite.verify_token, Mongo.verify_token.
    destruct io; [|reflexivity].
    unfold Sqlite.select_token, Mongo.find_token.
    pose proof (same_tokens_find tok _ _ Hsame) as H.
    destruct (find _ (Sqlite.access_token sdb)),
             (find _ (Mongo.accesstokens mdb));
      try contradiction; reflexivity.
  - intros uuid fresh now now' io1 io2 Hne s m. subst s m.
    unfold Sqlite.generate_url, Mongo.generate_url.
    destruct io1.
    + unfold Mongo.create_token. rewrite (required_nonempty uuid Hne).
      destruct io2; simpl.
      * repeat split; [|lia]. repeat constructor.
      * repeat split; [constructor | lia].
    + simpl. repeat split; assumption.
  - intros body fresh now now' io io'.
    unfold Sqlite.staff_themes_post, Mongo.staff_themes_post.
    destruct (falsy (ThemeForm.title body)); simpl; [tauto|].
    destruct (Sqlite.insert_theme now _ _ _ _ sdb) as [[lastID sdb']|];
      destruct (Mongo.create_theme fresh now' _ _ _ _ _) as [[theme docs]|];
      destruct io, io'; simpl; split; discriminate.
Qed.

(** *** Listings: order *)

Section OrderFacts.
Context {A : Type} (created_at : A -> Date.t).

Lemma lex_antisym (a b : list Z) :
  length a = length b -> Date.lex b a = CompOpp (Date.lex a b).
Proof.
  revert b. induction a as [|x a IH]; intros [|y b] Hlen;
    try discriminate Hlen; [reflexivity|].
  simpl. rewrite (Z.compare_antisym x y).
  destruct (x ?= y); simpl; auto.
Qed.

Lemma leb_total (a b : Date.t) :
  Date.leb a b = false -> Date.leb b a = true.
Proof.
  unfold Date.leb, Date.compare.
  rewrite (lex_antisym (Date.fields a) (Date.fields b) eq_refl).
  destruct (Date.lex (Date.fields a) (Date.fields b)); simpl;
    intros H; try discriminate H; reflexivity.
Qed.

Lemma lex_trans_le (a b c : list Z) :
  length a = length b -> length b = length c ->
  Date.lex a b <> Gt -> Date.lex b c <> Gt -> Date.lex a c <> Gt.
Proof.
  revert b c. induction a as [|x a IH]; intros [|y b] [|z c] Hab Hbc;
    try discriminate Hab; try discriminate Hbc; simpl; [auto|].
  destruct (Z.compare_spec x y) as [Exy|Lxy|Gxy];
    destruct (Z.compare_spec y z) as [Eyz|Lyz|Gyz];
    destruct (Z.compare_spec x z) as [Exz|Lxz|Gxz];
    try lia; try congruence.
  intros H1 H2. apply (IH b c); auto.
Qed.

Lemma leb_trans (a b c : Date.t) :
  Date.leb a b = true -> Date.leb b c = true -> Date.leb a c = true.
Proof.
  unfold Date.leb, Date.compare. intros Hab Hbc.
  assert (H : Date.lex (Date.fields a) (Date.fields c) <> Gt).
  { apply (lex_trans_le _ (Date.fields b)); try reflexivity.
    - destruct (Date.lex (Date.fields a) (Date.fields b));
        congruence.
    - destruct (Date.lex (Date.fields b) (Date.fields c));
        congruence. }
  destruct (Date.lex (Date.fields a) (Date.fields c)); congruence.
Qed.

Lemma insert_desc_perm (x : A) (l : list A) :
  Permutation (insert_desc created_at x l) (x :: l).
Proof.
  induction l as [|y l IH]; simpl; [reflexivity|].
  destruct (Date.leb (created_at y) (created_at x)); [reflexivity|].
  rewrite IH. apply perm_swap.
Qed.

Lemma order_desc_perm (l : list A) :
  Permutation (order_desc created_at l) l.
Proof.
  induction l as [|x l IH]; simpl; [reflexivity|].
  rewrite insert_desc_perm. constructor. exact IH.
Qed.

Lemma insert_desc_sorted (x : A) (l : list A) :
  StronglySorted (newer_first created_at) l ->
  StronglySorted (newer_first created_at) (insert_desc created_at x l).
Proof.
  induction 1 as [|y l Hl IH Hy]; simpl.
  - repeat constructor.
  - destruct (Date.leb (created_at y) (created_at x)) eqn:E.
    + constructor; [constructor; assumption|].
      constructor; [exact E|].
      rewrite Forall_forall in *. intros z Hz. unfold newer_first.
      apply (leb_trans _ (created_at y)); [exact (Hy z Hz) | exact E].
    + constructor; [exact IH|].
      rewrite Forall_forall in *. intros z Hz.
      apply (Permutation_in _ (insert_desc_perm x l)) in Hz.
      destruct Hz as [<- | Hz]; [|exact (Hy z Hz)].
      apply leb_total. exact E.
Qed.

Lemma order_desc_sorted (l : list A) :
  StronglySorted (newer_first created_at) (order_desc created_at l).
Proof.
  induction l as [|x l IH]; simpl; [constructor|].
  apply insert_desc_sorted. exact IH.
Qed.

End OrderFacts.

(** *** Dates as the first service compares them *)

Lemma compare_app (s1 s2 t1 t2 : string) :
  String.length s1 = String.length s2 ->
  String.compare (s1 ++ t1) (s2 ++ t2)
  = match String.compare s1 s2 with
    | Eq => String.compare t1 t2
    | c => c
    end.
Proof.
  revert s2. induction s1 as [|c1 s1 IH]; intros [|c2 s2] Hlen;
    try discriminate Hlen; simpl; [reflexivity|].
  destruct (Ascii.compare c1 c2); auto.
Qed.

Lemma length_app (s t : string) :
  String.length (s ++ t) = (String.length s + String.length t)%nat.
Proof. induction s as [|c s IH]; simpl; auto. Qed.

Lemma pad_length (w : nat) (n : Z) : String.length (Date.pad w n) = w.
Proof.
  revert n. induction w as [|w IH]; intros n; simpl; [reflexivity|].
  rewrite length_app, IH. simpl. lia.
Qed.

Lemma digit_cases (d : Z) :
  0 <= d < 10 ->
  d = 0 \/ d = 1 \/ d = 2 \/ d = 3 \/ d = 4 \/ d = 5 \/ d = 6 \/ d = 7
  \/ d = 8 \/ d = 9.
Proof. lia. Qed.

Lemma digit_compare (x y : Z) :
  0 <= x < 10 -> 0 <= y < 10 ->
  Ascii.compare (Date.digit x) (Date.digit y) = (x ?= y).
Proof.
  intros Hx Hy.
  destruct (digit_cases x Hx) as [-> | [-> | [-> | [-> | [-> | [-> | [-> |
             [-> | [-> | ->]]]]]]]]];
    destruct (digit_cases y Hy) as [-> | [-> | [-> | [-> | [-> | [-> | [-> |
               [-> | [-> | ->]]]]]]]]];
    reflexivity.
Qed.

Lemma pad_compare (w : nat) (a b : Z) :
  0 <= a < 10 ^ Z.of_nat w -> 0 <= b < 10 ^ Z.of_nat w ->
  String.compare (Date.pad w a) (Date.pad w b) = (a ?= b).
Proof.
  revert a b. induction w as [|w IH]; intros a b Ha Hb.
  - change (10 ^ Z.of_nat 0) with 1 in Ha, Hb.
    assert (a = 0) by lia. assert (b = 0) by lia. subst.
    reflexivity.
  - rewrite Nat2Z.inj_succ, Z.pow_succ_r in Ha, Hb by lia.
    cbn [Date.pad]. rewrite compare_app by (rewrite !pad_length; reflexivity).
    rewrite IH by (split; [apply Z.div_pos; lia
                          | apply Z.div_lt_upper_bound; lia]).
    cbn [String.compare]. rewrite digit_compare by (apply Z.mod_pos_bound; lia).
    pose proof (Z.div_mod a 10 ltac:(lia)) as Da.
    pose proof (Z.div_mod b 10 ltac:(lia)) as Db.
    pose proof (Z.mod_pos_bound a 10 ltac:(lia)) as Ma.
    pose proof (Z.mod_pos_bound b 10 ltac:(lia)) as Mb.
    destruct (Z.compare_spec (a / 10) (b / 10)) as [E|L|G].
    + destruct (Z.compare_spec (a mod 10) (b mod 10)) as [E'|L'|G'];
        symmetry; [apply Z.compare_eq_iff | apply Z.compare_lt_iff
                  | apply Z.compare_gt_iff]; lia.
    + symmetry. apply Z.compare_lt_iff. lia.
    + symmetry. apply Z.compare_gt_iff. lia.
Qed.

Lemma pad2_compare (a b : Z) :
  0 <= a <= 99 -> 0 <= b <= 99 ->
  String.compare (Date.pad 2 a) (Date.pad 2 b) = (a ?= b).
Proof.
  intros Ha Hb. apply pad_compare; change (10 ^ Z.of_nat 2) with 100; lia.
Qed.

Lemma pad4_compare (a b : Z) :
  0 <= a <= 9999 -> 0 <= b <= 9999 ->
  String.compare (Date.pad 4 a) (Date.pad 4 b) = (a ?= b).
Proof.
  intros Ha Hb. apply pad_compare; change (10 ^ Z.of_nat 4) with 10000; lia.
Qed.

Lemma compare_dash (s t : string) :
  String.compare ("-" ++ s) ("-" ++ t) = String.compare s t.
Proof. reflexivity. Qed.

(** On well-formed dates the [YYYY-MM-DD] texts compare as the days do. *)
Lemma isoDate_compare (a b : Date.t) :
  Date.wf a -> Date.wf b ->
  String.compare (Date.isoDate a) (Date.isoDate b)
  = Date.lex (Date.calendar a) (Date.calendar b).
Proof.
  intros (Hy & Hm & Hd & _) (Hy' & Hm' & Hd' & _).
  unfold Date.isoDate, Date.calendar.
  rewrite compare_app by (rewrite !pad_length; reflexivity).
  rewrite pad4_compare by lia.
  rewrite compare_dash.
  rewrite compare_app by (rewrite !pad_length; reflexivity).
  rewrite pad2_compare by lia.
  rewrite compare_dash.
  rewrite pad2_compare by lia.
  cbn [Date.lex].
  destruct (Date.year a ?= Date.year b); try reflexivity.
  destruct (Date.month a ?= Date.month b); try reflexivity.
  destruct (Date.day a ?= Date.day b); reflexivity.
Qed.

Lemma free_of_app (c : ascii) (s t : string) :
  free_of c (s ++ t) = free_of c s && free_of c t.
Proof.
  induction s as [|x s IH]; simpl; [reflexivity|].
  rewrite IH, andb_assoc. reflexivity.
Qed.

Lemma split_head (sep : ascii) (s rest : string) :
  free_of sep s = true ->
  hd "" (str_split sep (s ++ String sep rest)) = s.
Proof.
  induction s as [|x s IH]; simpl.
  - intros _. rewrite Ascii.eqb_refl. reflexivity.
  - intros H. apply andb_true_iff in H. destruct H as [Hx Hs].
    apply negb_true_iff in Hx. rewrite Hx. specialize (IH Hs).
    destruct (str_split sep (s ++ String sep rest)) as [|h t];
      simpl in *; congruence.
Qed.

Lemma pad_free_of_T (w : nat) (n : Z) : free_of "T" (Date.pad w n) = true.
Proof.
  revert n. induction w as [|w IH]; intros n; [reflexivity|].
  cbn [Date.pad]. rewrite free_of_app, IH.
  pose proof (Z.mod_pos_bound n 10 ltac:(lia)) as Hd.
  destruct (digit_cases (n mod 10) Hd)
    as [-> | [-> | [-> | [-> | [-> | [-> | [-> | [-> | [-> | ->]]]]]]]]];
    reflexivity.
Qed.

(** [new Date().toISOString().split('T')[0]] is the day of the clock. *)
Lemma today_is_isoDate (now : Date.t) :
  hd "" (str_split "T" (Date.toISOString now)) = Date.isoDate now.
Proof.
  unfold Date.toISOString.
  change (Date.isoDate now ++ "T" ++ ?r)
    with (Date.isoDate now ++ String "T" r).
  apply split_head. unfold Date.isoDate.
  rewrite !free_of_app, !pad_free_of_T. reflexivity.
Qed.

(** The first service lists a theme for students by the day: on an engine
    that reads no [YYYY-MM-DD] text as a number, a theme whose date columns
    hold days or null passes the WHERE clause exactly when it is active and
    the day of the clock is within the window, bounds included. *)
Lemma sqlite_open_on_by_day {engine : Sqlite.Engine} (now : Date.t)
    (t : Sqlite.Theme.t) (first last : option Date.t) :
  (forall d, Date.wf d -> Sqlite.numeric_of_text (Date.isoDate d) = None) ->
  Date.wf now ->
  holds_day (Sqlite.Theme.start_date t) first ->
  holds_day (Sqlite.Theme.end_date t) last ->
  Sqlite.open_on (hd "" (str_split "T" (Date.toISOString now))) t
  = (Sqlite.Theme.is_active t =? 1)
    && match first with None => true | Some d => Date.day_leb d now end
    && match last with None => true | Some d => Date.day_leb now d end.
Proof.
  intros Hnum Hnow Hfirst Hlast. rewrite today_is_isoDate.
  unfold Sqlite.open_on, Sqlite.numeric_affinity. rewrite (Hnum now Hnow).
  f_equal; [f_equal|].
  - destruct first as [d|]; simpl in Hfirst.
    + destruct Hfirst as [Hd ->]. simpl.
      unfold Sqlite.sql_le, Sqlite.sql_compare, Date.day_leb.
      rewrite (isoDate_compare d now Hd Hnow).
      destruct (Date.lex _ _); reflexivity.
    + rewrite Hfirst. reflexivity.
  - destruct last as [d|]; simpl in Hlast.
    + destruct Hlast as [Hd ->]. simpl.
      unfold Sqlite.sql_ge, Sqlite.sql_compare, Date.day_leb.
      rewrite (isoDate_compare d now Hd Hnow).
      rewrite (lex_antisym (Date.calendar d) (Date.calendar now) eq_refl).
      destruct (Date.lex _ _); reflexivity.
    + rewrite Hlast. reflexivity.
Qed.

(** X19.  Both theme listings of both services are the selected rows, each
    once, newest first: the staff listing the active themes, the student
    listing those that also pass the date test of the service. *)
Lemma listings_selected_and_ordered {engine : Sqlite.Engine} (now : Date.t) :
  (forall db,
     exists l,
       fst (Sqlite.staff_themes_get Done db) = ok l
       /\ Permutation l (filter (fun t => Sqlite.Theme.is_active t =? 1)
                           (Sqlite.themes db))
       /\ StronglySorted (newer_first Sqlite.Theme.created_at) l)
  /\ (forall db,
        exists l,
          fst (Sqlite.student_themes_get now Done db) = ok l
          /\ Permutation l
               (filter (Sqlite.open_on
                          (hd "" (str_split "T" (Date.toISOString now))))
                       (Sqlite.themes db))
          /\ StronglySorted (newer_first Sqlite.Theme.created_at) l)
  /\ (forall db,
        exists l,
          fst (Mongo.staff_themes_get Done db)
          = ok (Mongo.toClient Mongo.Theme._id l)
          /\ Permutation l (filter Mongo.Theme.is_active (Mongo.themes db))
          /\ StronglySorted (newer_first Mongo.Theme.created_at) l)
  /\ (forall db,
        exists l,
          fst (Mongo.student_themes_get now Done db)
          = ok (Mongo.toClient Mongo.Theme._id l)
          /\ Permutation l (filter (Mongo.open_at now) (Mongo.themes db))
          /\ StronglySorted (newer_first Mongo.Theme.created_at) l).
Proof.
  repeat split; intros db; eexists;
    (split; [reflexivity|]);
    (split; [apply order_desc_perm | apply order_desc_sorted]).
Qed.

(** ** Further properties *)

(** *** The token endpoints together *)

Lemma order_desc_in {A : Type} (created_at : A -> Date.t) (x : A)
    (l : list A) :
  In x (order_desc created_at l) <-> In x l.
Proof.
  split; apply Permutation_in;
    [|symmetry]; apply order_desc_perm.
Qed.

(** X1.  In both services the token that GET /api/teacher/get-current-token
    answers with is one that GET /api/verify-token accepts on the same
    store, and the url of the answer is the staff page with that token. *)
Theorem current_token_verifies (req : Request) :
  (forall db u t,
     fst (Sqlite.get_current_token req Done db) = ok (mkTokenBody u (Some t))
     -> u = Some (staff_url req t)
        /\ fst (Sqlite.verify_token t Done db) = ok (mkVerifyBody true None))
  /\ (forall db u t,
        fst (Mongo.get_current_token req Done db)
        = ok (mkTokenBody u (Some t))
        -> u = Some (staff_url req t)
           /\ fst (Mongo.verify_token t Done db)
              = ok (mkVerifyBody true None)).
Proof.
  split; intros db u t.
  - unfold Sqlite.get_current_token, Sqlite.select_active_token.
    destruct (find _ _) as [row|] eqn:E; simpl; [|discriminate].
    intros H. injection H as <- <-. split; [reflexivity|].
    apply find_some in E. destruct E as [Hin Hact].
    unfold Sqlite.verify_token, Sqlite.select_token.
    destruct (find _ _) as [y|] eqn:E'; [reflexivity|].
    exfalso. apply (proj1 (find_none_iff _ _) E'). exists row.
    split; [exact Hin|]. rewrite String.eqb_refl, Hact. reflexivity.
  - unfold Mongo.get_current_token, Mongo.find_active_token.
    destruct (hd_error _) as [row|] eqn:E; simpl; [|discriminate].
    intros H. injection H as <- <-. split; [reflexivity|].
    assert (Hin : In row (filter Mongo.AccessToken.is_active
                            (Mongo.accesstokens db))).
    { apply (order_desc_in Mongo.AccessToken.created_at).
      destruct (order_desc _ _); [discriminate|].
      injection E as <-. left. reflexivity. }
    apply filter_In in Hin. destruct Hin as [Hin Hact].
    unfold Mongo.verify_token, Mongo.find_token.
    destruct (find _ _) as [y|] eqn:E'; [reflexivity|].
    exfalso. apply (proj1 (find_none_iff _ _) E'). exists row.
    split; [exact Hin|]. rewrite String.eqb_refl, Hact. reflexivity.
Qed.

(** X2.  In both services, after a generate-url answered 200, verify-token
    accepts the generated token and no other string: every token issued
    before is answered 401. *)
Theorem only_new_token_verifies (req : Request) (uuid : string)
    (now : Date.t) :
  (forall io1 io2 db tok,
     let out := Sqlite.generate_url req uuid now io1 io2 db in
     status (fst out) = 200 ->
     (fst (Sqlite.verify_token tok Done (snd out))
      = ok (mkVerifyBody true None) <-> tok = uuid)
     /\ (tok <> uuid ->
         fst (Sqlite.verify_token tok Done (snd out)) = unauthorized))
  /\ (forall fresh io1 io2 db tok,
        let out := Mongo.generate_url req uuid fresh now io1 io2 db in
        status (fst out) = 200 ->
        (fst (Mongo.verify_token tok Done (snd out))
         = ok (mkVerifyBody true None) <-> tok = uuid)
        /\ (tok <> uuid ->
            fst (Mongo.verify_token tok Done (snd out)) = unauthorized)).
Proof.
  split.
  - intros io1 io2 db tok out. subst out. unfold Sqlite.generate_url.
    destruct io1, io2; simpl; intros H; try discriminate H.
    unfold Sqlite.verify_token, Sqlite.select_token, unauthorized. simpl.
    destruct (String.eqb_spec uuid tok) as [E|E]; simpl.
    + split; [split; congruence | congruence].
    + split; [split; [discriminate | congruence] | reflexivity].
  - intros fresh io1 io2 db tok out. subst out. unfold Mongo.generate_url.
    destruct io1; [|discriminate].
    destruct io2; [|discriminate]. simpl Mongo.accesstokens.
    destruct (Mongo.create_token fresh now uuid true []) as [docs|] eqn:E;
      [|discriminate].
    intros _. apply mongo_create_first_token in E. subst docs.
    unfold Mongo.verify_token, Mongo.find_token, unauthorized. simpl.
    destruct (String.eqb_spec uuid tok) as [E|E]; simpl.
    + split; [split; congruence | congruence].
    + split; [split; [discriminate | congruence] | reflexivity].
Qed.

(** X3.  In both services a generate-url whose delete fails is answered 500
    and leaves the store as it was; one whose delete completes and whose
    insert fails is answered 500 and leaves no token at all: afterwards
    get-current-token answers null and verify-token accepts nothing. *)
Theorem failed_rotation_leaves_no_token (req : Request) (uuid : string)
    (now : Date.t) :
  (forall io2 db,
     Sqlite.generate_url req uuid now Failed io2 db
     = (fail 500 "URL生成に失敗しました", db))
  /\ (forall db,
        let out := Sqlite.generate_url req uuid now Done Failed db in
        fst out = fail 500 "URL生成に失敗しました"
        /\ Sqlite.access_token (snd out) = []
        /\ (forall req',
              fst (Sqlite.get_current_token req' Done (snd out))
              = ok (mkTokenBody None None))
        /\ (forall tok,
              fst (Sqlite.verify_token tok Done (snd out)) = unauthorized))
  /\ (forall fresh io2 db,
        Mongo.generate_url req uuid fresh now Failed io2 db
        = (fail 500 "URL生成に失敗しました", db))
  /\ (forall fresh db,
        let out := Mongo.generate_url req uuid fresh now Done Failed db in
        fst out = fail 500 "URL生成に失敗しました"
        /\ Mongo.accesstokens (snd out) = []
        /\ (forall req',
              fst (Mongo.get_current_token req' Done (snd out))
              = ok (mkTokenBody None None))
        /\ (forall tok,
              fst (Mongo.verify_token tok Done (snd out)) = unauthorized)).
Proof. repeat split. Qed.

(** *** What a call does to the store *)

Lemma max_id_bound (ids : list Z) (i : Z) :
  In i ids -> i <= Sqlite.max_id ids.
Proof.
  unfold Sqlite.max_id. induction ids as [|j ids IH]; simpl; [intros []|].
  intros [<- | Hin]; [lia|]. specialize (IH Hin). lia.
Qed.

Lemma next_autoincrement_fresh (seq : Z) (ids : list Z) (i : Z) :
  In i ids -> i < Sqlite.next_autoincrement seq ids.
Proof.
  intros Hin. apply max_id_bound in Hin. unfold Sqlite.next_autoincrement.
  lia.
Qed.

Lemma NoDup_snoc {A : Type} (l : list A) (x : A) :
  NoDup l -> ~ In x l -> NoDup (l ++ [x]).
Proof.
  induction 1 as [|y l Hy Hl IH]; simpl; intros Hx.
  - constructor; [intros [] | constructor].
  - constructor.
    + rewrite in_app_iff. intros [H | [H | []]]; [auto|].
      apply Hx. left. symmetry. exact H.
    + apply IH. intros H. apply Hx. right. exact H.
Qed.

Lemma Forall2_refl_on {A : Type} (R : A -> A -> Prop) (l : list A) :
  (forall x, R x x) -> Forall2 R l l.
Proof. intros HR. induction l; constructor; auto. Qed.

Lemma Forall2_map_r {A : Type} (R : A -> A -> Prop) (f : A -> A)
    (l : list A) :
  (forall x, R x (f x)) -> Forall2 R l (map f l).
Proof. intros HR. induction l; simpl; constructor; auto. Qed.

(** The effect of each route of the first service that writes. *)
Lemma sqlite_generate_url_effect req uuid now io1 io2 db :
  let db' := snd (Sqlite.generate_url req uuid now io1 io2 db) in
  db' = db \/ db' = Sqlite.with_access_token db []
  \/ db' = Sqlite.with_access_token db [Sqlite.AccessToken.mk 1 uuid now 1].
Proof. destruct io1, io2; simpl; auto. Qed.

Lemma sqlite_theme_post_effect {engine : Sqlite.Engine} body now io db :
  let out := Sqlite.staff_themes_post body now io db in
  (status (fst out) <> 200 /\ snd out = db)
  \/ (status (fst out) = 200
      /\ exists row,
           snd out = Sqlite.with_themes db (Sqlite.themes db ++ [row])%list
                       (Sqlite.Theme.id row)
           /\ Sqlite.Theme.id row
              = Sqlite.next_autoincrement (Sqlite.themes_seq db)
                  (map Sqlite.Theme.id (Sqlite.themes db))
           /\ fst out
              = ok (Sqlite.mkThemeBody (Sqlite.Theme.id row)
                      (ThemeForm.title body) (ThemeForm.description body)
                      (ThemeForm.start_date body) (ThemeForm.end_date body))
           /\ Sqlite.Theme.title row
              = Sqlite.text_affinity (Sqlite.bind (ThemeForm.title body))
           /\ Sqlite.Theme.is_active row = 1).
Proof.
  intros out. subst out. unfold Sqlite.staff_themes_post.
  destruct (falsy (ThemeForm.title body)); simpl;
    [left; split; [discriminate | reflexivity]|].
  destruct io; [|left; split; [discriminate | reflexivity]].
  unfold Sqlite.insert_theme. simpl.
  destruct (Sqlite.is_null _); simpl;
    [left; split; [discriminate | reflexivity]|].
  right. split; [reflexivity|].
  match goal with |- context [(_ ++ [?r])%list] => exists r end.
  repeat split; reflexivity.
Qed.

Lemma sqlite_message_post_effect {engine : Sqlite.Engine} req body now io db :
  let out := Sqlite.student_messages_post req body now io db in
  (status (fst out) <> 200 /\ snd out = db)
  \/ (status (fst out) = 200
      /\ exists row,
           snd out
           = Sqlite.with_messages db (Sqlite.messages db ++ [row])%list
               (Sqlite.Message.id row)
           /\ Sqlite.Message.id row
              = Sqlite.next_autoincrement (Sqlite.messages_seq db)
                  (map Sqlite.Message.id (Sqlite.messages db))
           /\ fst out
              = ok (mkSubmitBody (Sqlite.Message.id row)
                      "お便りを送信しました")
           /\ Sqlite.Message.theme_id row
              = Sqlite.numeric_affinity
                  (Sqlite.bind (MessageForm.theme_id body))
           /\ Sqlite.Message.is_read row = 0).
Proof.
  intros out. subst out. unfold Sqlite.student_messages_post.
  destruct (falsy _ || falsy _); simpl;
    [left; split; [discriminate | reflexivity]|].
  destruct io; [|left; split; [discriminate | reflexivity]].
  unfold Sqlite.insert_message. simpl.
  destruct (Sqlite.is_null _ || Sqlite.is_null _); simpl;
    [left; split; [discriminate | reflexivity]|].
  right. split; [reflexivity|].
  match goal with |- context [(_ ++ [?r])%list] => exists r end.
  repeat split; reflexivity.
Qed.

Lemma sqlite_delete_effect {engine : Sqlite.Engine} id io db :
  let out := Sqlite.staff_themes_delete id io db in
  (status (fst out) <> 200 /\ snd out = db)
  \/ (status (fst out) = 200
      /\ snd out
         = Sqlite.with_themes db
             (map (fun t => if Sqlite.where_id id (Sqlite.Theme.id t)
                            then Sqlite.deactivate t else t)
                  (Sqlite.themes db))
             (Sqlite.themes_seq db)).
Proof.
  destruct io; simpl; [right | left]; split;
    try reflexivity; discriminate.
Qed.

Lemma sqlite_read_effect {engine : Sqlite.Engine} id io db :
  let out := Sqlite.staff_messages_read id io db in
  (status (fst out) <> 200 /\ snd out = db)
  \/ (status (fst out) = 200
      /\ snd out
         = Sqlite.with_messages db
             (map (fun m => if Sqlite.where_id id (Sqlite.Message.id m)
                            then Sqlite.mark_read m else m)
                  (Sqlite.messages db))
             (Sqlite.messages_seq db)).
Proof.
  destruct io; simpl; [right | left]; split;
    try reflexivity; discriminate.
Qed.

(** The routes that only read leave the database as it is. *)
Lemma sqlite_reads_keep {engine : Sqlite.Engine} (db : Sqlite.Db) :
  (forall req io, snd (Sqlite.get_current_token req io db) = db)
  /\ (forall tok io, snd (Sqlite.verify_token tok io db) = db)
  /\ (forall io, snd (Sqlite.staff_themes_get io db) = db)
  /\ (forall io, snd (Sqlite.staff_messages_get io db) = db)
  /\ (forall now io, snd (Sqlite.student_themes_get now io db) = db)
  /\ (forall io, snd (Sqlite.teacher_logs io db) = db).
Proof.
  repeat split; intros; try (destruct io; reflexivity).
  - unfold Sqlite.get_current_token. destruct io; [|reflexivity].
    destruct (Sqlite.select_active_token db); reflexivity.
  - unfold Sqlite.verify_token. destruct io; [|reflexivity].
    destruct (Sqlite.select_token tok db); reflexivity.
Qed.

(** The effect of each route of the second service that writes. *)
Lemma findByIdAndUpdate_ages {D : Type} (_id : D -> Mongo.ObjectId)
    (id : Mongo.ObjectId) (update : D -> D) (docs : list D) :
  Forall2 (fun old new => new = old \/ new = update old) docs
    (snd (Mongo.findByIdAndUpdate _id id update docs)).
Proof.
  destruct (findByIdAndUpdate_cases _id id docs)
    as [Hno | [l1 [d [l2 [-> [Hd Hl1]]]]]].
  - rewrite (findByIdAndUpdate_missing _ _ _ _ Hno). simpl.
    apply Forall2_refl_on. auto.
  - rewrite (findByIdAndUpdate_found _ _ _ _ _ _ Hl1 Hd). simpl.
    apply Forall2_app; [apply Forall2_refl_on; auto|].
    constructor; [auto | apply Forall2_refl_on; auto].
Qed.

Lemma findByIdAndUpdate_ids {D : Type} (_id : D -> Mongo.ObjectId)
    (id : Mongo.ObjectId) (update : D -> D) (docs : list D) :
  (forall d, _id (update d) = _id d) ->
  map _id (snd (Mongo.findByIdAndUpdate _id id update docs)) = map _id docs.
Proof.
  intros Hid.
  induction (findByIdAndUpdate_ages _id id update docs)
    as [|old new l l' [-> | ->] _ IH]; simpl; [reflexivity| |];
    rewrite IH; [reflexivity|]. rewrite Hid. reflexivity.
Qed.

Lemma findByIdAndUpdate_none {D : Type} (_id : D -> Mongo.ObjectId)
    (id : Mongo.ObjectId) (update : D -> D) (docs : list D) :
  fst (Mongo.findByIdAndUpdate _id id update docs) = None ->
  snd (Mongo.findByIdAndUpdate _id id update docs) = docs.
Proof.
  destruct (findByIdAndUpdate_cases _id id docs)
    as [Hno | [l1 [d [l2 [-> [Hd Hl1]]]]]].
  - rewrite (findByIdAndUpdate_missing _ _ _ _ Hno). reflexivity.
  - rewrite (findByIdAndUpdate_found _ _ _ _ _ _ Hl1 Hd). discriminate.
Qed.

Lemma existsb_id_false {D : Type} (_id : D -> Mongo.ObjectId)
    (fresh : Mongo.ObjectId) (docs : list D) :
  existsb (fun d => (_id d =? fresh)%N) docs = false ->
  ~ In fresh (map _id docs).
Proof.
  intros H Hin. apply in_map_iff in Hin. destruct Hin as [d [Hd Hin]].
  assert (E : existsb (fun d => (_id d =? fresh)%N) docs = true).
  { apply existsb_exists. exists d. split; [exact Hin|].
    apply N.eqb_eq. exact Hd. }
  congruence.
Qed.

Lemma mongo_generate_url_effect req uuid fresh now io1 io2 db :
  let db' := snd (Mongo.generate_url req uuid fresh now io1 io2 db) in
  db' = db \/ db' = Mongo.with_accesstokens db []
  \/ db' = Mongo.with_accesstokens db
             [Mongo.AccessToken.mk fresh uuid now true].
Proof.
  unfold Mongo.generate_url. destruct io1; [|auto].
  simpl Mongo.accesstokens.
  destruct (Mongo.create_token fresh now uuid true []) as [docs|] eqn:E;
    destruct io2; simpl; auto.
  apply mongo_create_first_token in E. subst docs. auto.
Qed.

Lemma mongo_theme_post_effect {mapper : Mongo.Mapper} body fresh now io db :
  let out := Mongo.staff_themes_post body fresh now io db in
  (status (fst out) <> 200 /\ snd out = db)
  \/ (status (fst out) = 200
      /\ exists theme,
           snd out = Mongo.with_themes db (Mongo.themes db ++ [theme])%list
           /\ Mongo.Theme._id theme = fresh
           /\ ~ In fresh (map Mongo.Theme._id (Mongo.themes db))
           /\ fst out
              = ok (Mongo.mkThemeBody fresh (Mongo.Theme.title theme)
                      (Mongo.Theme.description theme)
                      (Mongo.Theme.start_date theme)
                      (Mongo.Theme.end_date theme))
           /\ Mongo.cast_String (ThemeForm.title body)
              = Some (Some (Mongo.Theme.title theme))
           /\ Mongo.Theme.is_active theme = true).
Proof.
  intros out. subst out. unfold Mongo.staff_themes_post.
  destruct (falsy (ThemeForm.title body)); simpl;
    [left; split; [discriminate | reflexivity]|].
  unfold Mongo.create_theme.
  destruct (Mongo.cast_String (ThemeForm.title body)) as [title'|];
    [|destruct io; left; split; try discriminate; reflexivity].
  destruct (Mongo.cast_String (ThemeForm.description body)) as [descr'|];
    [|destruct io; left; split; try discriminate; reflexivity].
  destruct (Mongo.cast_Date (or_else (ThemeForm.start_date body) JNull))
    as [start'|]; [|destruct io; left; split; try discriminate; reflexivity].
  destruct (Mongo.cast_Date (or_else (ThemeForm.end_date body) JNull))
    as [end'|]; [|destruct io; left; split; try discriminate; reflexivity].
  destruct (Mongo.required title') as [title''|] eqn:Rt;
    [|destruct io; left; split; try discriminate; reflexivity].
  destruct (existsb _ _) eqn:Ex;
    [destruct io; left; split; try discriminate; reflexivity|].
  destruct io; [|left; split; [discriminate | reflexivity]].
  apply required_some in Rt. destruct Rt as [-> _].
  right. split; [reflexivity|]. eexists. simpl.
  split; [reflexivity|]. split; [reflexivity|].
  split; [apply (existsb_id_false _ _ _ Ex)|]. repeat split.
Qed.

Lemma mongo_message_post_effect {mapper : Mongo.Mapper} req body fresh now
    io db :
  let out := Mongo.student_messages_post req body fresh now io db in
  (status (fst out) <> 200 /\ snd out = db)
  \/ (status (fst out) = 200
      /\ exists m,
           snd out = Mongo.with_messages db (Mongo.messages db ++ [m])%list
           /\ Mongo.Message._id m = fresh
           /\ ~ In fresh (map Mongo.Message._id (Mongo.messages db))
           /\ fst out = ok (mkSubmitBody fresh "お便りを送信しました")
           /\ Mongo.cast_ObjectId
                (if truthy (MessageForm.theme_id body)
                 then MessageForm.theme_id body else JNull)
              = Some (Mongo.Message.theme_id m)
           /\ Mongo.Message.is_read m = false).
Proof.
  intros out. subst out. unfold Mongo.student_messages_post.
  destruct (falsy _ || falsy _); simpl;
    [left; split; [discriminate | reflexivity]|].
  destruct (truthy _ && negb _); simpl;
    [left; split; [discriminate | reflexivity]|].
  unfold Mongo.create_message.
  destruct (Mongo.cast_String (or_else _ _)) as [sender'|];
    [|destruct io; left; split; try discriminate; reflexivity].
  destruct (Mongo.cast_String (MessageForm.radio_name body)) as [radio'|];
    [|destruct io; left; split; try discriminate; reflexivity].
  destruct (Mongo.cast_String (fullClass _ _)) as [class'|];
    [|destruct io; left; split; try discriminate; reflexivity].
  destruct (Mongo.cast_ObjectId _) as [theme'|];
    [|destruct io; left; split; try discriminate; reflexivity].
  destruct (Mongo.cast_String (MessageForm.content body)) as [content'|];
    [|destruct io; left; split; try discriminate; reflexivity].
  destruct (Mongo.cast_String (client_ip req)) as [ip'|];
    [|destruct io; left; split; try discriminate; reflexivity].
  destruct (Mongo.required radio') as [radio''|];
    [|destruct io; left; split; try discriminate; reflexivity].
  destruct (Mongo.required content') as [content''|];
    [|destruct io; left; split; try discriminate; reflexivity].
  destruct (existsb _ _) eqn:Ex;
    [destruct io; left; split; try discriminate; reflexivity|].
  destruct io; [|left; split; [discriminate | reflexivity]].
  right. split; [reflexivity|]. eexists. simpl.
  split; [reflexivity|]. split; [reflexivity|].
  split; [apply (existsb_id_false _ _ _ Ex)|]. repeat split.
Qed.

Lemma mongo_delete_effect {mapper : Mongo.Mapper} id io db :
  let out := Mongo.staff_themes_delete id io db in
  (status (fst out) <> 200 /\ snd out = db)
  \/ (status (fst out) = 200
      /\ exists oid,
           Mongo.objectId_of (JStr id) = Some oid
           /\ snd out
              = Mongo.with_themes db
                  (snd (Mongo.findByIdAndUpdate Mongo.Theme._id oid
                          Mongo.deactivate (Mongo.themes db)))).
Proof.
  intros out. subst out. unfold Mongo.staff_themes_delete, Mongo.isValid.
  destruct (Mongo.objectId_of (JStr id)) as [oid|]; simpl;
    [|left; split; [discriminate | reflexivity]].
  destruct io; [|left; split; [discriminate | reflexivity]].
  pose proof (findByIdAndUpdate_none Mongo.Theme._id oid Mongo.deactivate
                (Mongo.themes db)) as Hnone.
  destruct (Mongo.findByIdAndUpdate Mongo.Theme._id oid Mongo.deactivate
              (Mongo.themes db)) as [[r|] docs] eqn:E; simpl in *.
  - right. split; [reflexivity|]. exists oid. rewrite E.
    split; reflexivity.
  - left. split; [discriminate|]. rewrite (Hnone eq_refl).
    apply mongo_with_themes_same.
Qed.

Lemma mongo_read_effect {mapper : Mongo.Mapper} id io db :
  let out := Mongo.staff_messages_read id io db in
  (status (fst out) <> 200 /\ snd out = db)
  \/ (status (fst out) = 200
      /\ exists oid,
           Mongo.objectId_of (JStr id) = Some oid
           /\ snd out
              = Mongo.with_messages db
                  (snd (Mongo.findByIdAndUpdate Mongo.Message._id oid
                          Mongo.mark_read (Mongo.messages db)))).
Proof.
  intros out. subst out. unfold Mongo.staff_messages_read, Mongo.isValid.
  destruct (Mongo.objectId_of (JStr id)) as [oid|]; simpl;
    [|left; split; [discriminate | reflexivity]].
  destruct io; [|left; split; [discriminate | reflexivity]].
  destruct (Mongo.findByIdAndUpdate Mongo.Message._id oid Mongo.mark_read
              (Mongo.messages db)) as [r docs] eqn:E; simpl.
  right. split; [reflexivity|]. exists oid. rewrite E. split; reflexivity.
Qed.

Lemma mongo_reads_keep (db : Mongo.Db) :
  (forall req io, snd (Mongo.get_current_token req io db) = db)
  /\ (forall tok io, snd (Mongo.verify_token tok io db) = db)
  /\ (forall io, snd (Mongo.staff_themes_get io db) = db)
  /\ (forall io, snd (Mongo.staff_messages_get io db) = db)
  /\ (forall now io, snd (Mongo.student_themes_get now io db) = db)
  /\ (forall io, snd (Mongo.teacher_logs io db) = db).
Proof.
  repeat split; intros; try (destruct io; reflexivity).
  - unfold Mongo.get_current_token. destruct io; [|reflexivity].
    destruct (Mongo.find_active_token db); reflexivity.
  - unfold Mongo.verify_token. destruct io; [|reflexivity].
    destruct (Mongo.find_token tok db); reflexivity.
Qed.

(** *** Invariants of the store *)

Lemma sqlite_route_consistent {engine : Sqlite.Engine} (c : Sqlite.Call)
    (db : Sqlite.Db) :
  sqlite_consistent db -> sqlite_consistent (snd (Sqlite.route c db)).
Proof.
  intros (Hone & Hact & Hthemes & Hmessages).
  destruct (sqlite_reads_keep db) as (R1 & R2 & R3 & R4 & R5 & R6).
  destruct c; simpl.
  - rewrite R1. repeat split; assumption.
  - destruct (sqlite_generate_url_effect req uuid now io_delete io_insert db)
      as [-> | [-> | ->]]; repeat split; simpl; auto.
  - rewrite R2. repeat split; assumption.
  - rewrite R3. repeat split; assumption.
  - destruct (sqlite_theme_post_effect body now io db)
      as [[_ ->] | [_ (row & -> & Hid & _)]];
      [repeat split; assumption|].
    repeat split; simpl; auto.
    rewrite map_app. simpl. apply NoDup_snoc; [assumption|].
    intros Hin. rewrite Hid in Hin.
    apply (next_autoincrement_fresh (Sqlite.themes_seq db)) in Hin. lia.
  - destruct (sqlite_delete_effect id io db) as [[_ ->] | [_ ->]];
      [repeat split; assumption|].
    repeat split; simpl; auto.
    rewrite map_map.
    erewrite map_ext; [exact Hthemes|].
    intros t. destruct (Sqlite.where_id id (Sqlite.Theme.id t)); reflexivity.
  - rewrite R4. repeat split; assumption.
  - destruct (sqlite_read_effect id io db) as [[_ ->] | [_ ->]];
      [repeat split; assumption|].
    repeat split; simpl; auto.
    rewrite map_map.
    erewrite map_ext; [exact Hmessages|].
    intros m. destruct (Sqlite.where_id id (Sqlite.Message.id m));
      reflexivity.
  - rewrite R5. repeat split; assumption.
  - destruct (sqlite_message_post_effect req body now io db)
      as [[_ ->] | [_ (row & -> & Hid & _)]];
      [repeat split; assumption|].
    repeat split; simpl; auto.
    rewrite map_app. simpl. apply NoDup_snoc; [assumption|].
    intros Hin. rewrite Hid in Hin.
    apply (next_autoincrement_fresh (Sqlite.messages_seq db)) in Hin. lia.
  - rewrite R6. repeat split; assumption.
Qed.

Lemma mongo_route_consistent {mapper : Mongo.Mapper} (c : Mongo.Call)
    (db : Mongo.Db) :
  mongo_consistent db -> mongo_consistent (snd (Mongo.route c db)).
Proof.
  intros (Hone & Hact & Hthemes & Hmessages).
  destruct (mongo_reads_keep db) as (R1 & R2 & R3 & R4 & R5 & R6).
  destruct c; simpl.
  - rewrite R1. repeat split; assumption.
  - destruct (mongo_generate_url_effect req uuid fresh now io_delete
                io_create db) as [-> | [-> | ->]];
      repeat split; simpl; auto.
  - rewrite R2. repeat split; assumption.
  - rewrite R3. repeat split; assumption.
  - destruct (mongo_theme_post_effect body fresh now io db)
      as [[_ ->] | [_ (theme & -> & Hid & Hfresh & _)]];
      [repeat split; assumption|].
    repeat split; simpl; auto.
    rewrite map_app. simpl. apply NoDup_snoc; [assumption|].
    rewrite Hid. exact Hfresh.
  - destruct (mongo_delete_effect id io db)
      as [[_ ->] | [_ (oid & _ & ->)]];
      [repeat split; assumption|].
    repeat split; simpl; auto.
    rewrite findByIdAndUpdate_ids by reflexivity. exact Hthemes.
  - rewrite R4. repeat split; assumption.
  - destruct (mongo_read_effect id io db)
      as [[_ ->] | [_ (oid & _ & ->)]];
      [repeat split; assumption|].
    repeat split; simpl; auto.
    rewrite findByIdAndUpdate_ids by reflexivity. exact Hmessages.
  - rewrite R5. repeat split; assumption.
  - destruct (mongo_message_post_effect req body fresh now io db)
      as [[_ ->] | [_ (m & -> & Hid & Hfresh & _)]];
      [repeat split; assumption|].
    repeat split; simpl; auto.
    rewrite map_app. simpl. apply NoDup_snoc; [assumption|].
    rewrite Hid. exact Hfresh.
  - rewrite R6. repeat split; assumption.
Qed.

(** X4.  Whatever sequence of calls either service handles from the empty
    store, and whatever the storage outcomes, the store holds at most one
    token row, every token row is active, and no theme or message
    identifier occurs twice; each single call keeps these. *)
Theorem stores_stay_consistent {engine : Sqlite.Engine}
    {mapper : Mongo.Mapper} :
  (forall calls db,
     sqlite_consistent db -> sqlite_consistent (Sqlite.run calls db))
  /\ (forall calls, sqlite_consistent (Sqlite.run calls Sqlite.empty))
  /\ (forall calls db,
        mongo_consistent db -> mongo_consistent (Mongo.run calls db))
  /\ (forall calls, mongo_consistent (Mongo.run calls Mongo.empty)).
Proof.
  assert (Hs : forall calls db,
             sqlite_consistent db -> sqlite_consistent (Sqlite.run calls db)).
  { unfold Sqlite.run. induction calls as [|c calls IH]; intros db Hdb;
      simpl; [exact Hdb|].
    apply IH, sqlite_route_consistent, Hdb. }
  assert (Hm : forall calls db,
             mongo_consistent db -> mongo_consistent (Mongo.run calls db)).
  { unfold Mongo.run. induction calls as [|c calls IH]; intros db Hdb;
      simpl; [exact Hdb|].
    apply IH, mongo_route_consistent, Hdb. }
  split; [exact Hs|]. split.
  - intros calls. apply Hs. repeat split; simpl; auto; constructor.
  - split; [exact Hm|].
    intros calls. apply Hm. repeat split; simpl; auto; constructor.
Qed.

Section Evolves.
Context {R : Type} (step : R -> R -> Prop).
Hypothesis step_refl : forall x, step x x.
Hypothesis step_trans : forall x y z, step x y -> step y z -> step x z.

Lemma evolves_same (l l' : list R) : Forall2 step l l' -> evolves step l l'.
Proof.
  intros H. exists l', []. split; [symmetry; apply app_nil_r | exact H].
Qed.

Lemma evolves_refl (l : list R) : evolves step l l.
Proof. apply evolves_same, Forall2_refl_on, step_refl. Qed.

Lemma evolves_snoc (l : list R) (x : R) : evolves step l (l ++ [x]).
Proof.
  exists l, [x]. split; [reflexivity | apply Forall2_refl_on, step_refl].
Qed.

Lemma Forall2_step_trans (l1 l2 l3 : list R) :
  Forall2 step l1 l2 -> Forall2 step l2 l3 -> Forall2 step l1 l3.
Proof.
  intros H12. revert l3. induction H12 as [|x y l1 l2 Hxy _ IH];
    intros l3 H23; inversion H23; subst; constructor; eauto.
Qed.

Lemma evolves_trans (l1 l2 l3 : list R) :
  evolves step l1 l2 -> evolves step l2 l3 -> evolves step l1 l3.
Proof.
  intros (k1 & a1 & -> & H1) (k2 & a2 & -> & H2).
  apply Forall2_app_inv_l in H2.
  destruct H2 as (k1' & a1' & Hk & Ha & ->).
  exists k1', (a1' ++ a2)%list. split; [symmetry; apply app_assoc|].
  apply (Forall2_step_trans _ k1); assumption.
Qed.

End Evolves.

Lemma ages_trans {R : Type} (f : R -> R) :
  (forall x, f (f x) = f x) ->
  forall x y z, (y = x \/ y = f x) -> (z = y \/ z = f y) ->
                z = x \/ z = f x.
Proof.
  intros Hf x y z [-> | ->] [-> | ->]; auto.
Qed.

Lemma sqlite_route_evolves {engine : Sqlite.Engine} (c : Sqlite.Call)
    (db : Sqlite.Db) :
  evolves sqlite_theme_ages (Sqlite.themes db)
    (Sqlite.themes (snd (Sqlite.route c db)))
  /\ evolves sqlite_message_ages (Sqlite.messages db)
       (Sqlite.messages (snd (Sqlite.route c db))).
Proof.
  assert (Hsame : forall db', Sqlite.themes db' = Sqlite.themes db ->
            Sqlite.messages db' = Sqlite.messages db ->
            evolves sqlite_theme_ages (Sqlite.themes db) (Sqlite.themes db')
            /\ evolves sqlite_message_ages (Sqlite.messages db)
                 (Sqlite.messages db')).
  { intros db' -> ->. split; apply evolves_refl; intros x; left; reflexivity. }
  destruct (sqlite_reads_keep db) as (R1 & R2 & R3 & R4 & R5 & R6).
  destruct c; simpl;
    try (rewrite ?R1, ?R2, ?R3, ?R4, ?R5, ?R6; apply Hsame; reflexivity).
  - destruct (sqlite_generate_url_effect req uuid now io_delete io_insert db)
      as [-> | [-> | ->]]; apply Hsame; reflexivity.
  - destruct (sqlite_theme_post_effect body now io db)
      as [[_ ->] | [_ (row & -> & _)]]; [apply Hsame; reflexivity|].
    simpl. split; [apply evolves_snoc | apply evolves_refl];
      intros x; left; reflexivity.
  - destruct (sqlite_delete_effect id io db) as [[_ ->] | [_ ->]];
      [apply Hsame; reflexivity|].
    simpl. split; [|apply evolves_refl; intros x; left; reflexivity].
    apply evolves_same, Forall2_map_r. intros t.
    destruct (Sqlite.where_id id (Sqlite.Theme.id t)); [right | left];
      reflexivity.
  - destruct (sqlite_read_effect id io db) as [[_ ->] | [_ ->]];
      [apply Hsame; reflexivity|].
    simpl. split; [apply evolves_refl; intros x; left; reflexivity|].
    apply evolves_same, Forall2_map_r. intros m.
    destruct (Sqlite.where_id id (Sqlite.Message.id m)); [right | left];
      reflexivity.
  - destruct (sqlite_message_post_effect req body now io db)
      as [[_ ->] | [_ (row & -> & _)]]; [apply Hsame; reflexivity|].
    simpl. split; [apply evolves_refl | apply evolves_snoc];
      intros x; left; reflexivity.
Qed.

Lemma mongo_route_evolves {mapper : Mongo.Mapper} (c : Mongo.Call)
    (db : Mongo.Db) :
  evolves mongo_theme_ages (Mongo.themes db)
    (Mongo.themes (snd (Mongo.route c db)))
  /\ evolves mongo_message_ages (Mongo.messages db)
       (Mongo.messages (snd (Mongo.route c db))).
Proof.
  assert (Hsame : forall db', Mongo.themes db' = Mongo.themes db ->
            Mongo.messages db' = Mongo.messages db ->
            evolves mongo_theme_ages (Mongo.themes db) (Mongo.themes db')
            /\ evolves mongo_message_ages (Mongo.messages db)
                 (Mongo.messages db')).
  { intros db' -> ->. split; apply evolves_refl; intros x; left; reflexivity. }
  destruct (mongo_reads_keep db) as (R1 & R2 & R3 & R4 & R5 & R6).
  destruct c; simpl;
    try (rewrite ?R1, ?R2, ?R3, ?R4, ?R5, ?R6; apply Hsame; reflexivity).
  - destruct (mongo_generate_url_effect req uuid fresh now io_delete
                io_create db) as [-> | [-> | ->]]; apply Hsame; reflexivity.
  - destruct (mongo_theme_post_effect body fresh now io db)
      as [[_ ->] | [_ (theme & -> & _)]]; [apply Hsame; reflexivity|].
    simpl. split; [apply evolves_snoc | apply evolves_refl];
      intros x; left; reflexivity.
  - destruct (mongo_delete_effect id io db)
      as [[_ ->] | [_ (oid & _ & ->)]]; [apply Hsame; reflexivity|].
    simpl. split; [|apply evolves_refl; intros x; left; reflexivity].
    apply evolves_same, findByIdAndUpdate_ages.
  - destruct (mongo_read_effect id io db)
      as [[_ ->] | [_ (oid & _ & ->)]]; [apply Hsame; reflexivity|].
    simpl. split; [apply evolves_refl; intros x; left; reflexivity|].
    apply evolves_same, findByIdAndUpdate_ages.
  - destruct (mongo_message_post_effect req body fresh now io db)
      as [[_ ->] | [_ (m & -> & _)]]; [apply Hsame; reflexivity|].
    simpl. split; [apply evolves_refl | apply evolves_snoc];
      intros x; left; reflexivity.
Qed.

(** X5.  No sequence of calls to either service removes a theme or a
    message or changes one other than by deactivating the theme or marking
    the message read: the table after the calls is the rows it had, in
    their order, each as it was or with that flag set for good, followed by
    the rows added since. *)
Theorem rows_only_age {engine : Sqlite.Engine} {mapper : Mongo.Mapper} :
  (forall calls db,
     evolves sqlite_theme_ages (Sqlite.themes db)
       (Sqlite.themes (Sqlite.run calls db))
     /\ evolves sqlite_message_ages (Sqlite.messages db)
          (Sqlite.messages (Sqlite.run calls db)))
  /\ (forall calls db,
        evolves mongo_theme_ages (Mongo.themes db)
          (Mongo.themes (Mongo.run calls db))
        /\ evolves mongo_message_ages (Mongo.messages db)
             (Mongo.messages (Mongo.run calls db))).
Proof.
  split.
  - unfold Sqlite.run. induction calls as [|c calls IH]; intros db; simpl.
    + split; apply evolves_refl; intros x; left; reflexivity.
    + destruct (sqlite_route_evolves c db) as [Ht Hm].
      destruct (IH (snd (Sqlite.route c db))) as [Ht' Hm'].
      split.
      * eapply evolves_trans; [|exact Ht|exact Ht'].
        apply (ages_trans Sqlite.deactivate). reflexivity.
      * eapply evolves_trans; [|exact Hm|exact Hm'].
        apply (ages_trans Sqlite.mark_read). reflexivity.
  - unfold Mongo.run. induction calls as [|c calls IH]; intros db; simpl.
    + split; apply evolves_refl; intros x; left; reflexivity.
    + destruct (mongo_route_evolves c db) as [Ht Hm].
      destruct (IH (snd (Mongo.route c db))) as [Ht' Hm'].
      split.
      * eapply evolves_trans; [|exact Ht|exact Ht'].
        apply (ages_trans Mongo.deactivate). reflexivity.
      * eapply evolves_trans; [|exact Hm|exact Hm'].
        apply (ages_trans Mongo.mark_read). reflexivity.
Qed.

(** X6.  In both services a call that is not answered 200 leaves the store
    as it was, with one exception: a generate-url whose delete completed
    and whose insert did not leaves the token table empty. *)
Theorem refused_calls_change_nothing {engine : Sqlite.Engine}
    {mapper : Mongo.Mapper} :
  (forall c db,
     fst (Sqlite.route c db) <> 200 ->
     snd (Sqlite.route c db) = db
     \/ (exists req uuid now io,
           c = Sqlite.GenerateUrl req uuid now Done io
           /\ snd (Sqlite.route c db) = Sqlite.with_access_token db []))
  /\ (forall c db,
        fst (Mongo.route c db) <> 200 ->
        snd (Mongo.route c db) = db
        \/ (exists req uuid fresh now io,
              c = Mongo.GenerateUrl req uuid fresh now Done io
              /\ snd (Mongo.route c db) = Mongo.with_accesstokens db [])).
Proof.
  split; intros c db.
  - destruct (sqlite_reads_keep db) as (R1 & R2 & R3 & R4 & R5 & R6).
    destruct c; simpl; intros Hst;
      try (left; rewrite ?R1, ?R2, ?R3, ?R4, ?R5, ?R6; reflexivity).
    + destruct io_delete; [|left; reflexivity].
      destruct io_insert; [exfalso; apply Hst; reflexivity|].
      right. exists req, uuid, now, Failed. split; reflexivity.
    + destruct (sqlite_theme_post_effect body now io db)
        as [[_ ->] | [H _]]; [left; reflexivity | contradiction].
    + destruct (sqlite_delete_effect id io db)
        as [[_ ->] | [H _]]; [left; reflexivity | contradiction].
    + destruct (sqlite_read_effect id io db)
        as [[_ ->] | [H _]]; [left; reflexivity | contradiction].
    + destruct (sqlite_message_post_effect req body now io db)
        as [[_ ->] | [H _]]; [left; reflexivity | contradiction].
  - destruct (mongo_reads_keep db) as (R1 & R2 & R3 & R4 & R5 & R6).
    destruct c; simpl; intros Hst;
      try (left; rewrite ?R1, ?R2, ?R3, ?R4, ?R5, ?R6; reflexivity).
    + revert Hst. unfold Mongo.generate_url.
      destruct io_delete; [|left; reflexivity].
      simpl Mongo.accesstokens.
      destruct io_create,
        (Mongo.create_token fresh now uuid true []) as [docs|];
        simpl; intros Hst; try (exfalso; apply Hst; reflexivity);
        right; eexists req, uuid, fresh, now, _; split; reflexivity.
    + destruct (mongo_theme_post_effect body fresh now io db)
        as [[_ ->] | [H _]]; [left; reflexivity | contradiction].
    + destruct (mongo_delete_effect id io db)
        as [[_ ->] | [H _]]; [left; reflexivity | contradiction].
    + destruct (mongo_read_effect id io db)
        as [[_ ->] | [H _]]; [left; reflexivity | contradiction].
    + destruct (mongo_message_post_effect req body fresh now io db)
        as [[_ ->] | [H _]]; [left; reflexivity | contradiction].
Qed.

(** *** The message listings *)

Lemma filter_none {A : Type} (p : A -> bool) (l : list A) :
  (forall y, In y l -> p y = false) -> filter p l = [].
Proof.
  induction l as [|x l IH]; simpl; intros H; [reflexivity|].
  rewrite (H x (or_introl eq_refl)). apply IH. auto.
Qed.

Lemma filter_unique {A K : Type} (key : A -> K) (p : A -> bool) (l : list A)
    (t : A) :
  NoDup (map key l) -> In t l -> p t = true ->
  (forall x, In x l -> p x = true -> key x = key t) ->
  filter p l = [t].
Proof.
  induction l as [|x l IH]; simpl; intros Hnd Hin Hpt Hkey; [contradiction|].
  inversion Hnd as [|k ks Hx Hl]; subst.
  destruct Hin as [-> | Hin].
  - rewrite Hpt. f_equal. apply filter_none.
    intros y Hy. destruct (p y) eqn:Epy; [|reflexivity].
    exfalso. apply Hx. rewrite <- (Hkey y (or_intror Hy) Epy).
    apply in_map. exact Hy.
  - destruct (p x) eqn:Epx.
    + exfalso. apply Hx. rewrite (Hkey x (or_introl eq_refl) Epx).
      apply in_map. exact Hin.
    + apply IH; auto.
Qed.

Lemma sql_eq_int (v : Sqlite.SqlVal) (n : Z) :
  Sqlite.sql_eq v (Sqlite.SInt n) = true <-> v = Sqlite.SInt n.
Proof.
  unfold Sqlite.sql_eq. destruct v as [|x|s]; simpl.
  - split; discriminate.
  - destruct (Z.compare_spec x n) as [Hc|Hc|Hc]; split; intros H;
      try discriminate; try reflexivity; try congruence.
    + injection H as ->. lia.
    + injection H as ->. lia.
  - split; discriminate.
Qed.

(** With theme identifiers that are all different, the join gives one row
    for a message. *)
Lemma left_join_one (themes : list Sqlite.Theme.t) (m : Sqlite.Message.t) :
  NoDup (map Sqlite.Theme.id themes) ->
  exists title,
    Sqlite.left_join_themes themes m = [Sqlite.MessageRow.mk m title]
    /\ (forall t, In t themes ->
          Sqlite.Message.theme_id m = Sqlite.SInt (Sqlite.Theme.id t) ->
          title = Sqlite.Theme.title t)
    /\ ((forall t, In t themes ->
           Sqlite.Message.theme_id m <> Sqlite.SInt (Sqlite.Theme.id t)) ->
        title = Sqlite.SNull).
Proof.
  intros Hnd. unfold Sqlite.left_join_themes.
  set (p := fun t => Sqlite.sql_eq (Sqlite.Message.theme_id m)
                       (Sqlite.SInt (Sqlite.Theme.id t))).
  destruct (filter p themes) as [|t0 rest] eqn:E.
  - exists Sqlite.SNull. split; [reflexivity|]. split; [|reflexivity].
    intros t Hin Hid. exfalso.
    assert (Ht : In t (filter p themes)).
    { apply filter_In. split; [exact Hin|]. apply sql_eq_int. exact Hid. }
    rewrite E in Ht. exact Ht.
  - assert (Ht0 : In t0 themes /\ p t0 = true).
    { apply filter_In. rewrite E. left. reflexivity. }
    destruct Ht0 as [Hin0 Hp0].
    assert (Hone : filter p themes = [t0]).
    { apply (filter_unique Sqlite.Theme.id); auto.
      intros x _ Hpx. apply sql_eq_int in Hpx, Hp0. congruence. }
    rewrite Hone in E. injection E as <-.
    exists (Sqlite.Theme.title t0). split; [reflexivity|]. split.
    + intros t Hin Hid.
      assert (Ht : In t (filter p themes)).
      { apply filter_In. split; [exact Hin|]. apply sql_eq_int. exact Hid. }
      rewrite Hone in Ht. destruct Ht as [<- | []]. reflexivity.
    + intros Hno. exfalso. apply (Hno t0 Hin0). apply sql_eq_int. exact Hp0.
Qed.

(** X7.  In the first service, on a store whose theme identifiers are all
    different, GET /api/staff/messages lists every stored message exactly
    once, newest first, read or not, each with the title of the theme its
    theme_id is the identifier of, active or not, and with a null title
    when its theme_id is the identifier of no stored theme. *)
Theorem sqlite_staff_messages_listing (db : Sqlite.Db) :
  NoDup (map Sqlite.Theme.id (Sqlite.themes db)) ->
  exists rows,
    fst (Sqlite.staff_messages_get Done db) = ok rows
    /\ Permutation (map Sqlite.MessageRow.message rows) (Sqlite.messages db)
    /\ StronglySorted
         (newer_first (fun r => Sqlite.Message.created_at
                                  (Sqlite.MessageRow.message r))) rows
    /\ forall row, In row rows ->
         let m := Sqlite.MessageRow.message row in
         (forall t, In t (Sqlite.themes db) ->
            Sqlite.Message.theme_id m = Sqlite.SInt (Sqlite.Theme.id t) ->
            Sqlite.MessageRow.theme_title row = Sqlite.Theme.title t)
         /\ ((forall t, In t (Sqlite.themes db) ->
                Sqlite.Message.theme_id m
                <> Sqlite.SInt (Sqlite.Theme.id t)) ->
             Sqlite.MessageRow.theme_title row = Sqlite.SNull).
Proof.
  intros Hnd. eexists. split; [reflexivity|].
  split; [|split; [apply order_desc_sorted|]].
  - rewrite order_desc_perm.
    induction (Sqlite.messages db) as [|m ms IH]; simpl; [constructor|].
    destruct (left_join_one (Sqlite.themes db) m Hnd) as (title & -> & _).
    simpl. constructor. exact IH.
  - intros row Hrow m. subst m. apply order_desc_in in Hrow.
    apply in_flat_map in Hrow. destruct Hrow as (m & _ & Hrow).
    destruct (left_join_one (Sqlite.themes db) m Hnd)
      as (title & Hjoin & Hyes & Hno).
    rewrite Hjoin in Hrow. destruct Hrow as [<- | []]. simpl.
    split; assumption.
Qed.

Lemma find_unique {A K : Type} (key : A -> K) (p : A -> bool) (l : list A)
    (t : A) :
  NoDup (map key l) -> In t l -> p t = true ->
  (forall x, In x l -> p x = true -> key x = key t) ->
  find p l = Some t.
Proof.
  intros Hnd Hin Hpt Hkey.
  pose proof (filter_unique key p l t Hnd Hin Hpt Hkey) as Hf.
  clear - Hf. induction l as [|x l IH]; simpl in *; [discriminate|].
  destruct (p x); [congruence | auto].
Qed.

(** X8.  In the second service GET /api/staff/messages lists every stored
    message exactly once, newest first, under its own identifier; on a
    store whose theme identifiers are all different a message carries the
    title and identifier of the theme it refers to, active or not, and a
    message that refers to no theme, or to one that is not stored, is
    listed with a null title and a null theme_id. *)
Theorem mongo_staff_messages_listing (db : Mongo.Db) :
  NoDup (map Mongo.Theme._id (Mongo.themes db)) ->
  exists messages,
    fst (Mongo.staff_messages_get Done db)
    = ok (map (Mongo.format_message (Mongo.themes db)) messages)
    /\ Permutation messages (Mongo.messages db)
    /\ StronglySorted (newer_first Mongo.Message.created_at) messages
    /\ forall m,
         let v := Mongo.format_message (Mongo.themes db) m in
         let listed := Mongo.Message.theme_id (Mongo.MessageView.doc v) in
         Mongo.MessageView.id v = Mongo.Message._id m
         /\ (forall t, In t (Mongo.themes db) ->
               Mongo.Message.theme_id m = Some (Mongo.Theme._id t) ->
               Mongo.MessageView.theme_title v = Some (Mongo.Theme.title t)
               /\ listed = Some (Mongo.Theme._id t))
         /\ ((forall t, In t (Mongo.themes db) ->
                Mongo.Message.theme_id m <> Some (Mongo.Theme._id t)) ->
             Mongo.MessageView.theme_title v = None /\ listed = None).
Proof.
  intros Hnd. eexists. split; [reflexivity|].
  split; [apply order_desc_perm|]. split; [apply order_desc_sorted|].
  intros m v listed. subst v listed. split; [reflexivity|].
  unfold Mongo.format_message, Mongo.populate. simpl. split.
  - intros t Hin Hid. rewrite Hid.
    rewrite (find_unique Mongo.Theme._id _ _ t Hnd Hin).
    + split; reflexivity.
    + apply N.eqb_refl.
    + intros x _ Hx. apply N.eqb_eq. exact Hx.
  - intros Hno. destruct (Mongo.Message.theme_id m) as [oid|];
      [|split; reflexivity].
    destruct (find _ _) as [t|] eqn:E; [|split; reflexivity].
    exfalso. apply find_some in E. destruct E as [Hin Hid].
    apply N.eqb_eq in Hid. apply (Hno t Hin). congruence.
Qed.

Lemma order_desc_map {A B : Type} (key : A -> Date.t) (key' : B -> Date.t)
    (f : A -> B) (l : list A) :
  (forall x, key' (f x) = key x) ->
  order_desc key' (map f l) = map f (order_desc key l).
Proof.
  intros Hkey.
  assert (Hins : forall x s, insert_desc key' (f x) (map f s)
                             = map f (insert_desc key x s)).
  { intros x s. induction s as [|y s IH]; simpl; [reflexivity|].
    rewrite !Hkey. destruct (Date.leb (key y) (key x)); simpl;
      [reflexivity | rewrite IH; reflexivity]. }
  induction l as [|x l IH]; simpl; [reflexivity|].
  rewrite IH. apply Hins.
Qed.

(** X9.  In both services GET /api/teacher/logs is the staff listing of
    the messages with fewer fields: the same messages in the same order
    with the same theme titles, whatever their share flags and read flags,
    each reduced to id, sender_name, radio_name, school_class, content,
    ip_address, created_at and theme_title. *)
Theorem teacher_logs_project_staff_listing :
  (forall db,
     exists rows,
       fst (Sqlite.staff_messages_get Done db) = ok rows
       /\ fst (Sqlite.teacher_logs Done db)
          = ok (map Sqlite.select_log rows))
  /\ (forall db,
        exists views,
          fst (Mongo.staff_messages_get Done db) = ok views
          /\ fst (Mongo.teacher_logs Done db)
             = ok (map mongo_select_log views)).
Proof.
  split; intros db; eexists; (split; [reflexivity|]); simpl; f_equal.
  - apply order_desc_map. reflexivity.
  - rewrite map_map. reflexivity.
Qed.

Lemma left_join_same_titles (f : Sqlite.Theme.t -> Sqlite.Theme.t)
    (themes : list Sqlite.Theme.t) (m : Sqlite.Message.t) :
  (forall t, Sqlite.Theme.id (f t) = Sqlite.Theme.id t) ->
  (forall t, Sqlite.Theme.title (f t) = Sqlite.Theme.title t) ->
  Sqlite.left_join_themes (map f themes) m = Sqlite.left_join_themes themes m.
Proof.
  intros Hid Htitle. unfold Sqlite.left_join_themes.
  set (p := fun t => Sqlite.sql_eq (Sqlite.Message.theme_id m)
                       (Sqlite.SInt (Sqlite.Theme.id t))).
  assert (Hf : filter p (map f themes) = map f (filter p themes)).
  { induction themes as [|t themes IH]; simpl; [reflexivity|].
    unfold p at 1. rewrite Hid. fold (p t).
    destruct (p t); simpl; rewrite IH; reflexivity. }
  rewrite Hf. destruct (filter p themes) as [|t0 rest]; simpl; [reflexivity|].
  rewrite Htitle. f_equal. rewrite map_map. apply map_ext.
  intros t. rewrite Htitle. reflexivity.
Qed.

Lemma populate_ages (l l' : list Mongo.Theme.t) (m : Mongo.Message.t) :
  Forall2 mongo_theme_ages l l' -> Mongo.populate l' m = Mongo.populate l m.
Proof.
  intros H. unfold Mongo.populate.
  destruct (Mongo.Message.theme_id m) as [oid|]; [|reflexivity].
  induction H as [|old new l l' Hage _ IH]; simpl; [reflexivity|].
  destruct Hage as [-> | ->]; simpl;
    destruct (N.eqb _ oid); simpl; auto.
Qed.

(** X10.  In both services deactivating a theme changes neither the staff
    listing of the messages nor the teacher log: the messages of a
    deactivated theme keep showing its title. *)
Theorem deactivation_keeps_message_listings {engine : Sqlite.Engine}
    {mapper : Mongo.Mapper} (id : string) (io : Outcome) :
  (forall db,
     let db' := snd (Sqlite.staff_themes_delete id io db) in
     fst (Sqlite.staff_messages_get Done db')
     = fst (Sqlite.staff_messages_get Done db)
     /\ fst (Sqlite.teacher_logs Done db')
        = fst (Sqlite.teacher_logs Done db))
  /\ (forall db,
        let db' := snd (Mongo.staff_themes_delete id io db) in
        fst (Mongo.staff_messages_get Done db')
        = fst (Mongo.staff_messages_get Done db)
        /\ fst (Mongo.teacher_logs Done db')
           = fst (Mongo.teacher_logs Done db)).
Proof.
  split; intros db db'; subst db'.
  - destruct (sqlite_delete_effect id io db) as [[_ ->] | [_ ->]];
      [split; reflexivity|].
    simpl.
    assert (Hjoin : flat_map
              (Sqlite.left_join_themes
                 (map (fun t => if Sqlite.where_id id (Sqlite.Theme.id t)
                                then Sqlite.deactivate t else t)
                      (Sqlite.themes db))) (Sqlite.messages db)
            = flat_map (Sqlite.left_join_themes (Sqlite.themes db))
                (Sqlite.messages db)).
    { apply flat_map_ext. intros m. apply left_join_same_titles;
        intros t; destruct (Sqlite.where_id id (Sqlite.Theme.id t));
        reflexivity. }
    rewrite Hjoin. split; reflexivity.
  - destruct (mongo_delete_effect id io db)
      as [[_ ->] | [_ (oid & _ & ->)]]; [split; reflexivity|].
    simpl.
    pose proof (findByIdAndUpdate_ages Mongo.Theme._id oid Mongo.deactivate
                  (Mongo.themes db)) as Hages.
    split; f_equal; apply map_ext; intros m;
      unfold Mongo.format_message, Mongo.format_log;
      rewrite (populate_ages _ _ m Hages); reflexivity.
Qed.

(** X11.  In both services every theme the student listing shows is one
    the staff listing shows. *)
Theorem student_themes_among_staff_themes {engine : Sqlite.Engine}
    (now : Date.t) :
  (forall db t,
     listed (fst (Sqlite.student_themes_get now Done db)) t ->
     listed (fst (Sqlite.staff_themes_get Done db)) t)
  /\ (forall db v,
        listed (fst (Mongo.student_themes_get now Done db)) v ->
        listed (fst (Mongo.staff_themes_get Done db)) v).
Proof.
  split.
  - intros db t (l & Hl & Hin). unfold Sqlite.student_themes_get in Hl.
    cbn [fst payload ok] in Hl.
    set (today := hd "" (str_split "T" (Date.toISOString now))) in Hl.
    clearbody today. injection Hl as <-.
    eexists. split; [reflexivity|].
    apply order_desc_in in Hin. apply order_desc_in.
    apply filter_In in Hin. apply filter_In.
    destruct Hin as [Hin Hopen]. split; [exact Hin|].
    unfold Sqlite.open_on in Hopen.
    apply andb_true_iff in Hopen. destruct Hopen as [Hopen _].
    apply andb_true_iff in Hopen. destruct Hopen as [Hopen _]. exact Hopen.
  - intros db v (l & Hl & Hin). simpl in Hl. injection Hl as <-.
    eexists. split; [reflexivity|].
    unfold Mongo.toClient in *. apply in_map_iff in Hin.
    destruct Hin as (t & <- & Hin).
    apply (in_map (fun doc => (doc, Mongo.Theme._id doc))).
    apply order_desc_in in Hin. apply order_desc_in.
    apply filter_In in Hin. apply filter_In.
    destruct Hin as [Hin Hopen]. split; [exact Hin|].
    unfold Mongo.open_at in Hopen.
    apply andb_true_iff in Hopen. destruct Hopen as [Hopen _].
    apply andb_true_iff in Hopen. destruct Hopen as [Hopen _]. exact Hopen.
Qed.

(** X12.  In both services deactivating a theme a second time is answered
    as the first time and changes nothing more. *)
Theorem deactivation_repeats {engine : Sqlite.Engine}
    {mapper : Mongo.Mapper} (id : string) :
  (forall db,
     let first := Sqlite.staff_themes_delete id Done db in
     Sqlite.staff_themes_delete id Done (snd first) = (fst first, snd first))
  /\ (forall db,
        let first := Mongo.staff_themes_delete id Done db in
        Mongo.staff_themes_delete id Done (snd first)
        = (fst first, snd first)).
Proof.
  split; intros db first; subst first.
  - unfold Sqlite.staff_themes_delete. simpl.
    rewrite (map_update_twice Sqlite.Theme.id Sqlite.deactivate id
               (Sqlite.themes db) (fun r => eq_refl) (fun r => eq_refl)).
    reflexivity.
  - unfold Mongo.staff_themes_delete, Mongo.isValid.
    destruct (Mongo.objectId_of (JStr id)) as [oid|]; simpl;
      [|reflexivity].
    destruct (findByIdAndUpdate_cases Mongo.Theme._id oid (Mongo.themes db))
      as [Hno | [l1 [d [l2 [Hsplit [Hd Hl1]]]]]].
    + rewrite (findByIdAndUpdate_missing _ _ _ _ Hno). simpl.
      rewrite (findByIdAndUpdate_missing _ _ _ _ Hno). reflexivity.
    + rewrite Hsplit, (findByIdAndUpdate_found _ _ _ _ _ _ Hl1 Hd). simpl.
      rewrite (findByIdAndUpdate_found Mongo.Theme._id oid Mongo.deactivate
                 l1 (Mongo.deactivate d) l2 Hl1 Hd).
      reflexivity.
Qed.

(** *** Deactivation and the theme listings *)

Lemma listed_ok {B : Type} (l : list B) (x : B) : listed (ok l) x <-> In x l.
Proof.
  split.
  - intros (l' & Hl & Hin). injection Hl as <-. exact Hin.
  - intros Hin. exists l. split; [reflexivity | exact Hin].
Qed.

Lemma sqlite_filter_after_deactivation {engine : Sqlite.Engine} (id : string)
    (pred : Sqlite.Theme.t -> bool) (themes : list Sqlite.Theme.t)
    (t : Sqlite.Theme.t) :
  (forall x, pred x = true -> Sqlite.Theme.is_active x = 1) ->
  In t (filter pred
          (map (fun x => if Sqlite.where_id id (Sqlite.Theme.id x)
                         then Sqlite.deactivate x else x) themes))
  <-> In t (filter pred themes)
      /\ Sqlite.numeric_of_text id <> Some (Sqlite.Theme.id t).
Proof.
  intros Hpred. rewrite !filter_In, in_map_iff. split.
  - intros [(x & Hx & Hin) Hp].
    destruct (Sqlite.where_id id (Sqlite.Theme.id x)) eqn:E.
    + subst t. apply Hpred in Hp. discriminate Hp.
    + subst t. repeat split; auto.
      intros H. apply where_id_iff in H. congruence.
  - intros [[Hin Hp] Hne]. split; [|exact Hp]. exists t.
    split; [|exact Hin].
    destruct (Sqlite.where_id id (Sqlite.Theme.id t)) eqn:E; [|reflexivity].
    apply where_id_iff in E. contradiction.
Qed.

Lemma mongo_filter_after_deactivation (oid : Mongo.ObjectId)
    (pred : Mongo.Theme.t -> bool) (themes : list Mongo.Theme.t)
    (t : Mongo.Theme.t) :
  (forall x, pred x = true -> Mongo.Theme.is_active x = true) ->
  NoDup (map Mongo.Theme._id themes) ->
  In t (filter pred
          (snd (Mongo.findByIdAndUpdate Mongo.Theme._id oid Mongo.deactivate
                  themes)))
  <-> In t (filter pred themes) /\ Mongo.Theme._id t <> oid.
Proof.
  intros Hpred Hnd. rewrite !filter_In.
  destruct (findByIdAndUpdate_cases Mongo.Theme._id oid themes)
    as [Hno | [l1 [d [l2 [-> [Hd Hl1]]]]]].
  - rewrite (findByIdAndUpdate_missing _ _ _ _ Hno). simpl.
    split; [intros [Hin Hp]; auto | tauto].
  - rewrite (findByIdAndUpdate_found _ _ _ _ _ _ Hl1 Hd). simpl.
    rewrite map_app in Hnd. simpl in Hnd. apply NoDup_remove_2 in Hnd.
    rewrite Hd in Hnd.
    assert (Hothers : forall x, In x l1 \/ In x l2 -> Mongo.Theme._id x <> oid).
    { intros x Hx Hid. apply Hnd. rewrite <- Hid, in_app_iff.
      destruct Hx; [left | right]; apply in_map; assumption. }
    rewrite !in_app_iff. simpl. split.
    + intros [[Hin | [<- | Hin]] Hp].
      * repeat split; auto.
      * apply Hpred in Hp. discriminate Hp.
      * repeat split; auto.
    + intros [[[Hin | [<- | Hin]] Hp] Hne]; auto. contradiction.
Qed.

(** X13.  In both services a completed deactivation takes the theme of
    that identifier, and no other, out of the staff listing and out of the
    student listing (in the second service for an ObjectId, on a store
    whose theme identifiers are all different). *)
Theorem deactivated_theme_leaves_listings {engine : Sqlite.Engine}
    {mapper : Mongo.Mapper} (id : string) (now : Date.t) :
  (forall db t,
     let db' := snd (Sqlite.staff_themes_delete id Done db) in
     let other := Sqlite.numeric_of_text id <> Some (Sqlite.Theme.id t) in
     (listed (fst (Sqlite.staff_themes_get Done db')) t
      <-> listed (fst (Sqlite.staff_themes_get Done db)) t /\ other)
     /\ (listed (fst (Sqlite.student_themes_get now Done db')) t
         <-> listed (fst (Sqlite.student_themes_get now Done db)) t
             /\ other))
  /\ (forall db oid v,
        Mongo.objectId_of (JStr id) = Some oid ->
        NoDup (map Mongo.Theme._id (Mongo.themes db)) ->
        let db' := snd (Mongo.staff_themes_delete id Done db) in
        (listed (fst (Mongo.staff_themes_get Done db')) v
         <-> listed (fst (Mongo.staff_themes_get Done db)) v
             /\ snd v <> oid)
        /\ (listed (fst (Mongo.student_themes_get now Done db')) v
            <-> listed (fst (Mongo.student_themes_get now Done db)) v
                /\ snd v <> oid)).
Proof.
  split.
  - intros db t db' other. subst db' other.
    unfold Sqlite.staff_themes_delete, Sqlite.staff_themes_get,
      Sqlite.student_themes_get.
    cbn [fst snd Sqlite.themes Sqlite.with_themes].
    set (today := hd "" (str_split "T" (Date.toISOString now))).
    clearbody today. rewrite !listed_ok, !order_desc_in. split.
    + apply sqlite_filter_after_deactivation.
      intros x Hx. apply Z.eqb_eq. exact Hx.
    + apply sqlite_filter_after_deactivation.
      intros x Hx. unfold Sqlite.open_on in Hx.
      apply andb_true_iff in Hx. destruct Hx as [Hx _].
      apply andb_true_iff in Hx. destruct Hx as [Hx _].
      apply Z.eqb_eq. exact Hx.
  - intros db oid v Hoid Hnd db'. subst db'.
    assert (Hdb : Mongo.themes (snd (Mongo.staff_themes_delete id Done db))
                  = snd (Mongo.findByIdAndUpdate Mongo.Theme._id oid
                           Mongo.deactivate (Mongo.themes db))).
    { unfold Mongo.staff_themes_delete, Mongo.isValid. rewrite Hoid. simpl.
      destruct (Mongo.findByIdAndUpdate Mongo.Theme._id oid Mongo.deactivate
                  (Mongo.themes db)) as [[r|] docs]; reflexivity. }
    unfold Mongo.staff_themes_get, Mongo.student_themes_get, Mongo.toClient.
    cbn [fst]. rewrite !listed_ok, !in_map_iff. rewrite Hdb.
    split; split.
    + intros (t & <- & Hin). apply order_desc_in in Hin.
      apply mongo_filter_after_deactivation in Hin; auto.
      destruct Hin as [Hin Hne]. split; [|exact Hne].
      exists t. split; [reflexivity|]. apply order_desc_in. exact Hin.
    + intros [(t & <- & Hin) Hne]. exists t. split; [reflexivity|].
      apply order_desc_in. apply order_desc_in in Hin.
      apply mongo_filter_after_deactivation; auto.
    + intros (t & <- & Hin). apply order_desc_in in Hin.
      apply mongo_filter_after_deactivation in Hin; auto.
      * destruct Hin as [Hin Hne]. split; [|exact Hne].
        exists t. split; [reflexivity|]. apply order_desc_in. exact Hin.
      * intros x Hx. unfold Mongo.open_at in Hx.
        apply andb_true_iff in Hx. destruct Hx as [Hx _].
        apply andb_true_iff in Hx. destruct Hx as [Hx _]. exact Hx.
    + intros [(t & <- & Hin) Hne]. exists t. split; [reflexivity|].
      apply order_desc_in. apply order_desc_in in Hin.
      apply mongo_filter_after_deactivation; auto.
      intros x Hx. unfold Mongo.open_at in Hx.
      apply andb_true_iff in Hx. destruct Hx as [Hx _].
      apply andb_true_iff in Hx. destruct Hx as [Hx _]. exact Hx.
Qed.

(** *** From a created theme to the listed message *)

Lemma filter_snoc_fresh {A : Type} (p : A -> bool) (l : list A) (x : A) :
  (forall y, In y l -> p y = false) -> p x = true ->
  filter p (l ++ [x]) = [x].
Proof.
  intros Hl Hx. rewrite filter_app, (filter_none p l Hl). simpl.
  rewrite Hx. reflexivity.
Qed.

Lemma find_snoc_fresh {A : Type} (p : A -> bool) (l : list A) (x : A) :
  (forall y, In y l -> p y = false) -> p x = true ->
  find p (l ++ [x]) = Some x.
Proof.
  intros Hl Hx. induction l as [|y l IH]; simpl.
  - rewrite Hx. reflexivity.
  - rewrite (Hl y (or_introl eq_refl)). apply IH.
    intros z Hz. apply Hl. right. exact Hz.
Qed.

(** X14.  In the first service, when a theme is created and a message is
    then submitted whose theme_id is the identifier the creation answered
    with, sent as a number of 32 bits or as a text the engine reads as that
    number, the staff listing of the messages has that message under the
    identifier the submission answered with, with the title the row of the
    theme is stored with (for a title sent as a string, that string), and
    the teacher log has the same row reduced. *)
Theorem sqlite_theme_then_message_listed {engine : Sqlite.Engine}
    (form : ThemeForm.t) (req : Request) (body : MessageForm.t)
    (now1 now2 : Date.t) (db : Sqlite.Db) :
  let out1 := Sqlite.staff_themes_post form now1 Done db in
  let out2 := Sqlite.student_messages_post req body now2 Done (snd out1) in
  forall created submitted,
    fst out1 = ok created ->
    (MessageForm.theme_id body = JNum (Sqlite.body_id created)
     /\ int32 (Sqlite.body_id created) = true)
    \/ (exists s,
          MessageForm.theme_id body = JStr s
          /\ Sqlite.numeric_of_text s = Some (Sqlite.body_id created)) ->
    fst out2 = ok submitted ->
    exists row theme,
      listed (fst (Sqlite.staff_messages_get Done (snd out2))) row
      /\ Sqlite.Message.id (Sqlite.MessageRow.message row)
         = submitted_id submitted
      /\ In theme (Sqlite.themes (snd out2))
      /\ Sqlite.Theme.id theme = Sqlite.body_id created
      /\ Sqlite.MessageRow.theme_title row = Sqlite.Theme.title theme
      /\ (forall s, ThemeForm.title form = JStr s ->
          Sqlite.MessageRow.theme_title row = Sqlite.SText s)
      /\ listed (fst (Sqlite.teacher_logs Done (snd out2)))
           (Sqlite.select_log row).
Proof.
  intros out1 out2 created submitted H1 Hsent H2. subst out2.
  destruct (sqlite_theme_post_effect form now1 Done db)
    as [[Hst _] | [_ (trow & Hdb1 & Htid & Hcreated & Htitle & _)]].
  { exfalso. apply Hst. fold out1. rewrite H1. reflexivity. }
  fold out1 in Hdb1, Hcreated. rewrite Hcreated in H1. injection H1 as <-.
  assert (Href : Sqlite.numeric_affinity
                   (Sqlite.bind (MessageForm.theme_id body))
                 = Sqlite.SInt (Sqlite.Theme.id trow)).
  { cbn [Sqlite.body_id] in Hsent.
    destruct Hsent as [[-> _] | (s & -> & Hs)]; [reflexivity|].
    unfold Sqlite.bind, Sqlite.numeric_affinity. rewrite Hs. reflexivity. }
  clear Hsent. rewrite Hdb1 in *. clear Hdb1 Hcreated out1.
  set (db1 := Sqlite.with_themes db (Sqlite.themes db ++ [trow])%list
                (Sqlite.Theme.id trow)) in *.
  destruct (sqlite_message_post_effect req body now2 Done db1)
    as [[Hst _] | [_ (mrow & Hdb2 & _ & Hsubmitted & Htheme & _)]].
  { exfalso. apply Hst. rewrite H2. reflexivity. }
  rewrite Hsubmitted in H2. injection H2 as <-. rewrite Hdb2.
  exists (Sqlite.MessageRow.mk mrow (Sqlite.Theme.title trow)), trow.
  assert (Hjoin : Sqlite.left_join_themes (Sqlite.themes db ++ [trow]) mrow
                  = [Sqlite.MessageRow.mk mrow (Sqlite.Theme.title trow)]).
  { unfold Sqlite.left_join_themes. rewrite filter_snoc_fresh; [reflexivity| |].
    - intros y Hy. destruct (Sqlite.sql_eq _ _) eqn:E; [|reflexivity].
      apply sql_eq_int in E. rewrite Htheme, Href in E. injection E as E.
      apply (in_map Sqlite.Theme.id) in Hy.
      apply (next_autoincrement_fresh (Sqlite.themes_seq db)) in Hy. lia.
    - apply sql_eq_int. rewrite Htheme, Href. reflexivity. }
  assert (Hin : In (Sqlite.MessageRow.mk mrow (Sqlite.Theme.title trow))
                  (flat_map
                     (Sqlite.left_join_themes (Sqlite.themes db ++ [trow]))
                     (Sqlite.messages db1 ++ [mrow]))).
  { apply in_flat_map. exists mrow. split.
    - apply in_or_app. right. left. reflexivity.
    - rewrite Hjoin. left. reflexivity. }
  split; [|split; [reflexivity | split; [|split; [reflexivity|
    split; [reflexivity | split]]]]].
  - apply listed_ok, order_desc_in. exact Hin.
  - cbn [Sqlite.themes Sqlite.with_messages db1 Sqlite.with_themes].
    apply in_or_app. right. left. reflexivity.
  - intros s Hs. cbn [Sqlite.MessageRow.theme_title]. rewrite Htitle, Hs.
    reflexivity.
  - apply listed_ok, order_desc_in.
    apply (in_map Sqlite.select_log). exact Hin.
Qed.

(** X15.  In the second service, when a theme is created and a message is
    then submitted whose theme_id denotes the identifier the creation
    answered with, the staff listing of the messages has that message under
    the identifier the submission answered with, with the title and
    identifier of the theme, and the teacher log has the same row
    reduced. *)
Theorem mongo_theme_then_message_listed {mapper : Mongo.Mapper}
    (form : ThemeForm.t) (req : Request) (body : MessageForm.t)
    (fresh1 fresh2 : Mongo.ObjectId) (now1 now2 : Date.t) (db : Mongo.Db) :
  let out1 := Mongo.staff_themes_post form fresh1 now1 Done db in
  let out2 := Mongo.student_messages_post req body fresh2 now2 Done
                (snd out1) in
  forall created submitted,
    fst out1 = ok created ->
    truthy (MessageForm.theme_id body) = true ->
    Mongo.objectId_of (MessageForm.theme_id body)
    = Some (Mongo.body_id created) ->
    fst out2 = ok submitted ->
    exists v,
      listed (fst (Mongo.staff_messages_get Done (snd out2))) v
      /\ Mongo.MessageView.id v = submitted_id submitted
      /\ Mongo.MessageView.theme_title v = Some (Mongo.body_title created)
      /\ Mongo.Message.theme_id (Mongo.MessageView.doc v)
         = Some (Mongo.body_id created)
      /\ listed (fst (Mongo.teacher_logs Done (snd out2)))
           (mongo_select_log v).
Proof.
  intros out1 out2 created submitted H1 Htruthy Href H2. subst out2.
  destruct (mongo_theme_post_effect form fresh1 now1 Done db)
    as [[Hst _] | [_ (theme & Hdb1 & Htid & Hfresh & Hcreated & _)]].
  { exfalso. apply Hst. fold out1. rewrite H1. reflexivity. }
  fold out1 in Hdb1, Hcreated. rewrite Hcreated in H1. injection H1 as <-.
  simpl in Href. rewrite Hdb1 in *. clear Hdb1 Hcreated out1.
  set (db1 := Mongo.with_themes db (Mongo.themes db ++ [theme])%list) in *.
  destruct (mongo_message_post_effect req body fresh2 now2 Done db1)
    as [[Hst _] | [_ (m & Hdb2 & Hmid & _ & Hsubmitted & Htheme & _)]].
  { exfalso. apply Hst. rewrite H2. reflexivity. }
  rewrite Hsubmitted in H2. injection H2 as <-. rewrite Hdb2.
  assert (Hm : Mongo.Message.theme_id m = Some fresh1).
  { rewrite Htruthy in Htheme. unfold Mongo.cast_ObjectId in Htheme.
    rewrite Href in Htheme.
    destruct (MessageForm.theme_id body); try discriminate Htruthy;
      simpl in Htheme; congruence. }
  assert (Hpop : Mongo.populate (Mongo.themes db ++ [theme]) m
                 = Some (fresh1, Mongo.Theme.title theme)).
  { unfold Mongo.populate. rewrite Hm, find_snoc_fresh.
    - simpl. rewrite Htid. reflexivity.
    - intros y Hy. apply N.eqb_neq. intros E. apply Hfresh.
      rewrite <- E. apply in_map. exact Hy.
    - apply N.eqb_eq. exact Htid. }
  exists (Mongo.format_message (Mongo.themes db ++ [theme]) m).
  assert (Hin : In m (order_desc Mongo.Message.created_at
                        (Mongo.messages db1 ++ [m]))).
  { apply order_desc_in, in_or_app. right. left. reflexivity. }
  split; [|split; [exact Hmid | split; [|split]]].
  - apply listed_ok. simpl. apply in_map. exact Hin.
  - unfold Mongo.format_message. rewrite Hpop. reflexivity.
  - unfold Mongo.format_message. rewrite Hpop. reflexivity.
  - apply listed_ok. simpl.
    apply in_map_iff. exists m. split; [|exact Hin].
    unfold mongo_select_log, Mongo.format_message, Mongo.format_log.
    reflexivity.
Qed.

(** *** The student listing of the first service, by the day *)

(** X16.  In the first service, on an engine that reads no [YYYY-MM-DD]
    text as a number and a store whose themes have days or null in their
    date columns, GET /api/student/themes lists exactly the active themes
    whose window holds the day of the server's clock, bounds included and
    null unbounded, whatever the time of day. *)
Theorem sqlite_student_listing_by_day {engine : Sqlite.Engine}
    (now : Date.t) (db : Sqlite.Db)
    (first last : Sqlite.Theme.t -> option Date.t) :
  (forall d, Date.wf d -> Sqlite.numeric_of_text (Date.isoDate d) = None) ->
  Date.wf now ->
  (forall t, In t (Sqlite.themes db) ->
     holds_day (Sqlite.Theme.start_date t) (first t)
     /\ holds_day (Sqlite.Theme.end_date t) (last t)) ->
  forall t,
    listed (fst (Sqlite.student_themes_get now Done db)) t
    <-> In t (Sqlite.themes db)
        /\ Sqlite.Theme.is_active t = 1
        /\ (forall d, first t = Some d -> Date.day_leb d now = true)
        /\ (forall d, last t = Some d -> Date.day_leb now d = true).
Proof.
  intros Hnum Hnow Hdays t.
  unfold Sqlite.student_themes_get. cbn [fst].
  rewrite listed_ok, order_desc_in, filter_In.
  split.
  - intros [Hin Hopen]. destruct (Hdays t Hin) as [Hfirst Hlast].
    rewrite (sqlite_open_on_by_day now t _ _ Hnum Hnow Hfirst Hlast) in Hopen.
    apply andb_true_iff in Hopen. destruct Hopen as [Hopen Hl].
    apply andb_true_iff in Hopen. destruct Hopen as [Ha Hf].
    apply Z.eqb_eq in Ha. repeat split; auto.
    + intros d Hd. rewrite Hd in Hf. exact Hf.
    + intros d Hd. rewrite Hd in Hl. exact Hl.
  - intros (Hin & Ha & Hf & Hl). split; [exact Hin|].
    destruct (Hdays t Hin) as [Hfirst Hlast].
    rewrite (sqlite_open_on_by_day now t _ _ Hnum Hnow Hfirst Hlast).
    apply Z.eqb_eq in Ha. rewrite Ha. simpl.
    apply andb_true_iff. split.
    + destruct (first t) as [d|]; [apply Hf|]; reflexivity.
    + destruct (last t) as [d|]; [apply Hl|]; reflexivity.
Qed.

(** *** Marking read and the message listing *)

Lemma left_join_message (themes : list Sqlite.Theme.t) (m : Sqlite.Message.t)
    (row : Sqlite.MessageRow.t) :
  In row (Sqlite.left_join_themes themes m) ->
  Sqlite.MessageRow.message row = m.
Proof.
  unfold Sqlite.left_join_themes.
  destruct (filter _ themes) as [|t0 rest].
  - intros [<- | []]. reflexivity.
  - intros Hin. apply in_map_iff in Hin. destruct Hin as (t & <- & _).
    reflexivity.
Qed.

(** X17.  In both services, after a completed mark-read the staff listing
    shows every message of that identifier as read, and lists a message of
    another identifier exactly as before (in the second service for an
    ObjectId, on a store whose message identifiers are all different). *)
Theorem marked_message_listed_read {engine : Sqlite.Engine}
    {mapper : Mongo.Mapper} (id : string) :
  (forall db row,
     let after := fst (Sqlite.staff_messages_get Done
                         (snd (Sqlite.staff_messages_read id Done db))) in
     let before := fst (Sqlite.staff_messages_get Done db) in
     let m := Sqlite.MessageRow.message row in
     (listed after row ->
      Sqlite.numeric_of_text id = Some (Sqlite.Message.id m) ->
      Sqlite.Message.is_read m = 1)
     /\ (Sqlite.numeric_of_text id <> Some (Sqlite.Message.id m) ->
         (listed after row <-> listed before row)))
  /\ (forall db oid v,
        Mongo.objectId_of (JStr id) = Some oid ->
        NoDup (map Mongo.Message._id (Mongo.messages db)) ->
        let after := fst (Mongo.staff_messages_get Done
                            (snd (Mongo.staff_messages_read id Done db))) in
        let before := fst (Mongo.staff_messages_get Done db) in
        (listed after v -> Mongo.MessageView.id v = oid ->
         Mongo.Message.is_read (Mongo.MessageView.doc v) = true)
        /\ (Mongo.MessageView.id v <> oid ->
            (listed after v <-> listed before v))).
Proof.
  split.
  - intros db row after before m. subst after before m.
    unfold Sqlite.staff_messages_read, Sqlite.staff_messages_get.
    cbn [fst snd Sqlite.themes Sqlite.messages Sqlite.with_messages].
    rewrite !listed_ok, !order_desc_in, !in_flat_map.
    set (upd := fun m => if Sqlite.where_id id (Sqlite.Message.id m)
                         then Sqlite.mark_read m else m).
    split.
    + intros (m' & Hm' & Hrow) Hid.
      apply left_join_message in Hrow. rewrite Hrow in *.
      apply in_map_iff in Hm'. destruct Hm' as (m0 & <- & _).
      unfold upd in *. destruct (Sqlite.where_id id (Sqlite.Message.id m0))
        eqn:E; [reflexivity|].
      apply where_id_iff in Hid. congruence.
    + intros Hne. split.
      * intros (m' & Hm' & Hrow). pose proof (left_join_message _ _ _ Hrow) as E.
        apply in_map_iff in Hm'. destruct Hm' as (m0 & Hupd & Hin).
        exists m0. split; [exact Hin|].
        unfold upd in Hupd.
        destruct (Sqlite.where_id id (Sqlite.Message.id m0)) eqn:Ew.
        -- exfalso. apply Hne. apply where_id_iff in Ew.
           rewrite E, <- Hupd. exact Ew.
        -- rewrite Hupd. exact Hrow.
      * intros (m0 & Hin & Hrow). exists m0. split; [|exact Hrow].
        apply in_map_iff. exists m0. split; [|exact Hin].
        unfold upd. destruct (Sqlite.where_id id (Sqlite.Message.id m0))
          eqn:Ew; [|reflexivity].
        exfalso. apply Hne. apply where_id_iff in Ew.
        rewrite (left_join_message _ _ _ Hrow). exact Ew.
  - intros db oid v Hoid Hnd after before. subst after before.
    assert (Hdb : snd (Mongo.staff_messages_read id Done db)
                  = Mongo.with_messages db
                      (snd (Mongo.findByIdAndUpdate Mongo.Message._id oid
                              Mongo.mark_read (Mongo.messages db)))).
    { unfold Mongo.staff_messages_read, Mongo.isValid. rewrite Hoid. simpl.
      destruct (Mongo.findByIdAndUpdate Mongo.Message._id oid Mongo.mark_read
                  (Mongo.messages db)) as [r docs]; reflexivity. }
    rewrite Hdb. unfold Mongo.staff_messages_get.
    cbn [fst Mongo.themes Mongo.messages Mongo.with_messages].
    rewrite !listed_ok, !in_map_iff.
    destruct (findByIdAndUpdate_cases Mongo.Message._id oid
                (Mongo.messages db))
      as [Hno | [l1 [d [l2 [Hsplit [Hd Hl1]]]]]].
    + rewrite (findByIdAndUpdate_missing _ _ _ _ Hno). simpl. split.
      * intros (m & <- & Hin) Hid. apply order_desc_in in Hin.
        exfalso. exact (Hno m Hin Hid).
      * tauto.
    + rewrite Hsplit, (findByIdAndUpdate_found _ _ _ _ _ _ Hl1 Hd). simpl.
      rewrite Hsplit, map_app in Hnd. simpl in Hnd.
      apply NoDup_remove_2 in Hnd. rewrite Hd in Hnd.
      assert (Hothers : forall x, In x l1 \/ In x l2 ->
                                  Mongo.Message._id x <> oid).
      { intros x Hx Hid. apply Hnd. rewrite <- Hid, in_app_iff.
        destruct Hx; [left | right]; apply in_map; assumption. }
      split.
      * intros (m & <- & Hin) Hid. apply order_desc_in in Hin.
        apply in_app_iff in Hin. simpl in Hid.
        destruct Hin as [Hin | [<- | Hin]];
          [exfalso; apply (Hothers m); auto | reflexivity
          | exfalso; apply (Hothers m); auto].
      * intros Hne. split; intros (m & <- & Hin); exists m;
          (split; [reflexivity|]); apply order_desc_in;
          apply order_desc_in in Hin; rewrite in_app_iff in *;
          simpl in *; destruct Hin as [Hin | [<- | Hin]]; auto;
          exfalso; apply Hne; exact Hd.
Qed.

(** *** A created theme and the theme listings *)

(** X18.  In both services a theme whose creation is answered 200 is in
    the staff listing under the identifier of the answer, every theme
    listed before is still listed, and, when it was created with no
    start_date and no end_date, it is in the student listing whatever the
    clock says. *)
Theorem created_theme_is_listed {engine : Sqlite.Engine}
    {mapper : Mongo.Mapper} (form : ThemeForm.t) (now : Date.t) :
  (forall db created,
     let out := Sqlite.staff_themes_post form now Done db in
     fst out = ok created ->
     (exists t,
        Sqlite.Theme.id t = Sqlite.body_id created
        /\ listed (fst (Sqlite.staff_themes_get Done (snd out))) t
        /\ (truthy (ThemeForm.start_date form) = false ->
            truthy (ThemeForm.end_date form) = false ->
            forall clock,
              listed (fst (Sqlite.student_themes_get clock Done (snd out)))
                t))
     /\ (forall t, listed (fst (Sqlite.staff_themes_get Done db)) t ->
                   listed (fst (Sqlite.staff_themes_get Done (snd out))) t))
  /\ (forall db fresh created,
        let out := Mongo.staff_themes_post form fresh now Done db in
        fst out = ok created ->
        (exists t,
           Mongo.body_id created = fresh
           /\ listed (fst (Mongo.staff_themes_get Done (snd out))) (t, fresh)
           /\ (truthy (ThemeForm.start_date form) = false ->
               truthy (ThemeForm.end_date form) = false ->
               forall clock,
                 listed (fst (Mongo.student_themes_get clock Done (snd out)))
                   (t, fresh)))
        /\ (forall v, listed (fst (Mongo.staff_themes_get Done db)) v ->
                      listed (fst (Mongo.staff_themes_get Done (snd out)))
                        v)).
Proof.
  split.
  - intros db created out Hok.
    destruct (sqlite_theme_post_inv form now Done db) as (_ & _ & lastID & Hdb).
    { fold out. rewrite Hok. reflexivity. }
    fold out in Hdb.
    assert (Hid : Sqlite.body_id created = lastID).
    { destruct (sqlite_theme_post_effect form now Done db)
        as [[Hst _] | [_ (row & Hdb' & _ & Hcreated & _)]].
      - exfalso. apply Hst. fold out. rewrite Hok. reflexivity.
      - fold out in Hdb', Hcreated. rewrite Hcreated in Hok.
        injection Hok as <-. simpl. rewrite Hdb in Hdb'.
        apply (f_equal Sqlite.themes_seq) in Hdb'. simpl in Hdb'.
        symmetry. exact Hdb'. }
    rewrite Hdb. clearbody out.
    unfold Sqlite.staff_themes_get, Sqlite.student_themes_get.
    cbn [fst]. split.
    + match type of Hdb with
      | _ = Sqlite.with_themes _ (_ ++ [?r])%list _ => exists r
      end.
      split; [|split].
      * rewrite Hid. reflexivity.
      * apply listed_ok, order_desc_in, filter_In. simpl. split.
        -- apply in_or_app. right. left. reflexivity.
        -- reflexivity.
      * intros Hs He clock.
        set (today := hd "" (str_split "T" (Date.toISOString clock))).
        clearbody today.
        apply listed_ok, order_desc_in, filter_In.
        cbn [Sqlite.themes Sqlite.with_themes]. split.
        -- apply in_or_app. right. left. reflexivity.
        -- unfold Sqlite.open_on. cbn [Sqlite.Theme.is_active
             Sqlite.Theme.start_date Sqlite.Theme.end_date].
           rewrite (proj2 (sqlite_or_null_falsy _ Hs)),
             (proj2 (sqlite_or_null_falsy _ He)). reflexivity.
    + intros t Ht. apply listed_ok, order_desc_in, filter_In.
      apply listed_ok, order_desc_in, filter_In in Ht. simpl in *.
      destruct Ht as [Hin Hact]. split; [|exact Hact].
      apply in_or_app. left. exact Hin.
  - intros db fresh created out Hok.
    destruct (mongo_theme_post_inv form fresh now Done db)
      as (_ & _ & theme & Hdb & Hfresh & _ & _ & Hstart & Hend & _ & Hact).
    { fold out. rewrite Hok. reflexivity. }
    fold out in Hdb.
    assert (Hid : Mongo.body_id created = fresh).
    { destruct (mongo_theme_post_effect form fresh now Done db)
        as [[Hst _] | [_ (theme' & _ & _ & _ & Hcreated & _)]].
      - exfalso. apply Hst. fold out. rewrite Hok. reflexivity.
      - fold out in Hcreated. rewrite Hcreated in Hok.
        injection Hok as <-. reflexivity. }
    rewrite Hdb. clearbody out.
    unfold Mongo.staff_themes_get, Mongo.student_themes_get.
    cbn [fst]. split.
    + exists theme. split; [exact Hid|]. split.
      * apply listed_ok. simpl. unfold Mongo.toClient. apply in_map_iff.
        exists theme. split; [rewrite Hfresh; reflexivity|].
        apply order_desc_in, filter_In. split; [|exact Hact].
        apply in_or_app. right. left. reflexivity.
      * intros Hs He clock. apply listed_ok. simpl. unfold Mongo.toClient.
        apply in_map_iff.
        exists theme. split; [rewrite Hfresh; reflexivity|].
        apply order_desc_in, filter_In. split.
        -- apply in_or_app. right. left. reflexivity.
        -- unfold Mongo.open_at. rewrite Hact.
           rewrite (proj2 (mongo_or_null_falsy _ Hs)) in Hstart.
           rewrite (proj2 (mongo_or_null_falsy _ He)) in Hend.
           injection Hstart as <-. injection Hend as <-. reflexivity.
    + intros v Hv. apply listed_ok. apply listed_ok in Hv. simpl in *.
      unfold Mongo.toClient in *. apply in_map_iff in Hv.
      destruct Hv as (t & <- & Hin). apply in_map_iff.
      exists t. split; [reflexivity|].
      apply order_desc_in, filter_In. apply order_desc_in, filter_In in Hin.
      destruct Hin as [Hin Ht]. split; [|exact Ht].
      apply in_or_app. left. exact Hin.
Qed.

(** *** GET /api/student/themes on the last day of a theme *)

(** From here on the handlers run on the sample engine and mapper. *)
#[local] Existing Instances Sample.engine Sample.mapper.

(** C6, at the input where the second service departs from it.  A theme is
    created with end_date 2024-05-10 in each service and the student
    listing is asked for at noon of that day.  The day of the clock is
    within the window, the first service lists the theme, the staff listing
    of the second service has it, and the student listing of the second
    service is empty: it compares the stored midnight with the instant of
    the request. *)
Theorem mongo_student_listing_drops_last_day :
  let now := Sample.noon 2024 5 10 in
  (exists t,
     fst (Sqlite.student_themes_get now Done Sample.sqlite_db) = ok [t]
     /\ Sqlite.Theme.end_date t = Sqlite.SText "2024-05-10")
  /\ (exists t,
        fst (Mongo.staff_themes_get Done Sample.mongo_db)
        = ok [(t, Sample.festival_id)]
        /\ Mongo.Theme.start_date t = None
        /\ Mongo.Theme.end_date t = Some (Sample.midnight 2024 5 10)
        /\ Date.day_leb now (Sample.midnight 2024 5 10) = true)
  /\ fst (Mongo.student_themes_get now Done Sample.mongo_db) = ok [].
Proof.
  intros now. split; [|split].
  - eexists. split; reflexivity.
  - eexists. repeat split; reflexivity.
  - reflexivity.
Qed.

(** *** Where the first service has no check *)

(** Against C3: on empty stores DELETE /api/staff/themes/abc is answered
    200 by the first service and 400 by the second. *)
Lemma services_differ_on_malformed_id :
  status (fst (Sqlite.staff_themes_delete "abc" Done Sqlite.empty)) = 200
  /\ status (fst (Mongo.staff_themes_delete "abc" Done Mongo.empty)) = 400.
Proof. split; reflexivity. Qed.

(** Against C4: with one theme stored, of rowid 1, the first service
    answers success to DELETE /api/staff/themes/abc and to
    DELETE /api/staff/themes/7 and changes nothing; it answers neither 400
    nor 404. *)
Lemma sqlite_delete_unknown_theme_succeeds :
  map Sqlite.Theme.id (Sqlite.themes Sample.sqlite_db) = [1]
  /\ Sqlite.staff_themes_delete "abc" Done Sample.sqlite_db
     = (ok Success, Sample.sqlite_db)
  /\ Sqlite.staff_themes_delete "7" Done Sample.sqlite_db
     = (ok Success, Sample.sqlite_db).
Proof. repeat split; reflexivity. Qed.


(** Against C8: the first service answers success to
    PUT /api/staff/messages/abc/read and changes nothing; it does not
    answer 400. *)
Lemma sqlite_read_malformed_id_succeeds :
  Sqlite.staff_messages_read "abc" Done Sample.sqlite_db
  = (ok Success, Sample.sqlite_db).
Proof. reflexivity. Qed.

(** *** Where a value that is sent is stored as null, or as the empty text *)



(** *** The properties at the sample requests *)

Lemma generate_url_rotates_token_witness :
  let now := Sample.noon 2024 5 10 in
  Sqlite.access_token
    (snd (Sqlite.generate_url Sample.request "new-token" now Done Done
            Sample.sqlite_old_token))
  = [Sqlite.AccessToken.mk 1 "new-token" now 1]
  /\ Mongo.accesstokens
       (snd (Mongo.generate_url Sample.request "new-token" 4%N now Done Done
               Sample.mongo_old_token))
     = [Mongo.AccessToken.mk 4%N "new-token" now true].
Proof.
  intros now.
  destruct (generate_url_rotates_token Sample.request "new-token" now)
    as (Hs & _ & Hm & _).
  split.
  - exact (proj1 (proj2 (Hs Done Done Sample.sqlite_old_token eq_refl))).
  - exact (proj1 (proj2 (Hm 4%N Done Done Sample.mongo_old_token eq_refl))).
Defined.

Lemma verify_token_iff_active_row_witness :
  fst (Sqlite.verify_token "old-token" Done Sample.sqlite_old_token)
  = ok (mkVerifyBody true None)
  /\ fst (Mongo.verify_token "older-token" Done Sample.mongo_old_token)
     = unauthorized.
Proof.
  destruct (verify_token_iff_active_row "old-token") as (Hs & _).
  destruct (verify_token_iff_active_row "older-token") as (_ & Hm).
  split.
  - apply (proj1 (Hs Sample.sqlite_old_token)).
    eexists. split; [left; reflexivity | split; reflexivity].
  - apply (proj1 (proj2 (Hm Sample.mongo_old_token))).
    intros [row [[<- | []] [Htok _]]]. discriminate Htok.
Defined.

Lemma token_endpoints_agree_witness :
  fst (Sqlite.get_current_token Sample.request Done Sample.sqlite_old_token)
  = fst (Mongo.get_current_token Sample.request Done Sample.mongo_old_token)
  /\ same_tokens (Sqlite.access_token Sample.sqlite_old_token)
       (Mongo.accesstokens Sample.mongo_old_token)
  /\ (length (Sqlite.access_token Sample.sqlite_old_token) <= 1)%nat.
Proof.
  assert (Hsame : same_tokens (Sqlite.access_token Sample.sqlite_old_token)
                    (Mongo.accesstokens Sample.mongo_old_token))
    by (repeat constructor).
  assert (Hone : (length (Sqlite.access_token Sample.sqlite_old_token)
                  <= 1)%nat) by (simpl; lia).
  split; [|split; assumption].
  exact (proj1 (token_endpoints_agree Sample.request _ _ Hsame Hone) Done).
Defined.

Lemma staff_themes_delete_by_service_witness :
  Mongo.objectId_of (JStr "abc") = None
  /\ Mongo.staff_themes_delete "abc" Done Sample.mongo_db
     = (fail 400 "無効なIDです", Sample.mongo_db)
  /\ Mongo.objectId_of (JStr "000000000000000000000001")
     = Some Sample.festival_id
  /\ fst (Mongo.staff_themes_delete "000000000000000000000001" Done
            Sample.mongo_db) = ok Success.
Proof.
  split; [reflexivity|]. split.
  - exact (proj1 (staff_themes_delete_by_service "abc") Done Sample.mongo_db
             eq_refl).
  - split; [reflexivity|].
    destruct (staff_themes_delete_by_service "000000000000000000000001")
      as (_ & _ & H & _).
    rewrite (H Sample.festival_id Sample.mongo_db []
               (Mongo.Theme.mk Sample.festival_id "文化祭" None None
                  (Some (Sample.midnight 2024 5 10)) (Sample.noon 2024 5 1)
                  true) []
               eq_refl eq_refl eq_refl (fun x (Hx : In x []) => match Hx with end)).
    reflexivity.
Defined.

Lemma staff_messages_read_by_service_witness :
  Mongo.objectId_of (JStr "abc") = None
  /\ Mongo.staff_messages_read "abc" Done Sample.mongo_db
     = (fail 400 "無効なIDです", Sample.mongo_db)
  /\ Mongo.objectId_of (JStr "000000000000000000000002")
     = Some Sample.letter_id
  /\ fst (Mongo.staff_messages_read "000000000000000000000002" Done
            Sample.mongo_db) = ok Success.
Proof.
  split; [reflexivity|]. split.
  - exact (proj1 (staff_messages_read_by_service "abc") Done Sample.mongo_db
             eq_refl).
  - split; [reflexivity|].
    destruct (staff_messages_read_by_service "000000000000000000000002")
      as (_ & H & _).
    exact (proj1 (H Sample.letter_id Sample.mongo_db eq_refl)).
Defined.



Lemma stored_share_flags_witness :
  let shares (name class theme : JsVal) :=
    MessageForm.mk JUndefined (JStr "Taro") JUndefined JUndefined JUndefined
      (JStr "hello") name class theme in
  let loud := shares (JBool true) (JArr []) (JObj []) in
  let quiet := shares (JBool false) JNull (JStr "") in
  let mixed := shares (JStr "false") JUndefined (JNum 0) in
  let now := Sample.noon 2024 5 3 in
  let sqlite_flags (body : MessageForm.t) :=
    map (fun row => (Sqlite.Message.share_name row,
                     Sqlite.Message.share_class row,
                     Sqlite.Message.share_theme row))
      (Sqlite.messages
         (snd (Sqlite.student_messages_post Sample.request body now Done
                 Sample.sqlite_themes))) in
  let mongo_flags (body : MessageForm.t) :=
    map (fun m => (Mongo.Message.share_name m, Mongo.Message.share_class m,
                   Mongo.Message.share_theme m))
      (Mongo.messages
         (snd (Mongo.student_messages_post Sample.request body
                 Sample.letter_id now Done Sample.mongo_themes))) in
  sqlite_flags loud = [(1, 1, 1)]
  /\ sqlite_flags quiet = [(0, 0, 0)]
  /\ sqlite_flags mixed = [(1, 0, 0)]
  /\ mongo_flags loud = [(true, true, true)]
  /\ mongo_flags quiet = [(false, false, false)]
  /\ mongo_flags mixed = [(true, false, false)].
Proof.
  intros shares loud quiet mixed now sqlite_flags mongo_flags.
  pose proof (proj1 (truthy_not_Falsy (JBool true)) eq_refl) as Htrue.
  pose proof (proj1 (truthy_not_Falsy (JArr [])) eq_refl) as Harr.
  pose proof (proj1 (truthy_not_Falsy (JObj [])) eq_refl) as Hobj.
  pose proof (proj1 (truthy_not_Falsy (JStr "false")) eq_refl) as Hstr.
  destruct (stored_share_flags Sample.request loud now) as (Hs1 & Hm1).
  destruct (stored_share_flags Sample.request quiet now) as (Hs2 & Hm2).
  destruct (stored_share_flags Sample.request mixed now) as (Hs3 & Hm3).
  split; [|split; [|split; [|split; [|split]]]].
  - destruct (Hs1 Done Sample.sqlite_themes eq_refl)
      as (row & Hdb & Hn & Hc & Ht).
    unfold sqlite_flags. rewrite Hdb.
    change (Sqlite.messages Sample.sqlite_themes)
      with (@nil Sqlite.Message.t). cbn [map app].
    rewrite (proj2 Hn Htrue), (proj2 Hc Harr), (proj2 Ht Hobj). reflexivity.
  - destruct (Hs2 Done Sample.sqlite_themes eq_refl)
      as (row & Hdb & Hn & Hc & Ht).
    unfold sqlite_flags. rewrite Hdb.
    change (Sqlite.messages Sample.sqlite_themes)
      with (@nil Sqlite.Message.t). cbn [map app].
    rewrite (proj1 Hn Falsy_false), (proj1 Hc Falsy_null),
      (proj1 Ht Falsy_empty). reflexivity.
  - destruct (Hs3 Done Sample.sqlite_themes eq_refl)
      as (row & Hdb & Hn & Hc & Ht).
    unfold sqlite_flags. rewrite Hdb.
    change (Sqlite.messages Sample.sqlite_themes)
      with (@nil Sqlite.Message.t). cbn [map app].
    rewrite (proj2 Hn Hstr), (proj1 Hc Falsy_undefined),
      (proj1 Ht Falsy_zero). reflexivity.
  - destruct (Hm1 Sample.letter_id Done Sample.mongo_themes eq_refl)
      as (m & Hdb & Hn & Hc & Ht).
    unfold mongo_flags. rewrite Hdb.
    change (Mongo.messages Sample.mongo_themes) with (@nil Mongo.Message.t).
    cbn [map app].
    rewrite (proj2 Hn Htrue), (proj2 Hc Harr), (proj2 Ht Hobj). reflexivity.
  - destruct (Hm2 Sample.letter_id Done Sample.mongo_themes eq_refl)
      as (m & Hdb & Hn & Hc & Ht).
    unfold mongo_flags. rewrite Hdb.
    change (Mongo.messages Sample.mongo_themes) with (@nil Mongo.Message.t).
    cbn [map app].
    rewrite (proj1 Hn Falsy_false), (proj1 Hc Falsy_null),
      (proj1 Ht Falsy_empty). reflexivity.
  - destruct (Hm3 Sample.letter_id Done Sample.mongo_themes eq_refl)
      as (m & Hdb & Hn & Hc & Ht).
    unfold mongo_flags. rewrite Hdb.
    change (Mongo.messages Sample.mongo_themes) with (@nil Mongo.Message.t).
    cbn [map app].
    rewrite (proj2 Hn Hstr), (proj1 Hc Falsy_undefined),
      (proj1 Ht Falsy_zero). reflexivity.
Defined.


(** *** The further properties at the sample requests *)

Lemma sample_engine_reads_no_day (d : Date.t) :
  Sample.decimal (Date.isoDate d) = None.
Proof.
  unfold Date.isoDate. cbn [Date.pad String.append].
  unfold Sample.decimal. cbn [Sample.number].
  repeat (destruct (Sample.digit_value (Date.digit _)); [|reflexivity]).
  reflexivity.
Qed.

Lemma current_token_verifies_witness :
  fst (Sqlite.verify_token "old-token" Done Sample.sqlite_old_token)
  = ok (mkVerifyBody true None)
  /\ fst (Mongo.verify_token "old-token" Done Sample.mongo_old_token)
     = ok (mkVerifyBody true None).
Proof.
  destruct (current_token_verifies Sample.request) as [Hs Hm].
  split.
  - exact (proj2 (Hs Sample.sqlite_old_token _ "old-token" eq_refl)).
  - exact (proj2 (Hm Sample.mongo_old_token _ "old-token" eq_refl)).
Defined.

Lemma only_new_token_verifies_witness :
  let now := Sample.noon 2024 5 10 in
  fst (Sqlite.verify_token "old-token" Done
         (snd (Sqlite.generate_url Sample.request "new-token" now Done Done
                 Sample.sqlite_old_token)))
  = unauthorized
  /\ fst (Mongo.verify_token "old-token" Done
            (snd (Mongo.generate_url Sample.request "new-token" 4%N now Done
                    Done Sample.mongo_old_token)))
     = unauthorized.
Proof.
  intros now.
  destruct (only_new_token_verifies Sample.request "new-token" now)
    as [Hs Hm].
  split.
  - apply (proj2 (Hs Done Done Sample.sqlite_old_token "old-token" eq_refl)).
    discriminate.
  - apply (proj2 (Hm 4%N Done Done Sample.mongo_old_token "old-token"
                    eq_refl)).
    discriminate.
Defined.

Lemma sample_stores_consistent :
  sqlite_consistent Sample.sqlite_db /\ mongo_consistent Sample.mongo_db.
Proof.
  split; repeat split; simpl; try lia; repeat constructor;
    intros H; exact H.
Qed.

Lemma stores_stay_consistent_witness :
  sqlite_consistent
    (Sqlite.run [Sqlite.StaffThemesDelete "1" Done;
                 Sqlite.GenerateUrl Sample.request "new-token"
                   (Sample.noon 2024 5 10) Done Failed]
       Sample.sqlite_db)
  /\ mongo_consistent
       (Mongo.run [Mongo.StaffMessagesRead "abc" Done;
                   Mongo.GenerateUrl Sample.request "new-token" 4%N
                     (Sample.noon 2024 5 10) Done Done]
          Sample.mongo_db).
Proof.
  destruct stores_stay_consistent as (Hs & _ & Hm & _).
  split.
  - apply Hs. exact (proj1 sample_stores_consistent).
  - apply Hm. exact (proj2 sample_stores_consistent).
Defined.

Lemma refused_calls_change_nothing_witness :
  fst (Mongo.route (Mongo.StaffThemesDelete "abc" Done) Sample.mongo_db)
  = 400
  /\ snd (Mongo.route (Mongo.StaffThemesDelete "abc" Done) Sample.mongo_db)
     = Sample.mongo_db.
Proof.
  split; [reflexivity|].
  destruct (proj2 refused_calls_change_nothing
              (Mongo.StaffThemesDelete "abc" Done) Sample.mongo_db)
    as [H | (req & uuid & fresh & now & io & Hc & _)].
  - discriminate.
  - exact H.
  - discriminate Hc.
Defined.

Lemma sqlite_staff_messages_listing_witness :
  exists rows,
    fst (Sqlite.staff_messages_get Done Sample.sqlite_db) = ok rows
    /\ Permutation (map Sqlite.MessageRow.message rows)
         (Sqlite.messages Sample.sqlite_db).
Proof.
  destruct (sqlite_staff_messages_listing Sample.sqlite_db)
    as (rows & Hrows & Hperm & _).
  - exact (proj1 (proj2 (proj2 (proj1 sample_stores_consistent)))).
  - exists rows. split; assumption.
Defined.

Lemma mongo_staff_messages_listing_witness :
  exists messages,
    fst (Mongo.staff_messages_get Done Sample.mongo_db)
    = ok (map (Mongo.format_message (Mongo.themes Sample.mongo_db)) messages)
    /\ Permutation messages (Mongo.messages Sample.mongo_db).
Proof.
  destruct (mongo_staff_messages_listing Sample.mongo_db)
    as (messages & Hlist & Hperm & _).
  - exact (proj1 (proj2 (proj2 (proj2 sample_stores_consistent)))).
  - exists messages. split; assumption.
Defined.

Lemma student_themes_among_staff_themes_witness :
  exists t,
    listed (fst (Sqlite.student_themes_get (Sample.noon 2024 5 10) Done
                   Sample.sqlite_db)) t
    /\ listed (fst (Sqlite.staff_themes_get Done Sample.sqlite_db)) t.
Proof.
  assert (H : exists t,
            listed (fst (Sqlite.student_themes_get (Sample.noon 2024 5 10)
                           Done Sample.sqlite_db)) t).
  { eexists. eexists. split; [reflexivity | left; reflexivity]. }
  destruct H as [t Ht]. exists t. split; [exact Ht|].
  exact (proj1 (student_themes_among_staff_themes (Sample.noon 2024 5 10))
           Sample.sqlite_db t Ht).
Defined.

Lemma deactivated_theme_leaves_listings_witness :
  let v := (Mongo.Theme.mk Sample.festival_id "文化祭" None None
              (Some (Sample.midnight 2024 5 10)) (Sample.noon 2024 5 1) true,
            Sample.festival_id) in
  listed (fst (Mongo.staff_themes_get Done Sample.mongo_db)) v
  /\ (listed (fst (Mongo.staff_themes_get Done
                     (snd (Mongo.staff_themes_delete
                             "000000000000000000000001" Done
                             Sample.mongo_db)))) v
      <-> listed (fst (Mongo.staff_themes_get Done Sample.mongo_db)) v
          /\ snd v <> Sample.festival_id).
Proof.
  intros v. split.
  - eexists. split; [reflexivity | left; reflexivity].
  - exact (proj1 (proj2 (deactivated_theme_leaves_listings
                           "000000000000000000000001"
                           (Sample.noon 2024 5 10))
                    Sample.mongo_db Sample.festival_id v eq_refl
                    (proj1 (proj2 (proj2 (proj2 sample_stores_consistent)))))).
Defined.

Lemma sqlite_theme_then_message_listed_witness :
  exists row,
    listed (fst (Sqlite.staff_messages_get Done
                   (snd (Sqlite.student_messages_post Sample.request
                           (Sample.letter (JNum 1)) (Sample.noon 2024 5 2)
                           Done Sample.sqlite_themes)))) row
    /\ Sqlite.MessageRow.theme_title row = Sqlite.SText "文化祭".
Proof.
  destruct (sqlite_theme_then_message_listed Sample.festival Sample.request
              (Sample.letter (JNum 1)) (Sample.noon 2024 5 1)
              (Sample.noon 2024 5 2) Sqlite.empty _ _ eq_refl
              (or_introl (conj eq_refl eq_refl)) eq_refl)
    as (row & theme & Hlisted & _ & _ & _ & _ & Htitle & _).
  exists row. split; [exact Hlisted | exact (Htitle _ eq_refl)].
Defined.

Lemma mongo_theme_then_message_listed_witness :
  exists v,
    listed (fst (Mongo.staff_messages_get Done
                   (snd (Mongo.student_messages_post Sample.request
                           (Sample.letter (JStr "000000000000000000000001"))
                           Sample.letter_id (Sample.noon 2024 5 2) Done
                           Sample.mongo_themes)))) v
    /\ Mongo.MessageView.theme_title v = Some "文化祭".
Proof.
  assert (H1 : fst (Mongo.staff_themes_post Sample.festival
                      Sample.festival_id (Sample.noon 2024 5 1) Done
                      Mongo.empty)
               = ok (Mongo.mkThemeBody Sample.festival_id "文化祭" None None
                       (Some (Sample.midnight 2024 5 10))))
    by (vm_compute; reflexivity).
  assert (H2 : fst (Mongo.student_messages_post Sample.request
                      (Sample.letter (JStr "000000000000000000000001"))
                      Sample.letter_id (Sample.noon 2024 5 2) Done
                      (snd (Mongo.staff_themes_post Sample.festival
                              Sample.festival_id (Sample.noon 2024 5 1) Done
                              Mongo.empty)))
               = ok (mkSubmitBody Sample.letter_id "お便りを送信しました"))
    by (vm_compute; reflexivity).
  destruct (mongo_theme_then_message_listed Sample.festival Sample.request
              (Sample.letter (JStr "000000000000000000000001"))
              Sample.festival_id Sample.letter_id (Sample.noon 2024 5 1)
              (Sample.noon 2024 5 2) Mongo.empty _ _ H1 eq_refl eq_refl H2)
    as (v & Hlisted & _ & Htitle & _).
  exists v. split; [exact Hlisted | exact Htitle].
Defined.

Lemma sqlite_student_listing_by_day_witness :
  let t := Sqlite.Theme.mk 1 (Sqlite.SText "文化祭") Sqlite.SNull Sqlite.SNull
             (Sqlite.SText "2024-05-10") (Sample.noon 2024 5 1) 1 in
  listed (fst (Sqlite.student_themes_get (Sample.noon 2024 5 10) Done
                 Sample.sqlite_db)) t
  <-> In t (Sqlite.themes Sample.sqlite_db)
      /\ Sqlite.Theme.is_active t = 1
      /\ (forall d, None = Some d ->
                    Date.day_leb d (Sample.noon 2024 5 10) = true)
      /\ (forall d, Some (Sample.midnight 2024 5 10) = Some d ->
                    Date.day_leb (Sample.noon 2024 5 10) d = true).
Proof.
  intros t.
  apply (sqlite_student_listing_by_day (Sample.noon 2024 5 10)
           Sample.sqlite_db (fun _ => None)
           (fun _ => Some (Sample.midnight 2024 5 10))).
  - intros d _. apply sample_engine_reads_no_day.
  - unfold Date.wf. simpl. lia.
  - intros x [<- | []]. split; [reflexivity|].
    split; [unfold Date.wf; simpl; lia | reflexivity].
Defined.

Lemma marked_message_listed_read_witness :
  exists row,
    listed (fst (Sqlite.staff_messages_get Done
                   (snd (Sqlite.staff_messages_read "1" Done
                           Sample.sqlite_db)))) row
    /\ Sqlite.numeric_of_text "1"
       = Some (Sqlite.Message.id (Sqlite.MessageRow.message row))
    /\ Sqlite.Message.is_read (Sqlite.MessageRow.message row) = 1.
Proof.
  assert (H : exists row,
            listed (fst (Sqlite.staff_messages_get Done
                           (snd (Sqlite.staff_messages_read "1" Done
                                   Sample.sqlite_db)))) row
            /\ Sqlite.numeric_of_text "1"
               = Some (Sqlite.Message.id (Sqlite.MessageRow.message row))).
  { eexists. split; [eexists; split; [reflexivity | left; reflexivity]|].
    reflexivity. }
  destruct H as (row & Hlisted & Hid). exists row.
  split; [exact Hlisted|]. split; [exact Hid|].
  exact (proj1 (proj1 (marked_message_listed_read "1") Sample.sqlite_db row)
           Hlisted Hid).
Defined.

Lemma created_theme_is_listed_witness :
  exists t,
    Sqlite.Theme.id t = 1
    /\ listed (fst (Sqlite.staff_themes_get Done Sample.sqlite_themes)) t.
Proof.
  destruct (proj1 (created_theme_is_listed Sample.festival
                     (Sample.noon 2024 5 1)) Sqlite.empty _ eq_refl)
    as [(t & Hid & Hlisted & _) _].
  exists t. split; [exact Hid | exact Hlisted].
Defined.
